(* ===== verification/_CoqProject ===== *)
-Q . S2P
Prelude.v
StringTools.v
FrameCodec.v
Socket.v
Credential.v
Client.v
StatusPoller.v
Commands.v
Json.v
JsonCommands.v
