(* ===== verification/Prelude.v ===== *)
(** * A verification development of the UrBackup wx frontend's [Connector]

    The program is [src/Connector.cpp]: the client half of the length-framed
    text protocol that the tray frontend speaks with the local backup daemon
    on 127.0.0.1:35623.  Its parts (spec.md, section 2) and how they
    interact:

    - CredentialProvider: the process-wide statics of [Connector] ([pw],
      [pw_change], [error], [busy], lines 30-33) and [getPasswordData]
      (lines 73-119), called by every command before it sends;
    - CommandClient: [getResponse] (lines 122-239) connects or reuses a
      socket, frames and sends [cmd#pw=<password>[&args]] and waits for
      one framed reply; every typed command calls it;
    - ResponseDecoder: the typed commands (lines 245-538) decode the reply
      as a sentinel ([startBackup], [setPause], ...), as newline log
      records ([getLogEntries], [getLogdata]) or as a JSON document
      ([getSharedPaths], [getStatusDetails], [getCapabilities],
      [restoreOk]);
    - StatusPoller: [initStatus] and [SStatus::isAvailable] (lines
      540-731) send one [STATUS] command and then read the status lines
      the daemon pushes on the same connection.

    They rely on code that is not under [src/]: the framing class
    [CTCPStack] and the string helpers of [stringtools.h], modelled from
    the spec and marked [spec_modelled] in the manifest; and two
    libraries, wxWidgets' socket and event loop and jsoncpp, which are
    environment models ([Socket], [Json]) rather than models of code.

    Files, in dependency order, and what they model:
    - [Prelude] (this file): the state monad [ST] with its notation
      [let*]/[do*] in [st_scope], the hint databases [conn] and [conn_rw],
      the tactics, shared lemmas on lists, strings and integers.
    - [StringTools]: [Tokenize], [TokenizeMail], [getuntil]/[getafter],
      [atoi]/[watoi] as glibc's [(int) strtol] (saturated at the bounds
      of a 64-bit [long], then cut to an [int] modulo [2^32]), [nconvert],
      [ParseParamStr], [linecount]/[getline]; the decimal round trip on
      the values of an [int] and the tokenize round trip.
    - [FrameCodec]: the class [FrameCodec] and its laws [FrameCodecLaws]
      (spec 4.1) with [CTCPStack] as the instance: 4-byte little-endian
      length header, [Send], [AddData], [getPacket]; round trip,
      split-frame and stream lemmas.
    - [Socket]: the state [St] (the statics as [Connector.t] plus the
      world: clock, the daemon's behaviour for successive connection
      attempts, files, everything written, the flags each
      [wxTheApp->Yield] lets the GUI see, and the socket objects: each
      [new wxSocketClient] takes the next identity [next_sock], each
      [Destroy()] is recorded in [destroyed]) and the socket operations.
    - [Credential]: [getPasswordData]: the cache, the file read, the flags.
    - [Client]: [getResponse] with its two wait loops, [read_loop] and
      the [ScopedSocket] guard ([release], its destructor).  Theorems: the
      reply of a frame read whole, every failure path with its flags,
      [busy] cleared on every return and set while waiting, reuse of a
      caller's connection, socket ownership (every socket the call owns is
      destroyed exactly once or handed back, [getResponse_sockets]),
      termination and fuel adequacy, the bound of [timeoutms + 99] ms on
      an exchange, a zero [timeoutms] failing every exchange, and the
      findings (split or long frames give an empty reply with [error]
      clear, a second frame read with the reply on a kept connection is
      lost and the next call times out, and [error] is
      not latched: the next call forgets a failure,
      [getResponse_error_not_latched]).
    - [StatusPoller]: [SStatus], [initStatus] (with [drop_errored]),
      [isAvailable] and the status-line decoder; the abstract poller of
      spec 4.4 ([PollSpec], [poll_spec_step]) and the refinement
      [isAvailable_refines]: under the simulation relation [poll_rel] every
      poll idles, delivers the next message of the stream, or errors, and
      a run of polls delivers the stream in order
      ([polls_in_stream_order]);
      successive polls as the step relation [poll_reach] with an invariant
      proved by rule induction, the safety of polling while [hasError()]
      is false, socket ownership of a poll, the round trip of a printed
      status line through [apply_status_line], and the findings (a split
      frame is an error that keeps the socket open, and a later
      [initStatus] reuses it mid-frame; the error is not terminal, since a
      poll never reads it; a buffered frame waits for new bytes; three
      fields reset on every update).
    - [Commands]: the sentinel and log-line commands, with the sentinel
      mapping, the round trip of [getLogdata]'s decoder on printed
      records, the [int] width of a log id ([getLogEntries] wraps ids of
      [2^31] and more) and the round trip of [saveSharedPaths]' arguments
      through the daemon's [Tokenize]/[=] split.
    - [Json]: jsoncpp's values, accessors and reader as an environment
      model; the exception type [exc] and the exception-and-state monad
      [EST] of a [try] block; the class [JsonReader], and [JsonReaderWf]
      for readers that build only well-typed values ([value_wf]: 64-bit
      integers), which the model's reader satisfies.
    - [JsonCommands]: [getSharedPaths], [getStatusDetails],
      [getCapabilities], [restoreOk] over any [JsonReader]: the directory
      filter, the status round trip, the defaults of optional members, the
      C++ types of the decoded fields ([getStatusDetails_typed]), and the
      findings (a bad entry truncates the directory list, a failed
      status keeps fields decoded before the failure, capability bits of
      2^31 and more are lost, [restoreOk] lets exceptions escape).

    Time and fuel.  Time is a [Z] clock in milliseconds.  A wait that
    finds nothing advances the clock by its slice (100 ms in
    [getResponse], 10 ms in [isAvailable]); a wait that finds its event
    returns when the event happens.  The wait loops of [getResponse] are
    the Fixpoint [wait_loop] on the fuel [loop_fuel] =
    [timeoutms - (now - starttime) + 1]: every failed round lets at least
    a millisecond pass, so the deadline is reached within that many rounds,
    and [wait_loop_fuel_wait_for] proves that any larger fuel computes the
    same result.  [read_loop] runs on fuel 1, which [read_loop_once] proves
    is as good as any.  The JSON loops run [size()] times, exactly as the
    code's [for] loops.  The model's JSON reader runs on the fuel
    [2 * length doc + 2], which [parse_value_fuel] proves is enough (a
    parse consumes a character before each nested call, and an array or
    object makes two calls per element); the commands' theorems assume
    only what the reader returns.

    Not modelled: the GUI code run inside [wxTheApp->Yield] (it may call
    the [Connector] again; here a yield only records what the GUI could
    observe); the escaping functions of [escape.h] (section variables of
    [Commands]); the percent-unescaping of [ParseParamStr] and the UTF-8
    conversions of [wxString], taken as the identity; what [TokenizeMail]
    does beyond [Tokenize] (its source is not in the repository, and it
    is taken as [Tokenize]); the default
    arguments of [Connector.h] (section variables); real numbers, comments
    and the nesting limit of jsoncpp's reader; the [_DEBUG] branch of
    [getPasswordData]. *)

From Stdlib Require Export String Ascii List ZArith Lia.
From stdpp Require Export base list strings gmap.
Export ListNotations.

(** ** The state monad of the development *)

Definition ST (S A : Type) : Type := S -> A * S.

Definition st_ret {S A} (a : A) : ST S A := fun s => (a, s).
Definition st_bind {S A B} (m : ST S A) (f : A -> ST S B) : ST S B :=
  fun s => let '(a, s') := m s in f a s'.
Definition st_get {S} : ST S S := fun s => (s, s).
Definition st_put {S} (s : S) : ST S unit := fun _ => (tt, s).
Definition st_modify {S} (f : S -> S) : ST S unit := fun s => (tt, f s).
Definition st_gets {S A} (f : S -> A) : ST S A := fun s => (f s, s).

Declare Scope st_scope.
Delimit Scope st_scope with st.
Notation "'let*' x ':=' m 'in' k" := (st_bind m (fun x => k))
  (at level 10, x name, m at level 100, k at level 200) : st_scope.
Notation "'let*' ' p ':=' m 'in' k" :=
  (st_bind m (fun x => match x with p => k end))
  (at level 10, p pattern, m at level 100, k at level 200) : st_scope.
Notation "'do*' m ';' k" := (st_bind m (fun _ => k))
  (at level 10, m at level 100, k at level 200) : st_scope.

Lemma st_bind_ret_l {S A B} (a : A) (f : A -> ST S B) s :
  st_bind (st_ret a) f s = f a s.
Proof. reflexivity. Qed.

Lemma st_bind_assoc {S A B C} (m : ST S A) (f : A -> ST S B) (g : B -> ST S C) s :
  st_bind (st_bind m f) g s = st_bind m (fun a => st_bind (f a) g) s.
Proof. unfold st_bind. by destruct (m s). Qed.

Lemma st_bind_eq {S A B} (m : ST S A) (f : A -> ST S B) s a s' :
  m s = (a, s') -> st_bind m f s = f a s'.
Proof. intros H. unfold st_bind. by rewrite H. Qed.

Create HintDb conn.
Create Rewrite HintDb conn_rw.
#[export] Hint Rewrite @st_bind_ret_l @st_bind_assoc : conn_rw.

(** [st_step] unfolds one layer of the monad in the goal. *)
Ltac st_step :=
  unfold st_bind, st_ret, st_get, st_put, st_modify, st_gets; simpl.

(** [case_if] splits the first boolean test of the goal, keeping its
    equation. *)
Ltac case_if :=
  match goal with
  | |- context [if ?b then _ else _] =>
      let E := fresh "E" in destruct b eqn:E
  end.

(** ** Shared lemmas on lists, strings and integers *)

Lemma length_list_ascii_of_string (s : string) :
  length (list_ascii_of_string s) = String.length s.
Proof. induction s; simpl; auto. Qed.

Lemma list_ascii_of_string_append (s t : string) :
  list_ascii_of_string (s ++ t) = list_ascii_of_string s ++ list_ascii_of_string t.
Proof. induction s; simpl; f_equal; auto. Qed.

Lemma string_of_list_ascii_app (l m : list ascii) :
  string_of_list_ascii (l ++ m) = (string_of_list_ascii l ++ string_of_list_ascii m)%string.
Proof. induction l as [|a l IH]; [done | cbn; by rewrite IH]. Qed.

Lemma string_eqb_refl (s : string) : (s =? s)%string = true.
Proof. apply String.eqb_refl. Qed.

Lemma string_eqb_neq (s t : string) : s <> t -> (s =? t)%string = false.
Proof. intros H. destruct (String.eqb_spec s t); congruence. Qed.

#[export] Hint Rewrite length_list_ascii_of_string list_ascii_of_string_append
  string_of_list_ascii_of_string list_ascii_of_string_of_list_ascii
  string_eqb_refl : conn_rw.

Lemma take_app_exact {A} (l m : list A) : take (length l) (l ++ m) = l.
Proof. by rewrite take_app_length. Qed.

Lemma drop_app_exact {A} (l m : list A) : drop (length l) (l ++ m) = m.
Proof. by rewrite drop_app_length. Qed.

#[export] Hint Rewrite @take_app_exact @drop_app_exact : conn_rw.

Lemma Z_ltb_ge (a b : Z) : (b <= a)%Z -> (a <? b)%Z = false.
Proof. intros H. apply Z.ltb_ge. exact H. Qed.

Lemma Z_ltb_lt' (a b : Z) : (a < b)%Z -> (a <? b)%Z = true.
Proof. intros H. apply Z.ltb_lt. exact H. Qed.

#[export] Hint Resolve Z_ltb_ge Z_ltb_lt' string_eqb_neq : conn.

Lemma drop_cons_nth {A} (l : list A) (i : nat) (x : A) (rest : list A) (d : A) :
  drop i l = x :: rest -> nth i l d = x /\ drop (S i) l = rest.
Proof.
  revert l. induction i as [|i IH]; intros [|y l] H; simpl in *; try discriminate.
  - by injection H as -> ->.
  - by apply IH.
Qed.

Lemma drop_nil_nth {A} (l : list A) (i : nat) (d : A) :
  drop i l = [] -> nth i l d = d /\ drop (S i) l = [].
Proof.
  revert l. induction i as [|i IH]; intros [|y l] H; simpl in *; try discriminate; try done.
  - by apply IH.
Qed.
