(* ===== verification/StringTools.v ===== *)
(** * StringTools: the string helpers [Connector.cpp] calls

    [stringtools.h] is not part of [src/]; these definitions are modelled
    from the spec (section 4.3) and from how [Connector.cpp] uses them:
    - [Tokenize(str, toks, seps)] and [TokenizeMail]: split at every
      character of [seps], keeping empty tokens, so that positional fields
      keep their positions;
    - [getuntil(sep, s)] / [getafter(sep, s)]: the text before / after the
      first occurrence of [sep], both empty when [sep] does not occur;
    - [atoi] / [watoi]: glibc's [(int) strtol(s, NULL, 10)]: optional
      [isspace] blanks, an optional sign and the longest run of decimal
      digits (0 when there are none), saturated at the bounds of a 64-bit
      [long] and then cut to a 32-bit [int] modulo [2^32];
    - [nconvert]: the decimal text of an integer;
    - [ParseParamStr]: [key=value&key=value...] into a map, a later key
      replacing an earlier one; a part with no [=] maps its text to the
      empty value (the percent-unescaping of values is not modelled);
    - [linecount] / [getline]: the lines of a text, split at ["\n"].
    Wide strings ([std::wstring], [wxString]) are the same strings here:
    [ConvertToUnicode], [wnarrow] and [wxString::FromUTF8] are identities.

    The theorems: [Tokenize] and joining are inverse (round trip); [atoi]
    reads back what the decimal printer prints exactly on the values of
    an [int], and larger values saturated and wrapped ([atoi_nconvert]);
    the [getuntil]/[getafter] split reconstructs the line around its
    first separator.  [TokenizeMail] is taken as [Tokenize]: its source
    is not in the repository. *)

From S2P Require Import Prelude.

Local Open Scope string_scope.

(** ** Splitting *)

Fixpoint mem_char (c : ascii) (s : string) : bool :=
  match s with
  | EmptyString => false
  | String d rest => (c =? d)%char || mem_char c rest
  end.

Fixpoint Tokenize_aux (str : string) (seps : string) (cur : string) : list string :=
  match str with
  | EmptyString => [cur]
  | String c rest =>
      if mem_char c seps
      then cur :: Tokenize_aux rest seps ""
      else Tokenize_aux rest seps (cur ++ String c EmptyString)
  end.

Definition Tokenize (str seps : string) : list string := Tokenize_aux str seps "".

Definition TokenizeMail (str seps : string) : list string := Tokenize str seps.

(** The tokens joined again by the (single) separator. *)
Fixpoint join (sep : string) (l : list string) : string :=
  match l with
  | [] => ""
  | [x] => x
  | x :: xs => x ++ sep ++ join sep xs
  end.

(** ** [getuntil] / [getafter] *)

(** The position of the first occurrence of [sep] in [s]. *)
Fixpoint find_sub (sep s : string) : option nat :=
  if String.prefix sep s then Some 0%nat
  else match s with
       | EmptyString => None
       | String _ rest => option_map S (find_sub sep rest)
       end.

Definition getuntil (sep s : string) : string :=
  match find_sub sep s with
  | Some off => substring 0 off s
  | None => ""
  end.

Definition getafter (sep s : string) : string :=
  match find_sub sep s with
  | Some off => substring (off + String.length sep) (String.length s) s
  | None => ""
  end.

(** ** Numbers *)

Definition is_digit (c : ascii) : bool :=
  (48 <=? nat_of_ascii c)%nat && (nat_of_ascii c <=? 57)%nat.

Definition digit_val (c : ascii) : Z := Z.of_nat (nat_of_ascii c - 48).

(** The value of the leading digits, read left to right. *)
Fixpoint digits_value (acc : Z) (s : string) : Z :=
  match s with
  | String c rest => if is_digit c then digits_value (10 * acc + digit_val c) rest else acc
  | EmptyString => acc
  end.

(** [isspace] in the C locale: blank, [\t], [\n], [\v], [\f], [\r]. *)
Definition is_space (c : ascii) : bool :=
  (c =? " ")%char || ((9 <=? nat_of_ascii c)%nat && (nat_of_ascii c <=? 13)%nat).

Fixpoint skip_blanks (s : string) : string :=
  match s with
  | String c rest => if is_space c then skip_blanks rest else s
  | EmptyString => s
  end.

(** The value of the text [strtol] reads: blanks, an optional sign and the
    longest run of decimal digits, as an unbounded integer. *)
Definition strtol_value (s : string) : Z :=
  match skip_blanks s with
  | String "-" rest => - digits_value 0 rest
  | String "+" rest => digits_value 0 rest
  | t => digits_value 0 t
  end.

(** [long] of an LP64 target, where [strtol] saturates. *)
Definition long_min : Z := - 2 ^ 63.
Definition long_max : Z := 2 ^ 63 - 1.

Definition strtol (s : string) : Z := Z.max long_min (Z.min long_max (strtol_value s)).

(** The conversion of a [long] to [int], modulo [2^32] (GCC's choice for
    this implementation-defined conversion). *)
Definition to_int (z : Z) : Z := ((z + 2 ^ 31) mod 2 ^ 32) - 2 ^ 31.

(** glibc's [atoi(s)] is [(int) strtol(s, NULL, 10)]. *)
Definition atoi (s : string) : Z := to_int (strtol s).

Definition watoi (s : string) : Z := atoi s.

Definition digit_char (d : Z) : ascii := ascii_of_nat (48 + Z.to_nat d).

(** The decimal digits of a natural number; each round divides by 10, so
    the bit length of the number plus one is more fuel than it needs. *)
Fixpoint pos_digits (fuel : nat) (n : Z) (acc : string) : string :=
  match fuel with
  | O => acc
  | S f =>
      let acc' := String (digit_char (n mod 10)) acc in
      if (n <? 10)%Z then acc' else pos_digits f (n / 10) acc'
  end.

Definition digits_fuel (n : Z) : nat := S (Z.to_nat (Z.log2 n)).

Definition nconvert (i : Z) : string :=
  if (i <? 0)%Z then "-" ++ pos_digits (digits_fuel (- i)) (- i) ""
  else pos_digits (digits_fuel i) i "".

(** [nconvert(bool)]: ["1"] or ["0"]. *)
Definition nconvert_bool (b : bool) : string := if b then "1" else "0".

(** ** Parameter strings *)

Definition split_kv (part : string) : string * string :=
  match find_sub "=" part with
  | Some off => (substring 0 off part, substring (S off) (String.length part) part)
  | None => (part, "")
  end.

Definition ParseParamStr (pstr : string) : gmap string string :=
  fold_left (fun m part => let '(k, v) := split_kv part in <[k := v]> m)
            (Tokenize pstr "&") ∅.

(** ** Lines *)

Definition linecount (s : string) : nat := length (Tokenize s (String "010" EmptyString)).

Definition getline (i : nat) (s : string) : string :=
  nth i (Tokenize s (String "010" EmptyString)) "".

(** No character of [x] is a separator. *)
Definition no_sep (seps x : string) : Prop := forall c, mem_char c x = true -> mem_char c seps = false.

(** ** The decimal round trip *)

#[local] Arguments digit_char : simpl never.

Lemma digit_char_spec (d : Z) : (0 <= d < 10)%Z ->
  is_digit (digit_char d) = true /\ digit_val (digit_char d) = d.
Proof.
  intros Hd. unfold is_digit, digit_val, digit_char.
  rewrite nat_ascii_embedding by lia. split.
  - apply andb_true_intro; split; apply Nat.leb_le; lia.
  - lia.
Qed.

(** The digits printed for [n] are read back as [n], whatever was read
    before ([a]) and whatever follows ([acc]). *)
Lemma digits_value_pos_digits (f : nat) (n a : Z) (acc : string) :
  (0 <= n < 10 ^ Z.of_nat f)%Z ->
  exists k, digits_value a (pos_digits f n acc) = digits_value (a * 10 ^ Z.of_nat k + n) acc.
Proof.
  revert n a acc. induction f as [|f IH]; intros n a acc Hn.
  - exists 0%nat. cbn [pos_digits]. change (10 ^ Z.of_nat 0)%Z with 1%Z in *. f_equal. lia.
  - cbn [pos_digits].
    destruct (digit_char_spec (n mod 10)) as [Hd Hv]; [apply Z.mod_pos_bound; lia|].
    destruct (n <? 10)%Z eqn:E.
    + apply Z.ltb_lt in E. exists 1%nat. cbn [digits_value]. rewrite Hd, Hv.
      change (10 ^ Z.of_nat 1)%Z with 10%Z. f_equal.
      rewrite Z.mod_small by lia. lia.
    + apply Z.ltb_ge in E.
      destruct (IH (n / 10)%Z a (String (digit_char (n mod 10)%Z) acc)) as [k Hk].
      { split; [apply Z.div_pos; lia|]. apply Z.div_lt_upper_bound; [lia|].
        rewrite Nat2Z.inj_succ, Z.pow_succ_r in Hn by lia. lia. }
      exists (S k). rewrite Hk. cbn [digits_value]. rewrite Hd, Hv. f_equal.
      rewrite Nat2Z.inj_succ, Z.pow_succ_r by lia.
      pose proof (Z.div_mod n 10 ltac:(lia)). lia.
Qed.

(** The printed digits start with a digit. *)
Lemma pos_digits_head (f : nat) (n : Z) (acc : string) :
  (0 <= n)%Z -> exists d rest, pos_digits (S f) n acc = String (digit_char d) rest /\ (0 <= d < 10)%Z.
Proof.
  revert n acc. induction f as [|f IH]; intros n acc Hn; cbn [pos_digits].
  - destruct (n <? 10)%Z; eexists _, _; (split; [reflexivity|]); apply Z.mod_pos_bound; lia.
  - destruct (n <? 10)%Z eqn:E.
    + eexists _, _; split; [reflexivity|]. apply Z.mod_pos_bound; lia.
    + apply IH. apply Z.div_pos; lia.
Qed.

Lemma digits_fuel_enough (n : Z) : (0 <= n)%Z -> (0 <= n < 10 ^ Z.of_nat (digits_fuel n))%Z.
Proof.
  intros Hn. split; [exact Hn|]. unfold digits_fuel.
  rewrite Nat2Z.inj_succ, Z2Nat.id by apply Z.log2_nonneg.
  destruct (Z.eq_dec n 0%Z) as [->|Hne]; [reflexivity|].
  apply Z.lt_le_trans with (2 ^ Z.succ (Z.log2 n))%Z.
  - apply Z.log2_spec. lia.
  - apply Z.pow_le_mono_l. lia.
Qed.

(** A text that starts with a digit is read by [strtol] as its digits. *)
Lemma strtol_value_digit_start (d : Z) (rest : string) :
  (0 <= d < 10)%Z -> strtol_value (String (digit_char d) rest) = digits_value 0 (String (digit_char d) rest).
Proof.
  intros Hd.
  assert (d = 0 \/ d = 1 \/ d = 2 \/ d = 3 \/ d = 4 \/ d = 5 \/ d = 6 \/ d = 7 \/ d = 8 \/ d = 9)%Z
    as Hc by lia.
  repeat destruct Hc as [->|Hc]; try subst d; reflexivity.
Qed.

(** [strtol] reads back the value of every integer [nconvert] prints. *)
Lemma strtol_value_nconvert (i : Z) : strtol_value (nconvert i) = i.
Proof.
  unfold nconvert. destruct (i <? 0)%Z eqn:E.
  - apply Z.ltb_lt in E. unfold strtol_value.
    change ("-" ++ pos_digits (digits_fuel (- i)) (- i) "")
      with (String "-" (pos_digits (digits_fuel (- i)) (- i) "")).
    cbn [skip_blanks]. change (is_space "-") with false. cbv iota.
    destruct (digits_value_pos_digits (digits_fuel (- i)) (- i) 0 "") as [k Hk];
      [apply digits_fuel_enough; lia|].
    rewrite Hk. cbn [digits_value]. lia.
  - apply Z.ltb_ge in E.
    destruct (digits_value_pos_digits (digits_fuel i) i 0 "") as [k Hk]; [by apply digits_fuel_enough|].
    unfold digits_fuel in *.
    destruct (pos_digits_head (Z.to_nat (Z.log2 i)) i "" E) as (d & rest & Hs & Hd).
    rewrite Hs, strtol_value_digit_start, <- Hs, Hk by exact Hd. cbn [digits_value]. lia.
Qed.

(** [atoi] of a printed integer: saturated to a [long], then cut to an [int]. *)
Lemma atoi_nconvert (i : Z) : atoi (nconvert i) = to_int (Z.max long_min (Z.min long_max i)).
Proof. unfold atoi, strtol. by rewrite strtol_value_nconvert. Qed.

(** [to_int] is the identity exactly on the values of an [int]. *)
Lemma to_int_id (z : Z) : (- 2 ^ 31 <= z < 2 ^ 31)%Z -> to_int z = z.
Proof. intros Hz. unfold to_int. rewrite Z.mod_small; lia. Qed.

Lemma to_int_range (z : Z) : (- 2 ^ 31 <= to_int z < 2 ^ 31)%Z.
Proof. unfold to_int. pose proof (Z.mod_pos_bound (z + 2 ^ 31) (2 ^ 32) ltac:(lia)). lia. Qed.

(** Every [int] is read back by [atoi] from its decimal text. *)
Lemma atoi_nconvert_int (i : Z) : (- 2 ^ 31 <= i < 2 ^ 31)%Z -> atoi (nconvert i) = i.
Proof.
  intros Hi. rewrite atoi_nconvert, Z.min_r, Z.max_r by (unfold long_min, long_max; lia).
  by apply to_int_id.
Qed.

(** ** Splitting at the first separator *)

Lemma string_app_cons (c : ascii) (s t : string) : (String c s ++ t) = String c (s ++ t).
Proof. reflexivity. Qed.

Lemma string_app_nil (t : string) : ("" ++ t) = t.
Proof. reflexivity. Qed.

#[export] Hint Rewrite string_app_cons string_app_nil : conn_rw.

Lemma length_string_app (s t : string) : String.length (s ++ t) = (String.length s + String.length t)%nat.
Proof. induction s as [|c s IH]; simpl; [done|]. by rewrite IH. Qed.

(** The first [c] of [s ++ c ++ t] is the one after [s] when [s] has
    none. *)
Lemma find_sub_char (c : ascii) (s t : string) :
  mem_char c s = false -> find_sub (String c "") (s ++ String c t) = Some (String.length s).
Proof.
  induction s as [|d s IH]; intros Hs; [simpl; destruct (ascii_dec c c) as [_|E]; [by destruct t|by destruct E]|].
  cbn [mem_char] in Hs. apply orb_false_iff in Hs as [Hd Hs].
  rewrite string_app_cons. cbn [find_sub String.prefix].
  destruct (ascii_dec c d) as [E|E]; [subst d; by rewrite Ascii.eqb_refl in Hd|].
  rewrite IH by exact Hs. reflexivity.
Qed.

Lemma find_sub_dash (s t : string) :
  mem_char "-" s = false -> find_sub "-" (s ++ "-" ++ t) = Some (String.length s).
Proof. apply find_sub_char. Qed.

Lemma substring_prefix (s x : string) : substring 0 (String.length s) (s ++ x) = s.
Proof. induction s as [|c s IH]; simpl; [by destruct x|]. by rewrite IH. Qed.

Lemma substring_all (t : string) (m : nat) : (String.length t <= m)%nat -> substring 0 m t = t.
Proof.
  revert m. induction t as [|c t IH]; intros m Hm; simpl; [by destruct m|].
  destruct m as [|m]; simpl in Hm; [lia|]. rewrite IH by lia. done.
Qed.

Lemma substring_after (s t : string) (c : ascii) (m : nat) :
  substring (String.length s + 1) m (s ++ String c t) = substring 0 m t.
Proof. induction s as [|d s IH]; simpl; [done|]. exact IH. Qed.

(** The split of a line around its first separator. *)
Lemma getuntil_getafter_dash (s t : string) :
  mem_char "-" s = false -> getuntil "-" (s ++ "-" ++ t) = s /\ getafter "-" (s ++ "-" ++ t) = t.
Proof.
  intros Hs. unfold getuntil, getafter. rewrite find_sub_dash by exact Hs. split.
  - apply substring_prefix.
  - change (String.length "-") with 1%nat. change ("-" ++ t) with (String "-" t).
    rewrite substring_after. apply substring_all. rewrite length_string_app. simpl. lia.
Qed.

(** [ParseParamStr] splits a part at its first [=]. *)
Lemma split_kv_app (k v : string) :
  mem_char "=" k = false -> split_kv (k ++ "=" ++ v) = (k, v).
Proof.
  intros Hk. unfold split_kv. change ("=" ++ v) with (String "=" v).
  rewrite find_sub_char by exact Hk. f_equal.
  - apply substring_prefix.
  - rewrite <- Nat.add_1_r, substring_after. apply substring_all. rewrite length_string_app. simpl. lia.
Qed.

Lemma mem_char_app (c : ascii) (s t : string) : mem_char c (s ++ t) = mem_char c s || mem_char c t.
Proof. induction s as [|d s IH]; [done|]. cbn [mem_char]. rewrite string_app_cons. cbn [mem_char]. by rewrite IH, orb_assoc. Qed.

(** Every character [nconvert] prints for a non-negative number is a
    digit. *)
Lemma pos_digits_chars (f : nat) (n : Z) (acc : string) (c : ascii) :
  (0 <= n)%Z -> mem_char c (pos_digits f n acc) = true -> is_digit c = true \/ mem_char c acc = true.
Proof.
  revert n acc. induction f as [|f IH]; intros n acc Hn H; cbn [pos_digits] in H; [by right|].
  assert (Hd : forall acc', mem_char c (String (digit_char (n mod 10)%Z) acc') = true ->
                 is_digit c = true \/ mem_char c acc' = true).
  { intros acc' H'. cbn [mem_char] in H'. apply orb_true_iff in H' as [E|E]; [|by right].
    apply Ascii.eqb_eq in E. subst c. left. apply digit_char_spec, Z.mod_pos_bound. lia. }
  destruct (n <? 10)%Z; [by apply Hd|].
  destruct (IH (n / 10)%Z _ ltac:(apply Z.div_pos; lia) H) as [E|E]; [by left|by apply Hd].
Qed.

Lemma nconvert_chars (i : Z) (c : ascii) :
  (0 <= i)%Z -> mem_char c (nconvert i) = true -> is_digit c = true.
Proof.
  intros Hi H. unfold nconvert in H. rewrite (proj2 (Z.ltb_ge _ _) Hi) in H.
  by destruct (pos_digits_chars _ _ _ c Hi H).
Qed.

Lemma nconvert_no (c : ascii) (i : Z) : (0 <= i)%Z -> is_digit c = false -> mem_char c (nconvert i) = false.
Proof. intros Hi Hc. destruct (mem_char c (nconvert i)) eqn:E; [|done]. by rewrite (nconvert_chars i c Hi E) in Hc. Qed.

Lemma digit_char_not_dash (d : Z) : (0 <= d < 10)%Z -> ("-" =? digit_char d)%char = false.
Proof.
  intros Hd. apply Ascii.eqb_neq. intros E. apply (f_equal nat_of_ascii) in E.
  unfold digit_char in E. rewrite nat_ascii_embedding in E by lia.
  change (nat_of_ascii "-") with 45%nat in E. lia.
Qed.

Lemma pos_digits_no_dash (f : nat) (n : Z) (acc : string) :
  (0 <= n)%Z -> mem_char "-" acc = false -> mem_char "-" (pos_digits f n acc) = false.
Proof.
  revert n acc. induction f as [|f IH]; intros n acc Hn Hacc; cbn [pos_digits]; [done|].
  assert (Hd : mem_char "-" (String (digit_char (n mod 10)%Z) acc) = false).
  { cbn [mem_char]. rewrite digit_char_not_dash by (apply Z.mod_pos_bound; lia). done. }
  destruct (n <? 10)%Z; [done|]. apply IH; [apply Z.div_pos; lia|exact Hd].
Qed.

Lemma nconvert_no_dash (i : Z) : (0 <= i)%Z -> mem_char "-" (nconvert i) = false.
Proof.
  intros Hi. unfold nconvert. rewrite (proj2 (Z.ltb_ge _ _) Hi).
  by apply pos_digits_no_dash.
Qed.

(** ** Tokenize and join *)

Lemma string_app_nil_r (s : string) : (s ++ "") = s.
Proof. induction s as [|c s IH]; [done|]. by rewrite string_app_cons, IH. Qed.

Lemma string_app_assoc (s t u : string) : ((s ++ t) ++ u) = (s ++ (t ++ u)).
Proof. induction s as [|c s IH]; [done|]. by rewrite !string_app_cons, IH. Qed.

Lemma Tokenize_aux_app (x rest seps cur : string) :
  no_sep seps x -> Tokenize_aux (x ++ rest) seps cur = Tokenize_aux rest seps (cur ++ x).
Proof.
  revert cur. induction x as [|c x IH]; intros cur Hx.
  - by rewrite string_app_nil, string_app_nil_r.
  - rewrite string_app_cons. cbn [Tokenize_aux].
    rewrite (Hx c) by (cbn [mem_char]; by rewrite Ascii.eqb_refl).
    rewrite IH; [by rewrite string_app_assoc|].
    intros d Hd. apply Hx. cbn [mem_char]. by rewrite Hd, orb_true_r.
Qed.

Lemma Tokenize_aux_join (c : ascii) (xs : list string) (x cur : string) :
  Forall (no_sep (String c "")) (x :: xs) ->
  Tokenize_aux (join (String c "") (x :: xs)) (String c "") cur = (cur ++ x) :: xs.
Proof.
  revert x cur. induction xs as [|y ys IH]; intros x cur Hall;
    inversion Hall as [|? ? Hx Hxs]; subst.
  - cbn [join]. rewrite <- (string_app_nil_r x) at 1. rewrite Tokenize_aux_app by exact Hx.
    reflexivity.
  - change (join (String c "") (x :: y :: ys)) with (x ++ String c "" ++ join (String c "") (y :: ys)).
    rewrite Tokenize_aux_app by exact Hx. rewrite string_app_cons, string_app_nil.
    cbn [Tokenize_aux mem_char]. rewrite Ascii.eqb_refl. simpl orb. cbv iota.
    rewrite IH by exact Hxs. by rewrite string_app_nil.
Qed.

(** Lines that contain no line break, joined with the
    separator, are split back by [Tokenize] into the same lines. *)
Theorem Tokenize_join (xs : list string) (c : ascii) :
  xs <> [] -> Forall (no_sep (String c "")) xs ->
  Tokenize (join (String c "") xs) (String c "") = xs.
Proof.
  intros Hne Hall. destruct xs as [|x xs]; [done|].
  unfold Tokenize. rewrite Tokenize_aux_join by exact Hall. by rewrite string_app_nil.
Qed.

(** A text without the character [c] has no separator of [String c ""]. *)
Lemma no_sep_char (c : ascii) (x : string) : mem_char c x = false -> no_sep (String c "") x.
Proof.
  intros Hx d Hd. cbn [mem_char]. rewrite orb_false_r.
  apply Ascii.eqb_neq. intros ->. congruence.
Qed.

(** A joined text has only the characters of its parts and separator. *)
Lemma mem_char_join (c : ascii) (sep : string) (xs : list string) :
  mem_char c sep = false -> Forall (fun x => mem_char c x = false) xs -> mem_char c (join sep xs) = false.
Proof.
  intros Hs. induction 1 as [|x xs Hx Hxs IH]; [done|].
  destruct xs as [|y ys]; [exact Hx|].
  change (join sep (x :: y :: ys)) with (x ++ sep ++ join sep (y :: ys))%string.
  by rewrite !mem_char_app, Hx, Hs, IH.
Qed.
