(* ===== verification/FrameCodec.v ===== *)
(** * FrameCodec: the [CTCPStack] framing layer (spec 4.1)

    [getResponse] and [SStatus::isAvailable] frame every message with
    [CTCPStack]: [Send] writes a 4-byte unsigned little-endian length header
    followed by the payload, [AddData] appends received bytes to the stack's
    buffer and [getPacket] removes one complete frame from the front of the
    buffer.  [CTCPStack] is not part of [src/]: it is modelled from the
    spec.  The C++ signature is [char* getPacket(size_t* packsize)]; when no
    complete frame is buffered it returns NULL and the model sets the
    out-parameter [packsize] to 0, the value the callers in
    [Connector.cpp] test.

    The file states the framing contract as the class [FrameCodecLaws],
    proves that [CTCPStack] satisfies it, and proves the round trip, the
    partial-frame behaviour for every split of a frame into chunks, what
    [getPacket] finds in any prefix of a stream of frames
    ([getPacket_stream]), the decoding of a stream of frames and the
    wrap-around of the header. *)

From S2P Require Import Prelude.

(** ** The framing contract *)

Class FrameCodec (B : Type) := {
  fc_empty : B;
  fc_encode : string -> list ascii;
  fc_feed : B -> list ascii -> B;
  fc_extract : B -> option string * B
}.

(** What a framing layer promises its clients: a complete frame is
    extracted with its payload and the bytes after it stay buffered; a
    proper prefix of a frame yields nothing and changes nothing; feeding is
    associative. *)
Class FrameCodecLaws (B : Type) `{FrameCodec B} := {
  fc_feed_app : forall b x y, fc_feed (fc_feed b x) y = fc_feed b (x ++ y);
  fc_extract_encode : forall p rest, (Z.of_nat (String.length p) < 2 ^ 32)%Z ->
    fc_extract (fc_feed fc_empty (fc_encode p ++ rest)) = (Some p, fc_feed fc_empty rest);
  fc_extract_prefix : forall p pre suf, (Z.of_nat (String.length p) < 2 ^ 32)%Z ->
    pre ++ suf = fc_encode p -> suf <> [] ->
    fc_extract (fc_feed fc_empty pre) = (None, fc_feed fc_empty pre)
}.

(** ** [CTCPStack] *)

Record CTCPStack := mkCTCPStack { buffer : list ascii }.

Definition empty_stack : CTCPStack := mkCTCPStack [].

(** Size of the header, [sizeof(MAX_PACKETSIZE)]. *)
Definition HEADER_SIZE : nat := 4.

(** Byte [k] of a 32-bit unsigned integer, least significant first. *)
Definition u32_byte (n : Z) (k : nat) : ascii :=
  ascii_of_N (Z.to_N (Z.land (Z.shiftr n (8 * Z.of_nat k)) 255)).

Definition u32_le (n : Z) : list ascii := map (u32_byte n) [0; 1; 2; 3]%nat.

Definition le_u32 (h : list ascii) : Z :=
  fold_right (fun c acc => Z.of_N (N_of_ascii c) + 256 * acc)%Z 0%Z h.

(** [Send]: the length is cast to the unsigned 32-bit [MAX_PACKETSIZE],
    so it wraps modulo [2^32]; the payload bytes follow the header. *)
Definition Send (msg : string) : list ascii :=
  u32_le (Z.of_nat (String.length msg) mod 2 ^ 32) ++ list_ascii_of_string msg.

Definition AddData (s : CTCPStack) (data : list ascii) : CTCPStack :=
  mkCTCPStack (buffer s ++ data).

(** [getPacket]: returns the payload, the value written to [packsize],
    and the stack after removing the frame. *)
Definition getPacket (s : CTCPStack) : option string * nat * CTCPStack :=
  let b := buffer s in
  if (length b <? HEADER_SIZE)%nat then (None, 0%nat, s)
  else
    let len := le_u32 (take HEADER_SIZE b) in
    if (Z.of_nat (length b) <? Z.of_nat HEADER_SIZE + len)%Z then (None, 0%nat, s)
    else (Some (string_of_list_ascii (take (Z.to_nat len) (drop HEADER_SIZE b))),
          Z.to_nat len,
          mkCTCPStack (drop (HEADER_SIZE + Z.to_nat len) b)).

(** Repeated extraction, as a client that keeps calling [getPacket] until
    it returns NULL sees the buffer.  Each frame consumes at least
    [HEADER_SIZE] bytes, so [length b] extractions always suffice. *)
Fixpoint drain (fuel : nat) (s : CTCPStack) : list string :=
  match fuel with
  | O => []
  | S f =>
      match getPacket s with
      | (Some p, _, s') => p :: drain f s'
      | (None, _, _) => []
      end
  end.

(** ** The header *)

Lemma u32_byte_spec (n : Z) (k : nat) :
  N_of_ascii (u32_byte n k) = Z.to_N ((n / 2 ^ (8 * Z.of_nat k)) mod 256).
Proof.
  unfold u32_byte.
  rewrite (Z.land_ones _ 8) by lia.
  rewrite Z.shiftr_div_pow2 by lia.
  apply N_ascii_embedding.
  pose proof (Z.mod_pos_bound (n / 2 ^ (8 * Z.of_nat k)) 256 ltac:(lia)).
  change (2^8)%Z with 256%Z.
  lia.
Qed.
Lemma le_u32_u32_le (n : Z) : (0 <= n < 2 ^ 32)%Z -> le_u32 (u32_le n) = n.
Proof.
  intros Hn. unfold le_u32, u32_le. cbn [map fold_right].
  rewrite !u32_byte_spec, !Z2N.id by (apply Z.mod_pos_bound; lia).
  change (2 ^ (8 * Z.of_nat 0))%Z with 1%Z. change (2 ^ (8 * Z.of_nat 1))%Z with 256%Z.
  change (2 ^ (8 * Z.of_nat 2))%Z with (256 * 256)%Z.
  change (2 ^ (8 * Z.of_nat 3))%Z with (256 * 256 * 256)%Z.
  rewrite Z.div_1_r, <- !Z.div_div by lia.
  pose proof (Z.div_mod n 256 ltac:(lia)).
  pose proof (Z.div_mod (n / 256) 256 ltac:(lia)).
  pose proof (Z.div_mod (n / 256 / 256) 256 ltac:(lia)).
  rewrite (Z.mod_small (n / 256 / 256 / 256)) by (split; [apply Z.div_pos; [apply Z.div_pos|]; [apply Z.div_pos|..]; lia | repeat (apply Z.div_lt_upper_bound; [lia|]); lia]).
  lia.
Qed.

Lemma length_u32_le (n : Z) : length (u32_le n) = HEADER_SIZE.
Proof. reflexivity. Qed.

Lemma length_Send (msg : string) : length (Send msg) = (HEADER_SIZE + String.length msg)%nat.
Proof. unfold Send. by rewrite length_app, length_u32_le, length_list_ascii_of_string. Qed.

Lemma take_header_Send (msg : string) (rest : list ascii) :
  take HEADER_SIZE (Send msg ++ rest) = u32_le (Z.of_nat (String.length msg) mod 2 ^ 32).
Proof.
  unfold Send. rewrite <- app_assoc, <- (length_u32_le (Z.of_nat (String.length msg) mod 2 ^ 32)).
  apply take_app_exact.
Qed.

Lemma drop_header_Send (msg : string) (rest : list ascii) :
  drop HEADER_SIZE (Send msg ++ rest) = list_ascii_of_string msg ++ rest.
Proof.
  unfold Send. rewrite <- app_assoc, <- (length_u32_le (Z.of_nat (String.length msg) mod 2 ^ 32)).
  apply drop_app_exact.
Qed.

#[export] Hint Rewrite length_Send take_header_Send drop_header_Send : conn_rw.

(** The header of a frame decodes to the payload length modulo [2^32]. *)
Lemma header_Send (msg : string) (rest : list ascii) :
  le_u32 (take HEADER_SIZE (Send msg ++ rest)) = (Z.of_nat (String.length msg) mod 2 ^ 32)%Z.
Proof.
  rewrite take_header_Send. apply le_u32_u32_le. apply Z.mod_pos_bound. lia.
Qed.

Lemma header_Send_small (msg : string) (rest : list ascii) :
  (Z.of_nat (String.length msg) < 2 ^ 32)%Z ->
  le_u32 (take HEADER_SIZE (Send msg ++ rest)) = Z.of_nat (String.length msg).
Proof. intros H. rewrite header_Send. apply Z.mod_small. lia. Qed.

(** ** Extraction *)

Lemma fold_AddData (chunks : list (list ascii)) (s : CTCPStack) :
  fold_left AddData chunks s = mkCTCPStack (buffer s ++ concat chunks).
Proof.
  revert s. induction chunks as [|c cs IH]; intros s; simpl.
  - destruct s. simpl. by rewrite app_nil_r.
  - rewrite IH. simpl. by rewrite app_assoc.
Qed.

Lemma getPacket_short (b : list ascii) :
  (length b < HEADER_SIZE)%nat -> getPacket (mkCTCPStack b) = (None, 0%nat, mkCTCPStack b).
Proof.
  intros H. unfold getPacket. simpl. by rewrite (proj2 (Nat.ltb_lt _ _) H).
Qed.

(** A complete frame at the front of the buffer is
    extracted with exactly its payload, [packsize] is the payload length,
    and the bytes after the frame stay buffered. *)
Theorem getPacket_Send (msg : string) (rest : list ascii) :
  (Z.of_nat (String.length msg) < 2 ^ 32)%Z ->
  getPacket (mkCTCPStack (Send msg ++ rest)) =
    (Some msg, String.length msg, mkCTCPStack rest).
Proof.
  intros Hlen. unfold getPacket. cbn [buffer].
  rewrite header_Send_small by exact Hlen.
  rewrite length_app, length_Send.
  rewrite (proj2 (Nat.ltb_ge _ _)) by lia.
  rewrite Z_ltb_ge by lia.
  rewrite Nat2Z.id, drop_header_Send, <- length_list_ascii_of_string, take_app_exact.
  rewrite string_of_list_ascii_of_string, length_list_ascii_of_string.
  replace (HEADER_SIZE + String.length msg)%nat with (length (Send msg)) by apply length_Send.
  by rewrite drop_app_exact.
Qed.

Lemma getPacket_prefix (msg : string) (pre suf : list ascii) :
  (Z.of_nat (String.length msg) < 2 ^ 32)%Z ->
  pre ++ suf = Send msg -> suf <> [] ->
  getPacket (mkCTCPStack pre) = (None, 0%nat, mkCTCPStack pre).
Proof.
  intros Hlen Hps Hsuf.
  destruct (Nat.lt_ge_cases (length pre) HEADER_SIZE) as [Hs|Hs]; [by apply getPacket_short|].
  assert (Hl : length pre + length suf = (HEADER_SIZE + String.length msg)%nat)
    by (rewrite <- length_app, Hps; apply length_Send).
  destruct suf as [|c suf]; [congruence|]. simpl in Hl.
  assert (Hh : take HEADER_SIZE pre = take HEADER_SIZE (Send msg ++ [])).
  { rewrite app_nil_r, <- Hps, take_app_le by lia. reflexivity. }
  unfold getPacket. cbn [buffer].
  rewrite (proj2 (Nat.ltb_ge _ _) Hs), Hh, header_Send_small by exact Hlen.
  unfold HEADER_SIZE in *. rewrite Z_ltb_lt' by lia. reflexivity.
Qed.

(** [getPacket] on any prefix [b] of a stream that starts with the frame
    of [m] finds nothing, or finds exactly [m] and leaves the rest of the
    prefix buffered. *)
Lemma getPacket_stream (m : string) (b r t : list ascii) :
  (Z.of_nat (String.length m) < 2 ^ 32)%Z -> (b ++ r = Send m ++ t)%list ->
  getPacket (mkCTCPStack b) = (None, 0%nat, mkCTCPStack b) \/
  exists b2, b = (Send m ++ b2)%list /\ (b2 ++ r = t)%list /\
    getPacket (mkCTCPStack b) = (Some m, String.length m, mkCTCPStack b2).
Proof.
  intros Hlen Hbr.
  destruct (Nat.le_gt_cases (length (Send m)) (length b)) as [Hge|Hlt].
  - right. exists (drop (length (Send m)) b).
    assert (Hb : b = (Send m ++ drop (length (Send m)) b)%list).
    { rewrite <- (take_drop (length (Send m)) b) at 1. f_equal.
      rewrite <- (take_app_le b r) by lia. rewrite Hbr. apply take_app_exact. }
    split; [exact Hb|]. split.
    + apply (app_inv_head (Send m)). rewrite app_assoc, <- Hb. exact Hbr.
    + rewrite Hb at 1. apply getPacket_Send, Hlen.
  - left. apply (getPacket_prefix m b (drop (length b) (Send m)) Hlen).
    + rewrite <- (take_drop (length b) (Send m)) at 2. f_equal.
      rewrite <- (take_app_le (Send m) t) by lia. rewrite <- Hbr. by rewrite take_app_exact.
    + intros E. apply (f_equal length) in E. rewrite length_drop in E. cbn [length] in E. lia.
Qed.

(** However a frame is split into chunks delivered by
    successive [AddData] calls, [getPacket] finds nothing while only a
    proper prefix of the frame has arrived, and yields the payload once all
    of it has. *)
Theorem getPacket_chunks (msg : string) (chunks : list (list ascii)) :
  (Z.of_nat (String.length msg) < 2 ^ 32)%Z ->
  concat chunks = Send msg ->
  (forall i, (length (concat (take i chunks)) < length (Send msg))%nat ->
     fst (fst (getPacket (fold_left AddData (take i chunks) empty_stack))) = None) /\
  getPacket (fold_left AddData chunks empty_stack) =
    (Some msg, String.length msg, empty_stack).
Proof.
  intros Hlen Hc. split.
  - intros i Hi. rewrite fold_AddData. cbn [buffer empty_stack app].
    rewrite (getPacket_prefix msg _ (concat (drop i chunks))); [done|exact Hlen| |].
    + by rewrite <- concat_app, take_drop.
    + intros E.
      assert (Hl : length (Send msg) = length (concat (take i chunks)) + length (concat (drop i chunks)))
        by (rewrite <- length_app, <- concat_app, take_drop; by rewrite Hc).
      rewrite E in Hl. cbn [length] in Hl. lia.
  - rewrite fold_AddData. cbn [buffer empty_stack app]. rewrite Hc, <- (app_nil_r (Send msg)).
    by apply getPacket_Send.
Qed.

(** A buffer holding the frames of a queue of
    messages drains to exactly that queue, in order. *)
Theorem drain_Send_all (ms : list string) (fuel : nat) :
  Forall (fun m => Z.of_nat (String.length m) < 2 ^ 32)%Z ms ->
  (length ms <= fuel)%nat ->
  drain fuel (mkCTCPStack (concat (map Send ms))) = ms.
Proof.
  revert fuel. induction ms as [|m ms IH]; intros fuel Hall Hf; cbn [map concat].
  - destruct fuel; [done|]. cbn [drain]. by rewrite getPacket_short by (unfold HEADER_SIZE; simpl; lia).
  - inversion Hall; subst. destruct fuel as [|f]; [simpl in Hf; lia|]. cbn [drain].
    rewrite getPacket_Send by done. f_equal. apply IH; [done|simpl in Hf; lia].
Qed.

(** ** [CTCPStack] implements the framing contract *)

#[export] Instance CTCPStack_codec : FrameCodec CTCPStack := {
  fc_empty := empty_stack;
  fc_encode := Send;
  fc_feed := AddData;
  fc_extract := fun s => let '(r, _, s') := getPacket s in (r, s')
}.

#[export] Instance CTCPStack_laws : FrameCodecLaws CTCPStack.
Proof.
  split.
  - intros [b] x y. unfold fc_feed, CTCPStack_codec, AddData. simpl. by rewrite app_assoc.
  - intros p rest H.
    change (fc_feed fc_empty (fc_encode p ++ rest)) with (mkCTCPStack (Send p ++ rest)).
    cbn [fc_extract CTCPStack_codec]. by rewrite getPacket_Send.
  - intros p pre suf H Hps Hsuf.
    change (fc_feed fc_empty pre) with (mkCTCPStack pre).
    cbn [fc_extract CTCPStack_codec]. by rewrite (getPacket_prefix p pre suf).
Qed.

(** ** Witnesses *)

Lemma getPacket_Send_witness :
  (Z.of_nat (String.length "OK") < 2 ^ 32)%Z /\
  getPacket (mkCTCPStack (Send "OK" ++ ["X"%char])) = (Some "OK"%string, 2%nat, mkCTCPStack ["X"%char]).
Proof. split; [vm_compute; reflexivity | apply getPacket_Send; vm_compute; reflexivity]. Defined.

Lemma getPacket_chunks_witness :
  let chunks := [take 3 (Send "RUNNING"); drop 3 (Send "RUNNING")] in
  concat chunks = Send "RUNNING" /\
  fst (fst (getPacket (fold_left AddData (take 1 chunks) empty_stack))) = None /\
  getPacket (fold_left AddData chunks empty_stack) =
    (Some "RUNNING"%string, 7%nat, empty_stack).
Proof.
  intros chunks.
  assert (Hc : concat chunks = Send "RUNNING") by reflexivity.
  destruct (getPacket_chunks "RUNNING" chunks ltac:(vm_compute; reflexivity) Hc) as [H1 H2].
  split; [exact Hc|]. split; [apply H1; vm_compute; lia | exact H2].
Defined.

Lemma drain_Send_all_witness :
  drain 2 (mkCTCPStack (concat (map Send ["a"; "bc"]%string))) = ["a"; "bc"]%string.
Proof.
  apply drain_Send_all; [repeat constructor; vm_compute; reflexivity | simpl; lia].
Defined.

(** When [getPacket] returns NULL it reports [packsize == 0]. *)
Lemma getPacket_none_size (s s' : CTCPStack) (k : nat) :
  getPacket s = (None, k, s') -> k = 0%nat.
Proof.
  unfold getPacket. destruct (length (buffer s) <? HEADER_SIZE)%nat; [congruence|].
  destruct (_ <? _)%Z; congruence.
Qed.
