(* ===== verification/Socket.v ===== *)
(** * Socket: the process state and the wxWidgets socket it talks through

    [Connector] keeps four statics ([Connector::pw], [pw_change], [error],
    [busy], [Connector.cpp] lines 30-33); they are the record
    [Connector.t].  Everything else the code observes is the world around
    the process, and [St] pairs the two:
    - [now]: the clock read by [wxGetLocalTimeMillis()];
    - [peers]: what the daemon at 127.0.0.1:35623 does with each
      successive connection attempt: accept or refuse it at some time, and
      the bytes it then sends, chunked as the reads will see them, each
      with its arrival time;
    - [files] and [res_path]: the files [getFile] reads and the directory
      of the password files ([g_res_path] on Windows, [VARDIR "/urbackup/"]
      elsewhere);
    - [wire]: every buffer the process wrote to a socket, in order;
    - [yields]: the (busy, error) pair that the GUI code run by each
      [wxTheApp->Yield(true)] can observe;
    - [stdout]: the lines printed on [std::cout];
    - [next_sock] and [destroyed]: the identity the next [new
      wxSocketClient] gets, and the identities of the sockets destroyed,
      in order, so that ownership (no leak, no double [Destroy]) can be
      stated.

    The socket operations model the calls the code makes on
    [wxSocketClient]: non-blocking [Connect], [WaitOnConnect(0, ms)],
    [IsConnected], [WaitForRead(0, ms)], [Read], [Error],
    [GetLastIOSize], [Destroy].  A wait that finds nothing lets its whole slice pass;
    a wait that finds the awaited event returns when it happens.  This is an
    environment model of the wxWidgets library, not of repository code. *)

From S2P Require Import Prelude.

(** ** The [Connector] statics *)

Module Connector.
Record t := mk {
  pw : string;
  pw_change : string;
  error : bool;
  busy : bool
}.
End Connector.

(** ** The world *)

(** What arrives on a connection: bytes, or a reset of the connection. *)
Inductive netev := NData (bytes : list ascii) | NReset.

(** The outcome of a connection attempt and when it happens. *)
Inductive outcome := Accepts (t : Z) | Refuses (t : Z) | NoAnswer.

Record Peer := mkPeer { p_outcome : outcome; p_script : list (Z * netev) }.

(** A [wxSocketClient*]: [sk_id] is the object's identity (the order of
    its [new]), the other fields the state the calls observe. *)
Record Socket := mkSocket {
  sk_id : nat;
  sk_outcome : outcome;
  sk_inbox : list (Z * netev);
  sk_error : bool;
  sk_lastio : nat
}.

Record St := mkSt {
  conn : Connector.t;
  now : Z;
  peers : list Peer;
  files : gmap string string;
  res_path : string;
  wire : list (list ascii);
  yields : list (bool * bool);
  stdout : list string;
  next_sock : nat;
  destroyed : list nat
}.

Definition set_conn (c : Connector.t) (s : St) : St :=
  mkSt c (now s) (peers s) (files s) (res_path s) (wire s) (yields s) (stdout s)
       (next_sock s) (destroyed s).
Definition set_now (t : Z) (s : St) : St :=
  mkSt (conn s) t (peers s) (files s) (res_path s) (wire s) (yields s) (stdout s)
       (next_sock s) (destroyed s).
(** [new wxSocketClient] meeting the next peer: the peer is used up and
    the next identity is taken. *)
Definition alloc_connect (ps : list Peer) (s : St) : St :=
  mkSt (conn s) (now s) ps (files s) (res_path s) (wire s) (yields s) (stdout s)
       (S (next_sock s)) (destroyed s).
(** [Destroy()] of the socket [i]. *)
Definition add_destroyed (i : nat) (s : St) : St :=
  mkSt (conn s) (now s) (peers s) (files s) (res_path s) (wire s) (yields s) (stdout s)
       (next_sock s) (destroyed s ++ [i]).
Definition add_wire (b : list ascii) (s : St) : St :=
  mkSt (conn s) (now s) (peers s) (files s) (res_path s) (wire s ++ [b]) (yields s) (stdout s)
       (next_sock s) (destroyed s).
Definition add_yield (s : St) : St :=
  mkSt (conn s) (now s) (peers s) (files s) (res_path s) (wire s)
       (yields s ++ [(Connector.busy (conn s), Connector.error (conn s))]) (stdout s)
       (next_sock s) (destroyed s).
Definition add_stdout (l : string) (s : St) : St :=
  mkSt (conn s) (now s) (peers s) (files s) (res_path s) (wire s) (yields s) (stdout s ++ [l])
       (next_sock s) (destroyed s).

Definition set_pw (p : string) (c : Connector.t) : Connector.t :=
  Connector.mk p (Connector.pw_change c) (Connector.error c) (Connector.busy c).
Definition set_pw_change (p : string) (c : Connector.t) : Connector.t :=
  Connector.mk (Connector.pw c) p (Connector.error c) (Connector.busy c).
Definition set_error (b : bool) (c : Connector.t) : Connector.t :=
  Connector.mk (Connector.pw c) (Connector.pw_change c) b (Connector.busy c).
Definition set_busy (b : bool) (c : Connector.t) : Connector.t :=
  Connector.mk (Connector.pw c) (Connector.pw_change c) (Connector.error c) b.

Local Open Scope st_scope.

(** [Connector::error = b] and [Connector::busy = b] as statements. *)
Definition put_error (b : bool) : ST St unit := st_modify (fun s => set_conn (set_error b (conn s)) s).
Definition put_busy (b : bool) : ST St unit := st_modify (fun s => set_conn (set_busy b (conn s)) s).

(** ** Time and the event loop *)

Definition wxGetLocalTimeMillis : ST St Z := st_gets now.

(** [wxTheApp->Yield(true)]: the GUI runs and sees the flags. *)
Definition Yield : ST St unit := st_modify add_yield.

(** [getFile(path)]: the file's contents, or the empty string when it
    cannot be read. *)
Definition getFile (path : string) : ST St string :=
  st_gets (fun s => default ""%string (files s !! path)).

(** ** The socket *)

(** [new wxSocketClient] followed by [Connect(addr, false)]: the attempt
    meets the next peer; the call returns whether it connected at once. *)
Definition Connect : ST St (bool * Socket) :=
  fun s =>
    let '(p, ps) := match peers s with
                    | p :: ps => (p, ps)
                    | [] => (mkPeer NoAnswer [], [])
                    end in
    let sk := mkSocket (next_sock s) (p_outcome p) (p_script p) false 0 in
    let ok := match p_outcome p with Accepts t => (t <=? now s)%Z | _ => false end in
    ((ok, sk), alloc_connect ps s).

Definition IsConnected (sk : Socket) : ST St bool :=
  st_gets (fun s => match sk_outcome sk with Accepts t => (t <=? now s)%Z | _ => false end).

(** A wait of [ms] milliseconds for an event due at [due]. *)
Definition wait_for (due : option Z) (ms : Z) : ST St bool :=
  fun s =>
    match due with
    | Some t => if (t <=? now s + ms)%Z then (true, set_now (Z.max (now s) t) s)
                else (false, set_now (now s + ms) s)
    | None => (false, set_now (now s + ms) s)
    end.

(** [WaitOnConnect(0, ms)]: true once the attempt is accepted or refused. *)
Definition WaitOnConnect (sk : Socket) (ms : Z) : ST St bool :=
  wait_for (match sk_outcome sk with Accepts t | Refuses t => Some t | NoAnswer => None end) ms.

(** [WaitForRead(0, ms)]: true once something (data or a reset) arrives. *)
Definition WaitForRead (sk : Socket) (ms : Z) : ST St bool :=
  wait_for (match sk_inbox sk with (t, _) :: _ => Some t | [] => None end) ms.

Definition Error (sk : Socket) : bool := sk_error sk.

Definition GetLastIOSize (sk : Socket) : nat := sk_lastio sk.

(** [Read(buffer, n)]: at most [n] bytes of the first arrived chunk; the
    rest of the chunk stays for the next read.  A reset makes the read
    fail. *)
Definition Read (sk : Socket) (n : nat) : list ascii * Socket :=
  match sk_inbox sk with
  | (t, NData c) :: rest =>
      let k := Nat.min n (length c) in
      (take k c,
       mkSocket (sk_id sk) (sk_outcome sk)
                (if (length c <=? n)%nat then rest else (t, NData (drop k c)) :: rest)
                false k)
  | (_, NReset) :: _ => ([], mkSocket (sk_id sk) (sk_outcome sk) (sk_inbox sk) true 0)
  | [] => ([], mkSocket (sk_id sk) (sk_outcome sk) [] false 0)
  end.

(** [Write]: the bytes go on the wire. *)
Definition Write (sk : Socket) (b : list ascii) : ST St Socket :=
  do* st_modify (add_wire b); st_ret sk.

(** [socket->Destroy()]: the object is scheduled for deletion; the
    model records which object, in order. *)
Definition Destroy (sk : Socket) : ST St unit := st_modify (add_destroyed (sk_id sk)).

(** The bytes still to be read from a socket: its data chunks up to the
    first reset. *)
Fixpoint inbox_bytes (ib : list (Z * netev)) : list ascii :=
  match ib with
  | (_, NData c) :: rest => c ++ inbox_bytes rest
  | (_, NReset) :: _ => []
  | [] => []
  end.

(** ** Basic facts *)

Lemma wait_for_now (due : option Z) (ms : Z) (s : St) :
  (0 <= ms)%Z ->
  (now s <= now (snd (wait_for due ms s)))%Z /\
  (fst (wait_for due ms s) = false -> now (snd (wait_for due ms s)) = now s + ms)%Z.
Proof.
  intros Hms. unfold wait_for.
  destruct due as [t|]; [destruct (t <=? now s + ms)%Z|]; simpl; lia.
Qed.

Lemma wait_for_conn (due : option Z) (ms : Z) (s : St) :
  conn (snd (wait_for due ms s)) = conn s /\ yields (snd (wait_for due ms s)) = yields s /\
  wire (snd (wait_for due ms s)) = wire s /\ peers (snd (wait_for due ms s)) = peers s.
Proof. unfold wait_for. destruct due as [t|]; [destruct (t <=? now s + ms)%Z|]; done. Qed.

(** A wait either succeeds at some time or lets its slice pass. *)
Lemma wait_for_cases (due : option Z) (ms : Z) (s : St) :
  (exists t, wait_for due ms s = (true, set_now t s)) \/
  wait_for due ms s = (false, set_now (now s + ms) s).
Proof.
  unfold wait_for. destruct due as [d|]; [destruct (d <=? now s + ms)%Z|]; eauto.
Qed.

(** A wait lasts at most its slice. *)
Lemma wait_for_le (due : option Z) (ms : Z) (s : St) :
  (0 <= ms)%Z -> (now (snd (wait_for due ms s)) <= now s + ms)%Z.
Proof.
  intros Hms. unfold wait_for.
  destruct due as [t|]; [destruct (t <=? now s + ms)%Z eqn:E|]; simpl; [apply Z.leb_le in E|..]; lia.
Qed.

(** A read changes the socket's state, not its identity. *)
Lemma Read_id (sk : Socket) (n : nat) : sk_id (snd (Read sk n)) = sk_id sk.
Proof. unfold Read. destruct (sk_inbox sk) as [|[t [c|]] rest]; reflexivity. Qed.

(** A successful read takes its bytes from the front of the stream. *)
Lemma Read_stream (sk : Socket) (n : nat) :
  let '(buf, sk') := Read sk n in
  Error sk' = false ->
  (take (GetLastIOSize sk') buf ++ inbox_bytes (sk_inbox sk') = inbox_bytes (sk_inbox sk))%list.
Proof.
  unfold Read. destruct (sk_inbox sk) as [|[t [c|]] rest]; cbn; [done| |discriminate].
  intros _. rewrite take_take, Nat.min_id.
  destruct (length c <=? n)%nat eqn:E; cbn.
  - apply Nat.leb_le in E. rewrite !take_ge by lia. reflexivity.
  - rewrite app_assoc, take_drop. reflexivity.
Qed.
