(* ===== verification/Credential.v ===== *)
(** * Credential: [Connector::getPasswordData] ([Connector.cpp] 73-119)

    Before every command the connector looks up the password: the cached
    [Connector::pw] (or [pw_change] for commands that change settings), and
    when the cache is empty the file [pw.txt] (or [pw_change.txt]) in the
    password directory.  A password read from the file is cached; an empty
    read prints a message and leaves the cache empty.  The call also sets
    [busy] when asked and always clears [error].  The [_DEBUG] branch that
    first tries a file in the working directory is not part of the release
    build and is not modelled.

    The theorems: a cached password is returned without reading the file;
    a password once obtained is returned by every later call whatever
    happens to the files (the idempotent caching of spec section 8); a
    failed read caches nothing; and the effect on the two flags. *)

From S2P Require Import Prelude Socket.

Local Open Scope st_scope.
Local Open Scope string_scope.

Definition pw_fn (change_command : bool) : string :=
  if change_command then "pw_change.txt" else "pw.txt".

(** The cache slot a command uses. *)
Definition cached_pw (change_command : bool) (c : Connector.t) : string :=
  if change_command then Connector.pw_change c else Connector.pw c.

Definition store_pw (change_command : bool) (p : string) (c : Connector.t) : Connector.t :=
  if change_command then set_pw_change p c else set_pw p c.

Definition getPasswordData (change_command set_busy : bool) : ST St string :=
  do* (if set_busy then put_busy true else st_ret tt);
  do* put_error false;
  let* c := st_gets conn in
  let curr_pw := cached_pw change_command c in
  if curr_pw =? "" then
    let* dir := st_gets res_path in
    let* curr_pw := getFile (dir ++ pw_fn change_command) in
    if curr_pw =? "" then
      do* st_modify (add_stdout "Could not load password file!");
      st_ret curr_pw
    else
      do* st_modify (fun s => set_conn (store_pw change_command curr_pw (conn s)) s);
      st_ret curr_pw
  else st_ret curr_pw.

(** The flags after the call, whatever the cache holds. *)
Definition flags_after (set_busy' : bool) (c : Connector.t) : Connector.t :=
  set_error false (if set_busy' then set_busy true c else c).

(** A process with [cache] in [Connector::pw], [error] set, and the
    password file holding [file], if anything. *)
Definition cred_state (cache : string) (file : option string) : St :=
  mkSt (Connector.mk cache "" true false) 0 []
       (match file with Some f => {[ "/var/urbackup/pw.txt" := f ]} | None => ∅ end)
       "/var/urbackup/" [] [] [] 0 [].

Lemma cached_pw_flags (ch b : bool) (c : Connector.t) :
  cached_pw ch (flags_after b c) = cached_pw ch c.
Proof. by destruct ch, b. Qed.

Lemma cached_pw_store (ch : bool) (p : string) (c : Connector.t) :
  cached_pw ch (store_pw ch p c) = p.
Proof. by destruct ch. Qed.

Lemma flags_store (ch : bool) (p : string) (c : Connector.t) :
  Connector.error (store_pw ch p c) = Connector.error c /\
  Connector.busy (store_pw ch p c) = Connector.busy c.
Proof. by destruct ch. Qed.

#[export] Hint Rewrite cached_pw_flags cached_pw_store : conn_rw.

(** The call in one equation: which value it returns and what it changes. *)
Lemma getPasswordData_eq (ch b : bool) (s : St) :
  getPasswordData ch b s =
  let c := flags_after b (conn s) in
  let s1 := set_conn c s in
  if cached_pw ch c =? "" then
    let p := default "" (files s !! (res_path s ++ pw_fn ch)) in
    if p =? "" then (p, add_stdout "Could not load password file!" s1)
    else (p, set_conn (store_pw ch p c) s1)
  else (cached_pw ch c, s1).
Proof.
  unfold getPasswordData, flags_after, put_busy, put_error, getFile,
    st_bind, st_ret, st_gets, st_modify.
  destruct b; simpl; destruct (cached_pw ch _ =? ""); try reflexivity;
    destruct (default "" _ =? ""); reflexivity.
Qed.

(** A non-empty cached password is returned as it is and
    the files are not consulted; the only change is to the flags. *)
Lemma getPasswordData_cache_hit (ch b : bool) (s : St) :
  cached_pw ch (conn s) <> "" ->
  getPasswordData ch b s = (cached_pw ch (conn s), set_conn (flags_after b (conn s)) s).
Proof.
  intros H. rewrite getPasswordData_eq. cbv zeta.
  rewrite cached_pw_flags, string_eqb_neq by exact H. done.
Qed.

(** A non-empty result is what the cache holds afterwards. *)
Lemma getPasswordData_caches (ch b : bool) (s : St) :
  fst (getPasswordData ch b s) <> "" ->
  cached_pw ch (conn (snd (getPasswordData ch b s))) = fst (getPasswordData ch b s).
Proof.
  rewrite getPasswordData_eq. cbv zeta. rewrite cached_pw_flags.
  destruct (cached_pw ch (conn s) =? "");
    [destruct (String.eqb_spec (default "" (files s !! (res_path s ++ pw_fn ch))) "")|];
    simpl; intros H; [done| |]; by autorewrite with conn_rw.
Qed.

(** C16 (invariant): once a call has obtained a non-empty password, every
    later call with the same variant returns it, whatever the state of the
    files, as long as nothing else wrote the cache. *)
Theorem getPasswordData_idempotent (ch b b' : bool) (s s' : St) :
  fst (getPasswordData ch b s) <> "" ->
  cached_pw ch (conn s') = cached_pw ch (conn (snd (getPasswordData ch b s))) ->
  fst (getPasswordData ch b' s') = fst (getPasswordData ch b s).
Proof.
  intros Hne Hc. rewrite getPasswordData_caches in Hc by exact Hne.
  rewrite getPasswordData_cache_hit by congruence. exact Hc.
Qed.

(** C17 (error): when the cache is empty and the file yields nothing, the
    call returns the empty password, caches nothing and prints the
    message; the exchange then goes ahead with the empty password. *)
Theorem getPasswordData_missing (ch b : bool) (s : St) :
  cached_pw ch (conn s) = "" ->
  default "" (files s !! (res_path s ++ pw_fn ch)) = "" ->
  getPasswordData ch b s =
    ("", add_stdout "Could not load password file!" (set_conn (flags_after b (conn s)) s)).
Proof.
  intros H1 H2. rewrite getPasswordData_eq. cbv zeta.
  by rewrite cached_pw_flags, H1, H2.
Qed.

(** The flags after [getPasswordData]: [error] cleared, [busy] set when
    asked and otherwise unchanged. *)
Lemma getPasswordData_flags (ch b : bool) (s : St) :
  Connector.error (conn (snd (getPasswordData ch b s))) = false /\
  Connector.busy (conn (snd (getPasswordData ch b s))) = (b || Connector.busy (conn s)).
Proof.
  rewrite getPasswordData_eq. cbv zeta.
  destruct (cached_pw ch (flags_after b (conn s)) =? ""),
    (default "" (files s !! (res_path s ++ pw_fn ch)) =? "");
    simpl; try rewrite !(proj1 (flags_store _ _ _)), !(proj2 (flags_store _ _ _));
    by destruct b.
Qed.

(** The world other than the connector and the console is untouched. *)
Lemma getPasswordData_world (ch b : bool) (s : St) :
  let s' := snd (getPasswordData ch b s) in
  now s' = now s /\ peers s' = peers s /\ wire s' = wire s /\ yields s' = yields s /\
  next_sock s' = next_sock s /\ destroyed s' = destroyed s.
Proof.
  rewrite getPasswordData_eq. cbv zeta.
  destruct (cached_pw ch (flags_after b (conn s)) =? ""),
    (default "" (files s !! (res_path s ++ pw_fn ch)) =? ""); done.
Qed.

(** Destroying a socket does not interfere with the password lookup. *)
Lemma getPasswordData_destroyed (ch b : bool) (i : nat) (s : St) :
  getPasswordData ch b (add_destroyed i s) =
  (fst (getPasswordData ch b s), add_destroyed i (snd (getPasswordData ch b s))).
Proof.
  rewrite !getPasswordData_eq. cbv zeta. cbn [conn files res_path add_destroyed].
  destruct (cached_pw ch (flags_after b (conn s)) =? ""),
    (default "" (files s !! (res_path s ++ pw_fn ch)) =? ""); reflexivity.
Qed.

(** The lookup overwrites [error] before anything reads it: the value
    [error] had before the call makes no difference. *)
Lemma getPasswordData_error_irrelevant (ch b e : bool) (s : St) :
  getPasswordData ch b (set_conn (set_error e (conn s)) s) = getPasswordData ch b s.
Proof.
  rewrite !getPasswordData_eq. cbv zeta.
  replace (flags_after b (conn (set_conn (set_error e (conn s)) s))) with (flags_after b (conn s))
    by (unfold flags_after; destruct (conn s), b; reflexivity).
  destruct s. reflexivity.
Qed.

(** ** Witnesses *)

Lemma getPasswordData_idempotent_witness :
  let s := cred_state "" (Some "filepw") in
  let s' := set_now 7 (snd (getPasswordData false true s)) in
  fst (getPasswordData false true s) <> "" /\
  fst (getPasswordData false false s') = "filepw".
Proof.
  intros s s'. split; [vm_compute; discriminate|].
  rewrite (getPasswordData_idempotent false true false s s'); [reflexivity|vm_compute; discriminate|reflexivity].
Defined.

Lemma getPasswordData_missing_witness :
  fst (getPasswordData false true (cred_state "" None)) = "".
Proof.
  rewrite getPasswordData_missing; reflexivity.
Defined.
