(* ===== verification/Client.v ===== *)
(** * Client: [Connector::getResponse] ([Connector.cpp] 122-239)

    [getResponse] reads the clock, looks up the password
    ([getPasswordData]), obtains a socket (reusing the caller's connection
    when it is open and error-free, otherwise connecting to the daemon and
    waiting for the connection in slices of 100 ms while yielding to the
    GUI), writes one frame [cmd#pw=<password>[&args]] and then waits, again
    in 100 ms slices, for data; it reads at most 1024 bytes, feeds them to a
    fresh [CTCPStack] and asks it for a packet.  Every return path clears
    [busy]; the connect failure, the read timeout and the read error set
    [error].  The socket is held by the guard [ScopedSocket] (lines
    46-68), whose destructor destroys it on every return; on success the
    socket is handed back in the caller's connection, if one was given,
    and the guard released.  A caller's socket with an error and a socket
    that does not connect are destroyed where the code destroys them.
    [getResponse_sockets] proves the ownership discipline: every socket
    the call owns is destroyed exactly once or handed back.

    The two wait loops have the same shape and are the one Fixpoint
    [wait_loop] on a fuel; [wait_until] computes the fuel from the time
    left, and [wait_loop_fuel] proves that any larger fuel computes the
    same thing, so the loop is total and the fuel is enough.

    The outer [while(resp==NULL)] loop is [read_loop].  Because [getPacket]
    reports [packsize == 0] whenever it returns NULL, its body always
    returns: [read_loop_once] proves that one round gives the result of
    any number of rounds.  The consequence is the main finding of this
    file: a reply that does not arrive in a single read (a frame split by
    the network, or any reply whose frame is longer than the 1024-byte read
    buffer) is returned as the empty string, with [error] left clear.

    [error] is not latched: [getPasswordData] clears it before anything
    reads it, so a call behaves the same whatever a previous call left in
    it ([getResponse_error_not_latched]), and a failure is visible only
    until the next call.  With [timeoutms = 0] neither wait loop runs a
    round, so every exchange fails ([getResponse_zero_timeout]). *)

From S2P Require Import Prelude FrameCodec Socket Credential.

Local Open Scope st_scope.
Local Open Scope string_scope.

(** ** The wait loops *)

(** [while (now - starttime < timeoutms) { if (wait) { conn = true; break; }
    Yield; if (stop) break; }] returning [conn]. *)
Fixpoint wait_loop (fuel : nat) (wait : ST St bool) (stop : bool)
    (starttime timeoutms : Z) : ST St bool :=
  match fuel with
  | O => st_ret false
  | S f =>
      let* t := wxGetLocalTimeMillis in
      if (t - starttime <? timeoutms)%Z then
        let* ok := wait in
        if ok then st_ret true
        else do* Yield;
             if stop then st_ret false
             else wait_loop f wait stop starttime timeoutms
      else st_ret false
  end.

(** Every unsuccessful wait lets at least a millisecond pass, so the loop
    runs at most [timeoutms - (now - starttime)] times. *)
Definition loop_fuel (starttime timeoutms t : Z) : nat :=
  S (Z.to_nat (timeoutms - (t - starttime))).

Definition wait_until (wait : ST St bool) (stop : bool) (starttime timeoutms : Z) : ST St bool :=
  let* t := wxGetLocalTimeMillis in
  wait_loop (loop_fuel starttime timeoutms t) wait stop starttime timeoutms.

(** ** [getResponse] *)

(** [SConnection* connection]: [None] is a NULL pointer, [Some c] a
    connection whose [client] member is [c]. *)
Definition SConnection : Type := option (option Socket).

(** [error=true; busy=false;] before returning from a failed exchange. *)
Definition fail_exchange : ST St unit := do* put_error true; put_busy false.

(** Lines 140-163: a new socket, connected, or destroyed after the timeout. *)
Definition connect_new (starttime timeoutms : Z) : ST St (option Socket) :=
  let* '(ok, client) := Connect in
  do* (if ok then st_ret false
       else wait_until (WaitOnConnect client 100) false starttime timeoutms);
  let* c := IsConnected client in
  if c then st_ret (Some client)
  else do* Destroy client; do* fail_exchange; st_ret None.

(** Lines 129-169: reuse the caller's socket if it has no error, otherwise
    destroy it and connect anew; the caller's [client] member is NULL
    from here on. *)
Definition obtain_client (connection : SConnection) (starttime timeoutms : Z)
    : ST St (option Socket * SConnection) :=
  match connection with
  | Some (Some c) =>
      if Error c then do* Destroy c; let* r := connect_new starttime timeoutms in st_ret (r, Some None)
      else st_ret (Some c, Some None)
  | Some None => let* r := connect_new starttime timeoutms in st_ret (r, Some None)
  | None => let* r := connect_new starttime timeoutms in st_ret (r, None)
  end.

(** Lines 46-68: [ScopedSocket], the guard that destroys the socket it
    holds when [getResponse] returns, unless it was released. *)
Record ScopedSocket := mkScopedSocket { socket_client : option Socket }.

Definition release (g : ScopedSocket) : ScopedSocket := mkScopedSocket None.

Definition ScopedSocket_destroy (g : ScopedSocket) : ST St unit :=
  match socket_client g with
  | Some c => Destroy c
  | None => st_ret tt
  end.

(** Lines 186-238: [while(resp==NULL)] and the successful return, which
    hands the socket to the caller's connection and releases the guard. *)
Fixpoint read_loop (fuel : nat) (client : Socket) (tcpstack : CTCPStack)
    (starttime timeoutms : Z) (connection : SConnection) (guard : ScopedSocket)
    : ST St (string * SConnection * ScopedSocket) :=
  match fuel with
  | O => st_ret ("", connection, guard)
  | S f =>
      let* conn := wait_until (WaitForRead client 100) (Error client) starttime timeoutms in
      if negb conn then do* fail_exchange; st_ret ("", connection, guard)
      else
        let '(buffer, client) := Read client 1024 in
        if Error client then do* fail_exchange; st_ret ("", connection, guard)
        else
          let tcpstack := AddData tcpstack (take (GetLastIOSize client) buffer) in
          let '(resp, packetsize, tcpstack) := getPacket tcpstack in
          if (packetsize =? 0)%nat then do* put_busy false; st_ret ("", connection, guard)
          else
            match resp with
            | None => read_loop f client tcpstack starttime timeoutms connection guard
            | Some ret =>
                do* put_busy false;
                st_ret (match connection with
                        | Some _ => (ret, Some (Some client), release guard)
                        | None => (ret, None, guard)
                        end)
            end
  end.

(** [t_args]: the arguments behind a [&], if there are any. *)
Definition t_args (args : string) : string :=
  if args =? "" then args else "&" ++ args.

Definition request (cmd curr_pw args : string) : string :=
  cmd ++ "#pw=" ++ curr_pw ++ t_args args.

Definition getResponse (cmd args : string) (change_command : bool)
    (connection : SConnection) (timeoutms : Z) (set_busy : bool)
    : ST St (string * SConnection) :=
  let* starttime := wxGetLocalTimeMillis in
  let* curr_pw := getPasswordData change_command set_busy in
  let* '(client, connection) := obtain_client connection starttime timeoutms in
  match client with
  | None => st_ret ("", connection)
  | Some client =>
      let guard := mkScopedSocket (Some client) in
      let* client := Write client (Send (request cmd curr_pw args)) in
      let* '(ret, connection, guard) :=
        read_loop 1 client empty_stack starttime timeoutms connection guard in
      do* ScopedSocket_destroy guard;
      st_ret (ret, connection)
  end.

(** [Connector::hasError] and [Connector::isBusy]. *)
Definition hasError : ST St bool := st_gets (fun s => Connector.error (conn s)).
Definition isBusy : ST St bool := st_gets (fun s => Connector.busy (conn s)).

(** ** Observations and concrete worlds *)

(** The yields made from [s] to [s'] all saw [busy] set and [error]
    clear. *)
Definition yields_busy (s s' : St) : Prop :=
  exists l, yields s' = (yields s ++ l)%list /\ Forall (fun o => o = (true, false)) l.

(** The flags of an exchange in progress that counts as busy. *)
Definition flags_set (s : St) : Prop :=
  Connector.busy (conn s) = true /\ Connector.error (conn s) = false.

(** A process at time 1000 with the password ["pw1"] cached, facing the
    scripted daemon [ps]. *)
Definition demo_state (ps : list Peer) : St :=
  mkSt (Connector.mk "pw1" "" false false) 1000 ps ∅ "/var/urbackup/" [] [] [] 0 [].

Definition demo_reply : St :=
  demo_state [mkPeer (Accepts 1050) [(1200%Z, NData (Send "OK" ++ []))]].

(** A reply of 1021 bytes: its frame of 1025 bytes does not fit the read
    buffer. *)
Definition long_payload : string := string_of_list_ascii (repeat "a"%char 1021).

(** The part of [getResponse] after the request is written: the read
    loop under the guard [client_socket], and the guard's destructor. *)
Definition exchange_tail (client : Socket) (starttime timeoutms : Z) (connection : SConnection)
    (s : St) : (string * SConnection) * St :=
  let '((ret, c, g), s') :=
    read_loop 1 client empty_stack starttime timeoutms connection (mkScopedSocket (Some client)) s in
  ((ret, c), snd (ScopedSocket_destroy g s')).

(** A computation that ends no later than [bound], or than the time it
    starts at if that is later. *)
Definition time_bounded {A} (m : ST St A) (bound : Z) : Prop :=
  forall s, (now (snd (m s)) <= Z.max (now s) bound)%Z.

(** The sockets a connection slot owns: [connection->client] when it is
    not NULL. *)
Definition owned (c : SConnection) : list nat :=
  match c with Some (Some sk) => [sk_id sk] | _ => [] end.

(** The socket a guard will destroy. *)
Definition guard_ids (g : ScopedSocket) : list nat := owned (Some (socket_client g)).

(** The sockets created between [s] and [s']. *)
Definition created (s s' : St) : list nat := seq (next_sock s) (next_sock s' - next_sock s).

(** ** Termination of the wait loops *)

Section WaitLoop.
Variable wait : ST St bool.
Variable stop : bool.
Variables starttime timeoutms : Z.

Hypothesis wait_progress :
  forall s, fst (wait s) = false -> (now s + 1 <= now (snd (wait s)))%Z.

Lemma add_yield_now (s : St) : now (add_yield s) = now s.
Proof. reflexivity. Qed.

(** The wait loop stops within its fuel: any fuel larger than the time
    left computes the same result and state. *)
Theorem wait_loop_fuel (n m : nat) (s : St) :
  (Z.to_nat (timeoutms - (now s - starttime)) < n)%nat -> (n <= m)%nat ->
  wait_loop n wait stop starttime timeoutms s = wait_loop m wait stop starttime timeoutms s.
Proof.
  revert m s. induction n as [|n IH]; intros m s Hn Hm; [lia|].
  destruct m as [|m]; [lia|]. cbn [wait_loop].
  unfold st_bind, wxGetLocalTimeMillis, st_gets.
  destruct (now s - starttime <? timeoutms)%Z eqn:Hlt; [|reflexivity].
  destruct (wait s) as [ok s1] eqn:Hw.
  pose proof (wait_progress s) as Hp. rewrite Hw in Hp. simpl in Hp.
  destruct ok; [reflexivity|].
  unfold Yield, st_modify. destruct stop; [reflexivity|].
  apply IH; [|lia]. rewrite add_yield_now. specialize (Hp eq_refl).
  apply Z.ltb_lt in Hlt. lia.
Qed.
End WaitLoop.

Lemma wait_for_mono (due : option Z) (ms : Z) (s : St) :
  (0 <= ms)%Z -> (now s <= now (snd (wait_for due ms s)))%Z.
Proof. intros H. apply (wait_for_now due ms s H). Qed.

Lemma wait_for_progress (due : option Z) (ms : Z) (s : St) :
  (1 <= ms)%Z -> fst (wait_for due ms s) = false -> (now s + 1 <= now (snd (wait_for due ms s)))%Z.
Proof. intros H Hf. rewrite (proj2 (wait_for_now due ms s ltac:(lia)) Hf). lia. Qed.


(** ** The one round of [read_loop] *)

(** C15 (termination): the [while(resp==NULL)] loop never runs a second
    round: its body returns whenever [getPacket] gives NULL, so one round
    computes what any number of rounds computes. *)
Theorem read_loop_once (n : nat) (client : Socket) (stk : CTCPStack)
    (starttime timeoutms : Z) (connection : SConnection) (g : ScopedSocket) (s : St) :
  read_loop (S n) client stk starttime timeoutms connection g s =
  read_loop 1 client stk starttime timeoutms connection g s.
Proof.
  cbn [read_loop]. unfold st_bind.
  destruct (wait_until _ _ _ _ s) as [[|] s1]; [|reflexivity]. simpl.
  destruct (Read client 1024) as [buf c'].
  destruct (Error c'); [reflexivity|].
  destruct (getPacket _) as [[resp k] stk'] eqn:Hp.
  destruct (k =? 0)%nat eqn:Hk; [reflexivity|].
  destruct resp; [reflexivity|].
  apply getPacket_none_size in Hp. subst k. discriminate.
Qed.

(** ** Time passing in the wait loops *)

Lemma add_yield_set_now (t : Z) (s : St) : add_yield (set_now t s) = set_now t (add_yield s).
Proof. reflexivity. Qed.

Lemma iter_add_yield_set_now (k : nat) (t : Z) (s : St) :
  Nat.iter k add_yield (set_now t s) = set_now t (Nat.iter k add_yield s).
Proof. induction k as [|k IH]; simpl; [done|]. by rewrite IH. Qed.

Lemma set_now_set_now (t t' : Z) (s : St) : set_now t (set_now t' s) = set_now t s.
Proof. reflexivity. Qed.

Lemma set_now_now (s : St) : set_now (now s) s = s.
Proof. by destruct s. Qed.

#[export] Hint Rewrite add_yield_set_now iter_add_yield_set_now set_now_set_now set_now_now : conn_rw.

Section WaitFor.
Variables starttime timeoutms : Z.

(** The awaited event is due within the timeout: the loop returns true
    at the event's time, after some yields. *)
Lemma wait_loop_ready (due : Z) (n : nat) (s : St) :
  (Z.to_nat (timeoutms - (now s - starttime)) < n)%nat ->
  (now s - starttime < timeoutms)%Z -> (due - starttime <= timeoutms)%Z ->
  exists k, wait_loop n (wait_for (Some due) 100) false starttime timeoutms s =
            (true, set_now (Z.max (now s) due) (Nat.iter k add_yield s)).
Proof.
  revert s. induction n as [|n IH]; intros s Hn Hnow Hdue; [lia|].
  cbn [wait_loop]. unfold st_bind, wxGetLocalTimeMillis, st_gets.
  rewrite Z_ltb_lt' by exact Hnow. unfold wait_for at 1.
  destruct (due <=? now s + 100)%Z eqn:Hd.
  - exists 0%nat. reflexivity.
  - apply Z.leb_gt in Hd. unfold Yield, st_modify.
    destruct (IH (add_yield (set_now (now s + 100) s))) as [k Hk];
      [simpl; lia|simpl; lia|lia|].
    exists (S k).
    rewrite Hk, add_yield_set_now, iter_add_yield_set_now, set_now_set_now, <- Nat.iter_succ_r.
    do 2 f_equal. cbn [now set_now]. lia.
Qed.

(** Nothing is due before the deadline: the loop returns false. *)
Lemma wait_loop_timeout (due : option Z) (n : nat) (s : St) :
  (Z.to_nat (timeoutms - (now s - starttime)) < n)%nat ->
  match due with None => True | Some d => (starttime + timeoutms + 100 <= d)%Z end ->
  exists k t, wait_loop n (wait_for due 100) false starttime timeoutms s =
              (false, set_now t (Nat.iter k add_yield s)).
Proof.
  revert s. induction n as [|n IH]; intros s Hn Hdue; [lia|].
  cbn [wait_loop]. unfold st_bind, wxGetLocalTimeMillis, st_gets.
  destruct (now s - starttime <? timeoutms)%Z eqn:Hlt.
  2:{ exists 0%nat, (now s). simpl. by rewrite set_now_now. }
  apply Z.ltb_lt in Hlt.
  assert (Hw : wait_for due 100 s = (false, set_now (now s + 100) s)).
  { unfold wait_for. destruct due as [d|]; [|done]. by rewrite (proj2 (Z.leb_gt _ _)) by lia. }
  rewrite Hw. unfold Yield, st_modify.
  destruct (IH (add_yield (set_now (now s + 100) s))) as (k & t & Hk); [simpl; lia|done|].
  exists (S k), t.
  by rewrite Hk, add_yield_set_now, iter_add_yield_set_now, set_now_set_now, <- Nat.iter_succ_r.
Qed.
End WaitFor.

(** Whatever happens, a wait loop only lets time pass and yields. *)
Lemma wait_loop_shape (due : option Z) (stop : bool) (starttime timeoutms : Z) (n : nat) (s : St) :
  exists k t, snd (wait_loop n (wait_for due 100) stop starttime timeoutms s) =
              set_now t (Nat.iter k add_yield s).
Proof.
  revert s. induction n as [|n IH]; intros s.
  { exists 0%nat, (now s). simpl. by rewrite set_now_now. }
  cbn [wait_loop]. unfold st_bind, wxGetLocalTimeMillis, st_gets.
  destruct (now s - starttime <? timeoutms)%Z.
  2:{ exists 0%nat, (now s). simpl. by rewrite set_now_now. }
  destruct (wait_for_cases due 100 s) as [[t Hw]|Hw]; rewrite Hw.
  { by exists 0%nat, t. }
  unfold Yield, st_modify. destruct stop; [by exists 1%nat, (now s + 100)%Z|].
  destruct (IH (add_yield (set_now (now s + 100) s))) as (k & t & Hk).
  exists (S k), t. rewrite Hk, add_yield_set_now, iter_add_yield_set_now, set_now_set_now.
  by rewrite <- Nat.iter_succ_r.
Qed.

Lemma wait_until_shape (due : option Z) (stop : bool) (starttime timeoutms : Z) (s : St) :
  exists k t, snd (wait_until (wait_for due 100) stop starttime timeoutms s) =
              set_now t (Nat.iter k add_yield s).
Proof. apply wait_loop_shape. Qed.

Lemma take_min_length {A} (n : nat) (l : list A) : take (Nat.min n (length l)) l = take n l.
Proof.
  destruct (Nat.min_spec n (length l)) as [[_ ->]|[H ->]]; [done|].
  rewrite !take_ge by lia. done.
Qed.

(** [Read(buffer, 1024)] on a data chunk, with [GetLastIOSize]. *)
Lemma Read_data (client : Socket) (t : Z) (c : list ascii) (more : list (Z * netev)) :
  sk_inbox client = (t, NData c) :: more ->
  let '(buf, client') := Read client 1024 in
  Error client' = false /\ take (GetLastIOSize client') buf = take 1024 c /\
  (length c <= 1024 -> sk_inbox client' = more)%nat.
Proof.
  intros H. unfold Read. rewrite H. cbn [Error GetLastIOSize sk_error sk_lastio sk_inbox].
  rewrite take_take, Nat.min_id, take_min_length. split; [done|split; [done|]].
  intros Hc. by rewrite (proj2 (Nat.leb_le _ _) Hc).
Qed.

Lemma connect_new_none_flags (starttime timeoutms : Z) (s : St) :
  fst (connect_new starttime timeoutms s) = None ->
  Connector.error (conn (snd (connect_new starttime timeoutms s))) = true /\
  Connector.busy (conn (snd (connect_new starttime timeoutms s))) = false.
Proof.
  unfold connect_new, st_bind, st_ret. destruct (Connect s) as [[ok client] s1].
  destruct (if ok then _ else _) as [_ s2].
  unfold IsConnected, st_gets. cbv beta.
  destruct (match sk_outcome client with Accepts t => _ | _ => _ end); simpl;
    [discriminate | by intros _].
Qed.

(** A peer that never accepts: the attempt fails with the error flag set. *)
Lemma connect_new_refused (starttime timeoutms : Z) (s : St) :
  (forall p ps, peers s = p :: ps -> match p_outcome p with Accepts _ => False | _ => True end) ->
  fst (connect_new starttime timeoutms s) = None.
Proof.
  intros Hp. unfold connect_new, st_bind, st_ret, Connect.
  destruct (peers s) as [|p ps] eqn:E.
  - simpl. destruct (wait_until _ _ _ _ _). reflexivity.
  - specialize (Hp p ps eq_refl). simpl.
    destruct (p_outcome p); try contradiction; simpl;
      destruct (wait_until _ _ _ _ _); reflexivity.
Qed.

(** A peer that accepts within the timeout: connected at the time of the
    acceptance, after some yields. *)
Lemma connect_new_accepts (starttime timeoutms : Z) (s : St) (ta : Z)
    (sc : list (Z * netev)) (ps : list Peer) :
  peers s = mkPeer (Accepts ta) sc :: ps ->
  (now s - starttime < timeoutms)%Z -> (ta - starttime <= timeoutms)%Z ->
  exists k, connect_new starttime timeoutms s =
    (Some (mkSocket (next_sock s) (Accepts ta) sc false 0),
     set_now (Z.max (now s) ta) (Nat.iter k add_yield (alloc_connect ps s))).
Proof.
  intros Hp Hnow Hta. unfold connect_new, st_bind, Connect. rewrite Hp. cbn [p_outcome p_script].
  destruct (ta <=? now s)%Z eqn:Hle.
  - exists 0%nat. apply Z.leb_le in Hle. unfold st_ret, IsConnected, st_gets. simpl.
    rewrite (proj2 (Z.leb_le _ _) Hle). rewrite Z.max_l by lia.
    by destruct s.
  - apply Z.leb_gt in Hle.
    destruct (wait_loop_ready starttime timeoutms ta
               (loop_fuel starttime timeoutms (now s)) (alloc_connect ps s)) as [k Hk];
      [unfold loop_fuel; simpl; lia|simpl; lia|lia|].
    exists k. unfold wait_until, st_bind, wxGetLocalTimeMillis, st_gets.
    unfold WaitOnConnect. cbn [sk_outcome]. simpl (now (alloc_connect ps s)).
    rewrite Hk. unfold IsConnected, st_gets, st_ret. cbn [sk_outcome].
    simpl (now (set_now _ _)).
    rewrite (proj2 (Z.leb_le _ _)) by lia. reflexivity.
Qed.

Lemma iter_add_yield_conn (k : nat) (s : St) :
  conn (Nat.iter k add_yield s) = conn s /\ peers (Nat.iter k add_yield s) = peers s /\
  wire (Nat.iter k add_yield s) = wire s /\ now (Nat.iter k add_yield s) = now s.
Proof. induction k as [|k IH]; simpl; [done|]. exact IH. Qed.

Lemma read_loop_wait (client : Socket) (starttime timeoutms : Z) (s : St) tr ev more :
  sk_inbox client = (tr, ev) :: more ->
  wait_until (WaitForRead client 100) (Error client) starttime timeoutms s =
  wait_loop (loop_fuel starttime timeoutms (now s)) (wait_for (Some tr) 100)
    (Error client) starttime timeoutms s.
Proof. intros H. unfold wait_until, WaitForRead, st_bind, wxGetLocalTimeMillis, st_gets. by rewrite H. Qed.

(** The first read returns bytes [c]: the result is decided by what
    [getPacket] makes of them alone. *)
Lemma read_loop_first (client : Socket) (starttime timeoutms : Z) (connection : SConnection)
    (g : ScopedSocket) (s : St) (tr : Z) (c : list ascii) (more : list (Z * netev)) :
  Error client = false -> sk_inbox client = (tr, NData c) :: more ->
  (now s - starttime < timeoutms)%Z -> (tr - starttime <= timeoutms)%Z ->
  exists k,
    let client' := snd (Read client 1024) in
    let s1 := set_now (Z.max (now s) tr) (Nat.iter k add_yield s) in
    let s2 := set_conn (set_busy false (conn s)) s1 in
    read_loop 1 client empty_stack starttime timeoutms connection g s =
    match getPacket (mkCTCPStack (take 1024 c)) with
    | (resp, packetsize, _) =>
        if (packetsize =? 0)%nat then (("", connection, g), s2)
        else match resp with
             | None => (("", connection, g), s1)
             | Some r => (match connection with
                          | Some _ => (r, Some (Some client'), release g)
                          | None => (r, None, g)
                          end, s2)
             end
    end.
Proof.
  intros He Hin Hnow Htr.
  destruct (wait_loop_ready starttime timeoutms tr (loop_fuel starttime timeoutms (now s)) s)
    as [k Hk]; [unfold loop_fuel; lia|done|done|].
  pose proof (Read_data client tr c more Hin) as Hr.
  destruct (Read client 1024) as [buf c'] eqn:HR. destruct Hr as (He' & Ht & _).
  exists k. cbn zeta. cbn [snd read_loop]. unfold st_bind.
  rewrite (read_loop_wait client starttime timeoutms s tr (NData c) more Hin), He, Hk.
  simpl negb. cbv iota beta. rewrite HR, He', Ht.
  change (AddData empty_stack (take 1024 c)) with (mkCTCPStack (take 1024 c)).
  destruct (getPacket _) as [[resp ps] stk'].
  pose proof (iter_add_yield_conn k s) as (Hc & _).
  destruct (ps =? 0)%nat; [|destruct resp]; unfold put_busy, st_modify, st_ret; simpl;
    try rewrite Hc; reflexivity.
Qed.

(** Every path of the read loop clears [busy]. *)
Lemma read_loop_busy (client : Socket) (stk : CTCPStack) (starttime timeoutms : Z)
    (connection : SConnection) (g : ScopedSocket) (s : St) :
  Connector.busy (conn (snd (read_loop 1 client stk starttime timeoutms connection g s))) = false.
Proof.
  cbn [read_loop]. unfold st_bind.
  destruct (wait_until _ _ _ _ s) as [[|] s1]; [|reflexivity]. simpl.
  destruct (Read client 1024) as [buf c'].
  destruct (Error c'); [reflexivity|].
  destruct (getPacket _) as [[resp k] stk'] eqn:Hp.
  destruct (k =? 0)%nat eqn:Hk; [reflexivity|].
  destruct resp; [reflexivity|].
  apply getPacket_none_size in Hp. subst k. discriminate.
Qed.

(** ** [getResponse] *)

Lemma getResponse_unfold (cmd args : string) (ch : bool) (c0 : SConnection)
    (timeoutms : Z) (b : bool) (s : St) :
  getResponse cmd args ch c0 timeoutms b s =
  let '(pw, s1) := getPasswordData ch b s in
  let '((client, c1), s2) := obtain_client c0 (now s) timeoutms s1 in
  match client with
  | None => (("", c1), s2)
  | Some client =>
      exchange_tail client (now s) timeoutms c1 (add_wire (Send (request cmd pw args)) s2)
  end.
Proof.
  unfold getResponse, exchange_tail, st_bind, wxGetLocalTimeMillis, st_gets.
  destruct (getPasswordData ch b s) as [pw s1].
  destruct (obtain_client c0 (now s) timeoutms s1) as [[[client|] c1] s2]; [|reflexivity].
  unfold Write, st_modify, st_ret. cbn -[read_loop ScopedSocket_destroy].
  destruct (read_loop _ _ _ _ _ _ _ _) as [[[ret c2] g] s3].
  by destruct (ScopedSocket_destroy g s3).
Qed.

Lemma obtain_client_none_flags (c0 : SConnection) (starttime timeoutms : Z) (s : St) :
  fst (fst (obtain_client c0 starttime timeoutms s)) = None ->
  Connector.error (conn (snd (obtain_client c0 starttime timeoutms s))) = true /\
  Connector.busy (conn (snd (obtain_client c0 starttime timeoutms s))) = false.
Proof.
  destruct c0 as [[c|]|]; unfold obtain_client; try destruct (Error c);
    unfold st_bind, st_ret, Destroy, st_modify; simpl; try discriminate;
    match goal with |- context [connect_new ?a ?b ?x] =>
      pose proof (connect_new_none_flags a b x) as H; destruct (connect_new a b x); exact H end.
Qed.

(** C4 (safety): whatever the daemon does, [getResponse] returns with
    [busy] cleared: no return path leaves the busy indicator set. *)
Theorem getResponse_busy_cleared (cmd args : string) (ch : bool) (c0 : SConnection)
    (timeoutms : Z) (b : bool) (s : St) :
  Connector.busy (conn (snd (getResponse cmd args ch c0 timeoutms b s))) = false.
Proof.
  rewrite getResponse_unfold. destruct (getPasswordData ch b s) as [pw s1].
  pose proof (obtain_client_none_flags c0 (now s) timeoutms s1) as Hn.
  destruct (obtain_client c0 (now s) timeoutms s1) as [[[client|] c1] s2].
  - unfold exchange_tail.
    match goal with |- context [read_loop 1 ?a ?b ?c ?d ?e ?f ?g] =>
      pose proof (read_loop_busy a b c d e f g) as Hb;
      destruct (read_loop 1 a b c d e f g) as [[[ret c2] gd] s3] end.
    simpl in Hb |- *. unfold ScopedSocket_destroy.
    destruct (socket_client gd); [exact Hb|exact Hb].
  - by apply Hn.
Qed.

(** The exchange up to the first read, for a fresh connection accepted
    within the timeout. *)
Lemma getResponse_fresh (cmd args : string) (ch : bool) (timeoutms : Z) (b : bool) (s : St)
    (ta : Z) (sc : list (Z * netev)) (ps : list Peer) :
  peers s = mkPeer (Accepts ta) sc :: ps ->
  (0 < timeoutms)%Z -> (ta - now s <= timeoutms)%Z ->
  exists k, getResponse cmd args ch None timeoutms b s =
    exchange_tail (mkSocket (next_sock s) (Accepts ta) sc false 0) (now s) timeoutms None
      (add_wire (Send (request cmd (fst (getPasswordData ch b s)) args))
         (set_now (Z.max (now s) ta) (Nat.iter k add_yield (alloc_connect ps (snd (getPasswordData ch b s)))))).
Proof.
  intros Hp Ht Hta. rewrite getResponse_unfold.
  pose proof (getPasswordData_world ch b s) as (Hn & Hps & _ & _ & Hid & _).
  destruct (getPasswordData ch b s) as [pw s1]. simpl in Hn, Hps, Hid |- *.
  destruct (connect_new_accepts (now s) timeoutms s1 ta sc ps) as [k Hk]; [congruence|lia|lia|].
  exists k. unfold obtain_client, st_bind, st_ret. rewrite Hk, Hn, Hid. reflexivity.
Qed.

Lemma length_Send_bound (p : string) (extra : list ascii) :
  (length (Send p ++ extra) <= 1024)%nat -> (Z.of_nat (String.length p) < 2 ^ 32)%Z.
Proof. rewrite length_app, length_Send. unfold HEADER_SIZE. lia. Qed.

(** The state after a successful first read, in terms of the state the
    exchange started from. *)
Ltac exchange_facts :=
  repeat (cbn [conn wire now peers set_now set_conn add_wire alloc_connect add_destroyed set_busy Connector.busy Connector.error snd ScopedSocket_destroy release Destroy st_modify st_ret socket_client];
  match goal with
  | |- context [conn (Nat.iter ?k add_yield ?x)] => rewrite (proj1 (iter_add_yield_conn k x))
  | |- context [peers (Nat.iter ?k add_yield ?x)] => rewrite (proj1 (proj2 (iter_add_yield_conn k x)))
  | |- context [wire (Nat.iter ?k add_yield ?x)] => rewrite (proj1 (proj2 (proj2 (iter_add_yield_conn k x))))
  | |- context [now (Nat.iter ?k add_yield ?x)] => rewrite (proj2 (proj2 (proj2 (iter_add_yield_conn k x))))
  end); cbn [conn wire now peers set_now set_conn add_wire alloc_connect add_destroyed set_busy Connector.busy Connector.error snd ScopedSocket_destroy release Destroy st_modify st_ret socket_client].

(** C1 (functional): when the daemon accepts the connection and its whole
    reply frame (with any bytes after it) arrives in one chunk of at most
    1024 bytes within the timeout, [getResponse] returns exactly the
    reply's payload, clears both flags, has written exactly one frame
    [cmd#pw=<password>[&args]], and returns when the reply arrived. *)
Theorem getResponse_reply (cmd args : string) (ch : bool) (timeoutms : Z) (b : bool) (s : St)
    (ta tr : Z) (p : string) (extra : list ascii) (more : list (Z * netev)) (ps : list Peer) :
  peers s = mkPeer (Accepts ta) ((tr, NData (Send p ++ extra)) :: more) :: ps ->
  (0 < timeoutms)%Z -> (ta < now s + timeoutms)%Z -> (tr <= now s + timeoutms)%Z ->
  (length (Send p ++ extra) <= 1024)%nat ->
  exists s', getResponse cmd args ch None timeoutms b s = ((p, None), s') /\
    Connector.error (conn s') = false /\ Connector.busy (conn s') = false /\
    wire s' = (wire s ++ [Send (request cmd (fst (getPasswordData ch b s)) args)])%list /\
    now s' = Z.max (Z.max (now s) ta) tr.
Proof.
  intros Hp Ht Hta Htr Hlen.
  destruct (getResponse_fresh cmd args ch timeoutms b s ta _ ps Hp Ht ltac:(lia)) as [k Hk].
  rewrite Hk.
  pose proof (getPasswordData_world ch b s) as (Hn & _ & Hw & _).
  pose proof (proj1 (getPasswordData_flags ch b s)) as He.
  destruct (getPasswordData ch b s) as [pw s1]. simpl in Hn, Hw, He. cbn [fst snd].
  unfold exchange_tail. match goal with |- context [read_loop 1 ?cl empty_stack ?st ?to ?cn ?g ?s3] =>
    destruct (read_loop_first cl st to cn g s3 tr (Send p ++ extra) more) as (k' & Hr);
    [done|reflexivity|exchange_facts; lia|lia|rewrite Hr; clear Hr] end.
  cbn zeta. rewrite (take_ge (Send p ++ extra)) by lia.
  rewrite getPacket_Send by (eapply length_Send_bound; eauto).
  destruct (String.length p =? 0)%nat eqn:E.
  - apply Nat.eqb_eq in E. destruct p; [|discriminate].
    eexists; split; [reflexivity|]. exchange_facts. rewrite Hw, He. repeat split; lia.
  - eexists; split; [reflexivity|]. exchange_facts. rewrite Hw, He. repeat split; lia.
Qed.

(** C2 (error, finding): when the first read delivers only a proper prefix
    of the reply frame (the frame was split by the network, or it is longer
    than the 1024-byte read buffer), [getResponse] does not wait for the
    rest: it returns the empty string, with [busy] cleared and [error]
    left clear, so the caller cannot tell it from an empty reply. *)
Theorem getResponse_partial_reply (cmd args : string) (ch : bool) (timeoutms : Z) (b : bool)
    (s : St) (ta tr : Z) (c suf : list ascii) (p : string) (more : list (Z * netev))
    (ps : list Peer) :
  peers s = mkPeer (Accepts ta) ((tr, NData c) :: more) :: ps ->
  (0 < timeoutms)%Z -> (ta < now s + timeoutms)%Z -> (tr <= now s + timeoutms)%Z ->
  (Z.of_nat (String.length p) < 2 ^ 32)%Z ->
  (take 1024 c ++ suf)%list = Send p -> suf <> [] ->
  exists s', getResponse cmd args ch None timeoutms b s = (("", None), s') /\
    Connector.error (conn s') = false /\ Connector.busy (conn s') = false.
Proof.
  intros Hp Ht Hta Htr Hlen Hpre Hsuf.
  destruct (getResponse_fresh cmd args ch timeoutms b s ta _ ps Hp Ht ltac:(lia)) as [k Hk].
  rewrite Hk.
  pose proof (getPasswordData_world ch b s) as (Hn & _ & _ & _).
  pose proof (proj1 (getPasswordData_flags ch b s)) as He.
  destruct (getPasswordData ch b s) as [pw s1]. simpl in Hn, He. cbn [fst snd].
  unfold exchange_tail. match goal with |- context [read_loop 1 ?cl empty_stack ?st ?to ?cn ?g ?s3] =>
    destruct (read_loop_first cl st to cn g s3 tr c more) as (k' & Hr);
    [done|reflexivity|exchange_facts; lia|lia|rewrite Hr; clear Hr] end.
  cbn zeta. rewrite (getPacket_prefix p (take 1024 c) suf Hlen Hpre Hsuf). simpl.
  eexists; split; [reflexivity|]. exchange_facts. by rewrite He.
Qed.

(** C3 (error, finding): a reply whose frame is longer than the 1024-byte
    read buffer (a payload of more than 1020 bytes) is never returned:
    even when it arrives whole and in time, [getResponse] returns the
    empty string with [error] and [busy] clear. *)
Corollary getResponse_long_reply (cmd args : string) (ch : bool) (timeoutms : Z) (b : bool)
    (s : St) (ta tr : Z) (p : string) (extra : list ascii) (more : list (Z * netev))
    (ps : list Peer) :
  peers s = mkPeer (Accepts ta) ((tr, NData (Send p ++ extra)) :: more) :: ps ->
  (0 < timeoutms)%Z -> (ta < now s + timeoutms)%Z -> (tr <= now s + timeoutms)%Z ->
  (Z.of_nat (String.length p) < 2 ^ 32)%Z -> (1024 < length (Send p))%nat ->
  exists s', getResponse cmd args ch None timeoutms b s = (("", None), s') /\
    Connector.error (conn s') = false /\ Connector.busy (conn s') = false.
Proof.
  intros Hp Ht Hta Htr Hlen Hbig.
  apply (getResponse_partial_reply cmd args ch timeoutms b s ta tr (Send p ++ extra)
           (drop 1024 (Send p)) p more ps);
    try done.
  - by rewrite take_app_le, take_drop by lia.
  - intros E. apply (f_equal length) in E. rewrite length_drop in E. cbn [length] in E. lia.
Qed.

(** The daemon accepts but sends nothing: the read wait times out. *)
Lemma read_loop_silent (client : Socket) (starttime timeoutms : Z) (connection : SConnection)
    (g : ScopedSocket) (s : St) :
  Error client = false -> sk_inbox client = [] ->
  exists s', read_loop 1 client empty_stack starttime timeoutms connection g s = (("", connection, g), s') /\
    Connector.error (conn s') = true /\ Connector.busy (conn s') = false.
Proof.
  intros He Hin. cbn [read_loop]. unfold st_bind.
  unfold wait_until, WaitForRead, st_bind, wxGetLocalTimeMillis, st_gets. rewrite Hin, He.
  destruct (wait_loop_timeout starttime timeoutms None (loop_fuel starttime timeoutms (now s)) s)
    as (k & t & Hk); [unfold loop_fuel; lia|done|].
  rewrite Hk. simpl. eexists; split; [reflexivity|]. done.
Qed.

(** A caller's socket on which nothing arrives: the exchange times out. *)
Lemma getResponse_reuse_silent (cmd args : string) (ch : bool) (timeoutms : Z) (b : bool) (s : St)
    (c : Socket) :
  Error c = false -> sk_inbox c = [] ->
  exists s', getResponse cmd args ch (Some (Some c)) timeoutms b s = (("", Some None), s') /\
    Connector.error (conn s') = true /\ Connector.busy (conn s') = false.
Proof.
  intros He Hin. rewrite getResponse_unfold. destruct (getPasswordData ch b s) as [pw s1].
  unfold obtain_client, st_ret. rewrite He. unfold exchange_tail.
  match goal with |- context [read_loop 1 ?a ?b ?c ?d ?e ?f ?g] =>
    destruct (read_loop_silent a c d e f g) as (s3 & Hr & He' & Hb); [done|done|] end.
  rewrite Hr. eexists; split; [reflexivity|]. by split.
Qed.

(** C6 (error): when the daemon accepts the connection but never replies,
    [getResponse] gives up at the deadline: it returns the empty string
    with [error] set and [busy] cleared. *)
Theorem getResponse_timeout (cmd args : string) (ch : bool) (timeoutms : Z) (b : bool)
    (s : St) (ta : Z) (ps : list Peer) :
  peers s = mkPeer (Accepts ta) [] :: ps ->
  (0 < timeoutms)%Z -> (ta < now s + timeoutms)%Z ->
  exists s', getResponse cmd args ch None timeoutms b s = (("", None), s') /\
    Connector.error (conn s') = true /\ Connector.busy (conn s') = false.
Proof.
  intros Hp Ht Hta.
  destruct (getResponse_fresh cmd args ch timeoutms b s ta _ ps Hp Ht ltac:(lia)) as [k Hk].
  rewrite Hk. unfold exchange_tail.
  match goal with |- context [read_loop 1 ?a ?b ?c ?d ?e ?f ?g] =>
    destruct (read_loop_silent a c d e f g) as (s3 & Hr & He & Hb); [done|done|] end.
  rewrite Hr. eexists; split; [reflexivity|]. by split.
Qed.

(** C8 (error): when no daemon accepts the connection (it refuses, does
    not answer, or is absent), [getResponse] returns the empty string with
    [error] set and [busy] cleared, and the caller's connection, if any,
    holds no socket. *)
Theorem getResponse_connect_failed (cmd args : string) (ch : bool) (c0 : SConnection)
    (timeoutms : Z) (b : bool) (s : St) :
  (c0 = None \/ c0 = Some None) ->
  (forall p ps, peers s = p :: ps -> match p_outcome p with Accepts _ => False | _ => True end) ->
  exists s', getResponse cmd args ch c0 timeoutms b s = (("", c0), s') /\
    Connector.error (conn s') = true /\ Connector.busy (conn s') = false.
Proof.
  intros Hc0 Hp. rewrite getResponse_unfold.
  pose proof (getPasswordData_world ch b s) as (_ & Hps & _).
  destruct (getPasswordData ch b s) as [pw s1]. simpl in Hps.
  assert (Hn : fst (connect_new (now s) timeoutms s1) = None)
    by (apply connect_new_refused; rewrite Hps; exact Hp).
  pose proof (connect_new_none_flags (now s) timeoutms s1 Hn) as Hf.
  destruct (connect_new (now s) timeoutms s1) as [r s2] eqn:Hcn. simpl in Hn, Hf. subst r.
  destruct Hc0 as [->| ->]; unfold obtain_client, st_bind, st_ret; rewrite Hcn; eauto.
Qed.

(** The reuse of a caller's socket that delivers a whole frame. *)
Lemma getResponse_reuse_handback (cmd args : string) (ch : bool) (timeoutms : Z) (b : bool) (s : St)
    (c : Socket) (tr : Z) (p : string) (extra : list ascii) (more : list (Z * netev)) :
  Error c = false -> sk_inbox c = (tr, NData (Send p ++ extra)) :: more ->
  p <> "" -> (0 < timeoutms)%Z -> (tr <= now s + timeoutms)%Z ->
  (length (Send p ++ extra) <= 1024)%nat ->
  exists c' s', getResponse cmd args ch (Some (Some c)) timeoutms b s = ((p, Some (Some c')), s') /\
    sk_inbox c' = more /\ Error c' = false /\ peers s' = peers s /\
    Connector.error (conn s') = false /\ Connector.busy (conn s') = false.
Proof.
  intros He Hin Hne Ht Htr Hlen. rewrite getResponse_unfold.
  pose proof (getPasswordData_world ch b s) as (Hn & Hps & _ & _).
  pose proof (proj1 (getPasswordData_flags ch b s)) as Herr.
  destruct (getPasswordData ch b s) as [pw s1]. simpl in Hn, Hps, Herr.
  unfold obtain_client, st_ret. rewrite He.
  pose proof (Read_data c tr _ more Hin) as Hr.
  destruct (Read c 1024) as [buf c'] eqn:HR. destruct Hr as (He' & _ & Hmore).
  unfold exchange_tail. match goal with |- context [read_loop 1 ?cl empty_stack ?st ?to ?cn ?g ?s3] =>
    destruct (read_loop_first cl st to cn g s3 tr (Send p ++ extra) more) as (k' & Hr);
    [done|done|exchange_facts; lia|lia|rewrite Hr; clear Hr] end.
  cbn zeta. rewrite (take_ge (Send p ++ extra)) by lia.
  rewrite getPacket_Send by (eapply length_Send_bound; eauto).
  destruct (String.length p =? 0)%nat eqn:E.
  { apply Nat.eqb_eq in E. destruct p; [done|discriminate]. }
  rewrite HR. exists c'. eexists; split; [reflexivity|].
  split; [apply Hmore; lia|]. split; [done|]. exchange_facts. by rewrite Hps, Herr.
Qed.

(** C9 (functional): a caller's open, error-free connection is reused
    without a new connection attempt, and after a complete non-empty
    reply the socket, with the unread rest of the stream, is handed back
    in the connection. *)
Theorem getResponse_reuse (cmd args : string) (ch : bool) (timeoutms : Z) (b : bool) (s : St)
    (c : Socket) (tr : Z) (p : string) (extra : list ascii) (more : list (Z * netev)) :
  Error c = false -> sk_inbox c = (tr, NData (Send p ++ extra)) :: more ->
  p <> "" -> (0 < timeoutms)%Z -> (tr <= now s + timeoutms)%Z ->
  (length (Send p ++ extra) <= 1024)%nat ->
  exists c' s', getResponse cmd args ch (Some (Some c)) timeoutms b s = ((p, Some (Some c')), s') /\
    sk_inbox c' = more /\ Error c' = false /\ peers s' = peers s /\
    Connector.error (conn s') = false /\ Connector.busy (conn s') = false.
Proof.
  intros He Hin Hne Ht Htr Hlen.
  exact (getResponse_reuse_handback cmd args ch timeoutms b s c tr p extra more He Hin Hne Ht Htr Hlen).
Qed.

(** C10 (error, finding): the daemon sends two frames in one chunk on a
    kept connection and nothing after them.  The first call returns the
    first frame and hands the socket back; the second frame was read into
    that call's [CTCPStack] and dropped with it, so the next call on the
    handed-back connection, whatever it asks, never sees it: it times out
    with [error] set and returns the empty string. *)
Theorem getResponse_second_frame_lost (cmd args : string) (ch : bool) (timeoutms : Z) (b : bool)
    (s : St) (c : Socket) (tr : Z) (p q : string) (cmd' args' : string) (ch' b' : bool)
    (timeoutms' : Z) :
  Error c = false -> sk_inbox c = [(tr, NData (Send p ++ Send q))] ->
  p <> "" -> (0 < timeoutms)%Z -> (tr <= now s + timeoutms)%Z ->
  (length (Send p ++ Send q) <= 1024)%nat ->
  exists c1 s1 s2,
    getResponse cmd args ch (Some (Some c)) timeoutms b s = ((p, Some (Some c1)), s1) /\
    getResponse cmd' args' ch' (Some (Some c1)) timeoutms' b' s1 = (("", Some None), s2) /\
    Connector.error (conn s2) = true /\ Connector.busy (conn s2) = false.
Proof.
  intros He Hin Hne Ht Htr Hlen.
  destruct (getResponse_reuse_handback cmd args ch timeoutms b s c tr p (Send q) [] He Hin Hne Ht Htr Hlen)
    as (c1 & s1 & Hr1 & Hin1 & He1 & _).
  destruct (getResponse_reuse_silent cmd' args' ch' timeoutms' b' s1 c1 He1 Hin1) as (s2 & Hr2 & He2 & Hb2).
  by exists c1, s1, s2.
Qed.

(** ** What the GUI observes during an exchange *)

Lemma yields_busy_refl (s : St) : yields_busy s s.
Proof. exists []. by rewrite app_nil_r. Qed.

Lemma yields_busy_trans (s1 s2 s3 : St) :
  yields_busy s1 s2 -> yields_busy s2 s3 -> yields_busy s1 s3.
Proof.
  intros (l1 & H1 & F1) (l2 & H2 & F2). exists (l1 ++ l2)%list.
  rewrite H2, H1, app_assoc. split; [done|]. by apply Forall_app.
Qed.

Lemma yields_busy_same (s s' : St) : yields s' = yields s -> yields_busy s s'.
Proof. intros H. exists []. by rewrite H, app_nil_r. Qed.

#[export] Hint Resolve yields_busy_refl yields_busy_same : conn.

Lemma yields_iter_add_yield (k : nat) (s : St) :
  yields (Nat.iter k add_yield s) =
  (yields s ++ repeat (Connector.busy (conn s), Connector.error (conn s)) k)%list.
Proof.
  induction k as [|k IH]; simpl; [by rewrite app_nil_r|].
  rewrite IH, (proj1 (iter_add_yield_conn k s)), <- app_assoc. f_equal.
  simpl. by rewrite repeat_cons.
Qed.

Lemma wait_until_busy (due : option Z) (stop : bool) (starttime timeoutms : Z) (s : St) :
  flags_set s ->
  let s' := snd (wait_until (wait_for due 100) stop starttime timeoutms s) in
  conn s' = conn s /\ yields_busy s s'.
Proof.
  intros [Hb He]. destruct (wait_until_shape due stop starttime timeoutms s) as (k & t & Hs).
  cbn zeta. rewrite Hs. split; [apply iter_add_yield_conn|].
  exists (repeat (true, false) k). cbn [yields set_now]. rewrite yields_iter_add_yield, Hb, He.
  split; [done|]. clear. induction k; simpl; constructor; auto.
Qed.

Lemma connect_new_busy (starttime timeoutms : Z) (s : St) :
  flags_set s -> yields_busy s (snd (connect_new starttime timeoutms s)) /\
  (fst (connect_new starttime timeoutms s) <> None -> conn (snd (connect_new starttime timeoutms s)) = conn s).
Proof.
  intros Hf. unfold connect_new, st_bind.
  destruct (Connect s) as [[ok client] s1] eqn:HC.
  assert (H1 : conn s1 = conn s /\ yields s1 = yields s).
  { unfold Connect in HC. destruct (peers s); injection HC as _ _ <-; done. }
  destruct H1 as [Hc1 Hy1].
  assert (Hw : exists b2 s2, (if ok then st_ret false else
            wait_until (WaitOnConnect client 100) false starttime timeoutms) s1 = (b2, s2) /\
            conn s2 = conn s /\ yields_busy s s2).
  { destruct ok; [exists false, s1; eauto with conn|].
    unfold WaitOnConnect.
    destruct (wait_until_busy (match sk_outcome client with Accepts t | Refuses t => Some t | NoAnswer => None end)
                false starttime timeoutms s1) as [Hc2 Hy2]; [unfold flags_set; by rewrite Hc1|].
    eexists _, _; split; [apply surjective_pairing|]. split; [congruence|].
    eapply yields_busy_trans; [apply yields_busy_same; exact Hy1|exact Hy2]. }
  destruct Hw as (b2 & s2 & -> & Hc2 & Hy2). unfold IsConnected, st_gets, st_ret.
  destruct (match sk_outcome client with Accepts t => _ | _ => _ end); [by split|].
  split; [|done]. eapply yields_busy_trans; [exact Hy2|]. by apply yields_busy_same.
Qed.

Ltac yields_close Hy := eapply yields_busy_trans; [exact Hy|]; by apply yields_busy_same.

Lemma read_loop_yields (client : Socket) (stk : CTCPStack) (starttime timeoutms : Z)
    (connection : SConnection) (g : ScopedSocket) (s : St) :
  flags_set s -> yields_busy s (snd (read_loop 1 client stk starttime timeoutms connection g s)).
Proof.
  intros Hf. cbn [read_loop]. unfold st_bind, WaitForRead.
  pose proof (wait_until_busy (match sk_inbox client with (t, _) :: _ => Some t | [] => None end)
                (Error client) starttime timeoutms s Hf) as [_ Hy].
  destruct (wait_until _ _ _ _ s) as [[|] s1]; simpl in Hy; [|yields_close Hy].
  simpl. destruct (Read client 1024) as [buf c'].
  destruct (Error c'); [yields_close Hy|].
  destruct (getPacket _) as [[resp k] stk'] eqn:Hp.
  destruct (k =? 0)%nat eqn:Hk; [yields_close Hy|].
  destruct resp; [yields_close Hy|].
  apply getPacket_none_size in Hp. subst k. discriminate.
Qed.

(** C12 (invariant): during an exchange that counts as busy, every time
    [getResponse] yields to the GUI (while it waits for the connection or
    for the reply) the GUI sees [busy] set and [error] clear: the busy
    indicator is up for the whole wait. *)
Theorem getResponse_busy_while_waiting (cmd args : string) (ch : bool) (c0 : SConnection)
    (timeoutms : Z) (s : St) :
  yields_busy s (snd (getResponse cmd args ch c0 timeoutms true s)).
Proof.
  rewrite getResponse_unfold.
  pose proof (getPasswordData_world ch true s) as (_ & _ & _ & Hy1 & _).
  pose proof (getPasswordData_flags ch true s) as [He1 Hb1].
  destruct (getPasswordData ch true s) as [pw s1]. simpl in Hy1, He1, Hb1.
  assert (Hf1 : flags_set s1) by done.
  assert (Hob : yields_busy s1 (snd (obtain_client c0 (now s) timeoutms s1)) /\
                (fst (fst (obtain_client c0 (now s) timeoutms s1)) <> None ->
                 conn (snd (obtain_client c0 (now s) timeoutms s1)) = conn s1)).
  { destruct c0 as [[c|]|]; unfold obtain_client; try destruct (Error c);
      unfold st_bind, st_ret, Destroy, st_modify;
      try (match goal with |- context [connect_new ?a ?b ?x] =>
        pose proof (connect_new_busy a b x Hf1) as [Hy Hc];
        destruct (connect_new a b x); exact (conj Hy Hc) end);
      simpl; auto with conn. }
  destruct Hob as [Hy2 Hc2].
  destruct (obtain_client c0 (now s) timeoutms s1) as [[[client|] c1] s2]; simpl in Hy2, Hc2.
  - eapply yields_busy_trans; [apply yields_busy_same; exact Hy1|].
    eapply yields_busy_trans; [exact Hy2|].
    apply (yields_busy_trans _ (add_wire (Send (request cmd pw args)) s2));
      [apply yields_busy_same; reflexivity|].
    unfold exchange_tail.
    match goal with |- context [read_loop 1 ?a ?b ?c ?d ?e ?f ?g] =>
      assert (Hr : yields_busy g (snd (read_loop 1 a b c d e f g)))
        by (apply read_loop_yields; unfold flags_set; cbn [conn add_wire]; rewrite Hc2 by discriminate; done);
      destruct (read_loop 1 a b c d e f g) as [[[ret c3] gd] s3] end.
    unfold ScopedSocket_destroy, Destroy, st_modify, st_ret.
    destruct (socket_client gd); yields_close Hr.
  - eapply yields_busy_trans; [apply yields_busy_same; exact Hy1|exact Hy2].
Qed.

(** C14 (termination), for the two waits of [getResponse]: any fuel
    beyond the time left gives the same result. *)
Corollary wait_loop_fuel_wait_for (due : option Z) (stop : bool) (starttime timeoutms : Z)
    (n m : nat) (s : St) :
  (Z.to_nat (timeoutms - (now s - starttime)) < n)%nat -> (n <= m)%nat ->
  wait_loop n (wait_for due 100) stop starttime timeoutms s =
  wait_loop m (wait_for due 100) stop starttime timeoutms s.
Proof.
  apply wait_loop_fuel.
  intros s' Hf. apply wait_for_progress; [lia|exact Hf].
Qed.

(** ** Response time *)

Lemma tb_ret {A} (a : A) (bound : Z) : time_bounded (st_ret a) bound.
Proof. intros s. simpl. lia. Qed.

Lemma tb_bind {A B} (m : ST St A) (f : A -> ST St B) (bound : Z) :
  time_bounded m bound -> (forall a, time_bounded (f a) bound) -> time_bounded (st_bind m f) bound.
Proof.
  intros Hm Hf s. unfold st_bind. specialize (Hm s).
  destruct (m s) as [a s'] eqn:E. simpl in Hm. specialize (Hf a s'). lia.
Qed.

(** A step that does not move the clock. *)
Lemma tb_same {A} (m : ST St A) (bound : Z) :
  (forall s, now (snd (m s)) = now s) -> time_bounded m bound.
Proof. intros H s. rewrite H. lia. Qed.

#[export] Hint Resolve tb_ret : conn.

(** A wait loop of [getResponse] ends at most one slice after its
    deadline. *)
Lemma tb_wait_loop (n : nat) (due : option Z) (stop : bool) (starttime timeoutms : Z) :
  time_bounded (wait_loop n (wait_for due 100) stop starttime timeoutms) (starttime + timeoutms + 99).
Proof.
  induction n as [|n IH]; intros s; cbn [wait_loop]; [simpl; lia|].
  unfold st_bind, wxGetLocalTimeMillis, st_gets.
  destruct (now s - starttime <? timeoutms)%Z eqn:Hlt; [|simpl; lia].
  apply Z.ltb_lt in Hlt. pose proof (wait_for_le due 100 s ltac:(lia)) as Hle.
  destruct (wait_for due 100 s) as [[|] s1]; simpl in Hle; [simpl; lia|].
  unfold Yield, st_modify. destruct stop; [simpl; lia|].
  specialize (IH (add_yield s1)). rewrite add_yield_now in IH. lia.
Qed.

Lemma tb_wait_until (due : option Z) (stop : bool) (starttime timeoutms : Z) :
  time_bounded (wait_until (wait_for due 100) stop starttime timeoutms) (starttime + timeoutms + 99).
Proof.
  unfold wait_until. apply tb_bind; [apply tb_same; reflexivity|]. intros t. apply tb_wait_loop.
Qed.

Lemma tb_connect_new (starttime timeoutms : Z) :
  time_bounded (connect_new starttime timeoutms) (starttime + timeoutms + 99).
Proof.
  unfold connect_new. apply tb_bind; [apply tb_same; intros s; unfold Connect; by destruct (peers s)|].
  intros [ok client]. apply tb_bind.
  - destruct ok; [auto with conn|]. apply tb_wait_until.
  - intros _. apply tb_bind; [apply tb_same; reflexivity|]. intros [|]; [auto with conn|].
    apply tb_bind; [apply tb_same; reflexivity|]. intros _.
    apply tb_bind; [apply tb_same; reflexivity|auto with conn].
Qed.

Lemma tb_obtain_client (connection : SConnection) (starttime timeoutms : Z) :
  time_bounded (obtain_client connection starttime timeoutms) (starttime + timeoutms + 99).
Proof.
  destruct connection as [[c|]|]; unfold obtain_client; try destruct (Error c);
    try (apply tb_bind; [apply tb_same; reflexivity|intros _]);
    try (apply tb_bind; [apply tb_connect_new|auto with conn]); auto with conn.
Qed.

Lemma tb_read_loop (client : Socket) (stk : CTCPStack) (starttime timeoutms : Z) (connection : SConnection)
    (g : ScopedSocket) :
  time_bounded (read_loop 1 client stk starttime timeoutms connection g) (starttime + timeoutms + 99).
Proof.
  cbn [read_loop]. apply tb_bind; [apply tb_wait_until|]. intros [|]; cbn [negb].
  - destruct (Read client 1024) as [buf c'].
    destruct (Error c'); [apply tb_bind; [apply tb_same; reflexivity|auto with conn]|].
    destruct (getPacket _) as [[resp k] stk'].
    destruct (k =? 0)%nat; [apply tb_bind; [apply tb_same; reflexivity|auto with conn]|].
    destruct resp; [apply tb_bind; [apply tb_same; reflexivity|intros _; destruct connection; auto with conn]|].
    intros s. simpl. lia.
  - apply tb_bind; [apply tb_same; reflexivity|auto with conn].
Qed.

(** C13 (liveness): [getResponse] returns at most one wait slice after
    its deadline: whatever the daemon does, the exchange ends within
    [timeoutms + 99] ms of the call, the bound spec section 5 asks of
    every wait. *)
Theorem getResponse_deadline (cmd args : string) (ch : bool) (c0 : SConnection) (timeoutms : Z)
    (b : bool) (s : St) :
  (0 <= timeoutms)%Z -> (now (snd (getResponse cmd args ch c0 timeoutms b s)) <= now s + timeoutms + 99)%Z.
Proof.
  intros Ht. rewrite getResponse_unfold.
  pose proof (getPasswordData_world ch b s) as (Hn & _).
  destruct (getPasswordData ch b s) as [pw s1]. simpl in Hn.
  pose proof (tb_obtain_client c0 (now s) timeoutms s1) as Ho.
  destruct (obtain_client c0 (now s) timeoutms s1) as [[[client|] c1] s2]; simpl in Ho |- *; [|lia].
  unfold exchange_tail.
  pose proof (tb_read_loop client empty_stack (now s) timeoutms c1 (mkScopedSocket (Some client))
                (add_wire (Send (request cmd pw args)) s2)) as Hr.
  destruct (read_loop _ _ _ _ _ _ _ _) as [[[ret c2] g] s3].
  unfold ScopedSocket_destroy. destruct (socket_client g); simpl in *; lia.
Qed.

(** ** The error flag and an expired deadline *)

(** C11 (error, finding): [error] is not latched: whatever it holds
    before an exchange (set, say, by a failed one), [getResponse] computes
    the same reply and the same final state, because [getPasswordData]
    clears it first.  An exchange that fails without setting it (a partial
    reply) thus leaves it clear; the spec's glossary latches it until the
    next successful exchange. *)
Theorem getResponse_error_not_latched (cmd args : string) (ch : bool) (c0 : SConnection)
    (timeoutms : Z) (b e : bool) (s : St) :
  getResponse cmd args ch c0 timeoutms b (set_conn (set_error e (conn s)) s) =
  getResponse cmd args ch c0 timeoutms b s.
Proof. rewrite !getResponse_unfold, getPasswordData_error_irrelevant. reflexivity. Qed.

(** A wait loop whose deadline has passed returns at once. *)
Lemma wait_loop_expired (n : nat) (wait : ST St bool) (stop : bool) (starttime timeoutms : Z) (s : St) :
  (timeoutms <= now s - starttime)%Z -> wait_loop n wait stop starttime timeoutms s = (false, s).
Proof.
  intros H. destruct n as [|n]; [reflexivity|]. cbn [wait_loop].
  unfold st_bind, wxGetLocalTimeMillis, st_gets. by rewrite Z_ltb_ge by lia.
Qed.

Lemma wait_until_expired (wait : ST St bool) (stop : bool) (starttime timeoutms : Z) (s : St) :
  (timeoutms <= now s - starttime)%Z -> wait_until wait stop starttime timeoutms s = (false, s).
Proof. intros H. unfold wait_until, st_bind, wxGetLocalTimeMillis, st_gets. by apply wait_loop_expired. Qed.

(** With no time left, a connection is obtained only if it is there at
    once, and then no time passes. *)
Lemma connect_new_expired (starttime timeoutms : Z) (s : St) :
  (timeoutms <= now s - starttime)%Z ->
  fst (connect_new starttime timeoutms s) <> None -> now (snd (connect_new starttime timeoutms s)) = now s.
Proof.
  intros H. unfold connect_new, st_bind. destruct (Connect s) as [[ok client] s1] eqn:HC.
  assert (Hn : now s1 = now s) by (unfold Connect in HC; destruct (peers s); by injection HC as _ _ <-).
  assert (Hw : (if ok then st_ret false else wait_until (WaitOnConnect client 100) false starttime timeoutms) s1
               = (false, s1)) by (destruct ok; [reflexivity|apply wait_until_expired; lia]).
  rewrite Hw.
  unfold IsConnected, st_gets, st_ret. destruct (match sk_outcome client with Accepts t => _ | _ => _ end);
    [intros _; exact Hn|].
  unfold Destroy, fail_exchange, put_error, put_busy, st_bind, st_modify. cbn. by intros [].
Qed.

Lemma obtain_client_expired (c0 : SConnection) (starttime timeoutms : Z) (s : St) :
  (timeoutms <= now s - starttime)%Z ->
  fst (fst (obtain_client c0 starttime timeoutms s)) <> None ->
  now (snd (obtain_client c0 starttime timeoutms s)) = now s.
Proof.
  intros H. destruct c0 as [[c|]|]; unfold obtain_client; [destruct (Error c)| |];
    unfold st_bind, st_ret, Destroy, st_modify; cbn -[connect_new]; try done;
    match goal with |- context [connect_new ?a ?b ?x] =>
      pose proof (connect_new_expired a b x) as Hc; destruct (connect_new a b x) as [r s'] end;
    cbn in Hc |- *; intros Hr; apply Hc; [lia|exact Hr| lia|exact Hr|lia|exact Hr].
Qed.

(** The slot of the caller's connection after [obtain_client]: NULL if
    there is one. *)
Lemma obtain_client_slot (c0 : SConnection) (starttime timeoutms : Z) (s : St) :
  snd (fst (obtain_client c0 starttime timeoutms s)) = match c0 with None => None | Some _ => Some None end.
Proof.
  destruct c0 as [[c|]|]; unfold obtain_client; [destruct (Error c)| |];
    unfold st_bind, st_ret, Destroy, st_modify; try done;
    match goal with |- context [connect_new ?a ?b ?x] => by destruct (connect_new a b x) end.
Qed.

(** The read loop after the deadline fails at once. *)
Lemma read_loop_expired (client : Socket) (stk : CTCPStack) (starttime timeoutms : Z)
    (connection : SConnection) (g : ScopedSocket) (s : St) :
  (timeoutms <= now s - starttime)%Z ->
  read_loop 1 client stk starttime timeoutms connection g s = (("", connection, g), snd (fail_exchange s)).
Proof.
  intros H. cbn [read_loop]. unfold st_bind at 1. rewrite wait_until_expired by exact H.
  cbn [negb]. unfold st_bind, st_ret. by destruct (fail_exchange s).
Qed.

(** C7 (bounds): with a timeout of 0 (the least a [size_t] can hold)
    every exchange fails, with [error] set and [busy] cleared, even when
    the daemon is connected and its reply is already there: both waits
    test the deadline before they look for the event. *)
Theorem getResponse_zero_timeout (cmd args : string) (ch : bool) (c0 : SConnection) (b : bool) (s : St) :
  exists s', getResponse cmd args ch c0 0 b s = (("", match c0 with None => None | Some _ => Some None end), s') /\
    Connector.error (conn s') = true /\ Connector.busy (conn s') = false.
Proof.
  rewrite getResponse_unfold.
  pose proof (getPasswordData_world ch b s) as (Hn & _).
  destruct (getPasswordData ch b s) as [pw s1]. cbn [snd] in Hn.
  pose proof (obtain_client_none_flags c0 (now s) 0 s1) as Hf.
  pose proof (obtain_client_expired c0 (now s) 0 s1 ltac:(lia)) as He.
  pose proof (obtain_client_slot c0 (now s) 0 s1) as Hsl.
  destruct (obtain_client c0 (now s) 0 s1) as [[[client|] c1] s2]; cbn in Hf, He, Hsl; subst c1.
  - unfold exchange_tail. rewrite read_loop_expired by (cbn; rewrite He by discriminate; lia).
    eexists; split; [reflexivity|]. unfold ScopedSocket_destroy, Destroy, st_modify. done.
  - eexists; split; [reflexivity|]. by apply Hf.
Qed.

(** ** Socket ownership *)

Lemma iter_add_yield_socks (k : nat) (s : St) :
  next_sock (Nat.iter k add_yield s) = next_sock s /\ destroyed (Nat.iter k add_yield s) = destroyed s.
Proof. induction k as [|k IH]; simpl; [done|]. exact IH. Qed.

Lemma wait_until_socks (due : option Z) (stop : bool) (starttime timeoutms : Z) (s : St) :
  let s' := snd (wait_until (wait_for due 100) stop starttime timeoutms s) in
  next_sock s' = next_sock s /\ destroyed s' = destroyed s.
Proof.
  destruct (wait_until_shape due stop starttime timeoutms s) as (k & t & Hs).
  cbn zeta. rewrite Hs. apply iter_add_yield_socks.
Qed.

(** A connection attempt takes the next identity; a failed one destroys
    that socket and nothing else. *)
Lemma connect_new_socks (starttime timeoutms : Z) (s : St) :
  let '(r, s') := connect_new starttime timeoutms s in
  next_sock s' = S (next_sock s) /\
  destroyed s' = (destroyed s ++ match r with Some _ => [] | None => [next_sock s] end)%list /\
  owned (Some r) = match r with Some _ => [next_sock s] | None => [] end.
Proof.
  unfold connect_new, st_bind. destruct (Connect s) as [[ok client] s1] eqn:HC.
  assert (H1 : next_sock s1 = S (next_sock s) /\ destroyed s1 = destroyed s /\ sk_id client = next_sock s).
  { unfold Connect in HC. destruct (peers s); injection HC as _ <- <-; done. }
  destruct H1 as (Hn1 & Hd1 & Hid).
  assert (Hw : exists b2 s2, (if ok then st_ret false else
            wait_until (WaitOnConnect client 100) false starttime timeoutms) s1 = (b2, s2) /\
            next_sock s2 = next_sock s1 /\ destroyed s2 = destroyed s1).
  { destruct ok; [by exists false, s1|]. unfold WaitOnConnect.
    eexists _, _; split; [apply surjective_pairing|]. apply wait_until_socks. }
  destruct Hw as (b2 & s2 & -> & Hn2 & Hd2). unfold IsConnected, st_gets, st_ret.
  destruct (match sk_outcome client with Accepts t => _ | _ => _ end); simpl.
  - rewrite Hn2, Hd2, Hd1, Hid, app_nil_r. by split.
  - rewrite Hn2, Hd2, Hd1, Hid. by split.
Qed.

(** Obtaining a socket: what the caller's slot owned and what was
    created is the socket obtained and the sockets destroyed. *)
Lemma obtain_client_socks (c0 : SConnection) (starttime timeoutms : Z) (s : St) :
  let '((r, c1), s') := obtain_client c0 starttime timeoutms s in
  owned c1 = [] /\ (next_sock s' <= S (next_sock s))%nat /\ (next_sock s <= next_sock s')%nat /\
  exists D, destroyed s' = (destroyed s ++ D)%list /\ (owned c0 ++ created s s' ≡ₚ D ++ owned (Some r))%list.
Proof.
  unfold created.
  destruct c0 as [[c|]|]; unfold obtain_client; [destruct (Error c)| |];
    unfold st_bind, st_ret, Destroy, st_modify.
  2:{ simpl. rewrite Nat.sub_diag. split; [done|]. split; [lia|]. split; [lia|].
       exists []. by rewrite app_nil_r. }
  all: match goal with |- context [connect_new ?a ?b ?x] =>
         pose proof (connect_new_socks a b x) as H; destruct (connect_new a b x) as [r s'] end;
       destruct H as (Hn & Hd & Ho); cbn [next_sock destroyed add_destroyed] in Hn, Hd |- *;
       rewrite Hn, Nat.sub_succ_l, Nat.sub_diag by lia;
       (split; [done|]); (split; [lia|]); (split; [lia|]).
  - exists ([sk_id c] ++ match r with Some _ => [] | None => [next_sock s] end)%list.
    rewrite Hd, app_assoc. split; [done|]. rewrite Ho. by destruct r.
  - exists (match r with Some _ => [] | None => [next_sock s] end). rewrite Hd. split; [done|].
    rewrite Ho. by destruct r.
  - exists (match r with Some _ => [] | None => [next_sock s] end). rewrite Hd. split; [done|].
    rewrite Ho. by destruct r.
Qed.

(** The read loop creates and destroys nothing; it either keeps the slot
    and the guard, or, on success with a caller's connection, puts the
    socket in the slot and releases the guard. *)
Lemma read_loop_socks (client : Socket) (stk : CTCPStack) (starttime timeoutms : Z)
    (connection : SConnection) (g : ScopedSocket) (s : St) :
  let '((_, c2, g'), s') := read_loop 1 client stk starttime timeoutms connection g s in
  next_sock s' = next_sock s /\ destroyed s' = destroyed s /\
  ((c2 = connection /\ g' = g) \/
   (connection <> None /\ owned c2 = [sk_id client] /\ g' = release g)).
Proof.
  cbn [read_loop]. unfold st_bind, WaitForRead.
  pose proof (wait_until_socks (match sk_inbox client with (t, _) :: _ => Some t | [] => None end)
                (Error client) starttime timeoutms s) as Hw.
  destruct (wait_until _ _ _ _ s) as [[|] s1]; cbn [fst snd] in Hw;
    [|unfold fail_exchange, put_error, put_busy, st_bind, st_modify, st_ret; cbn; tauto].
  cbn [negb]. pose proof (Read_id client 1024) as Hid.
  destruct (Read client 1024) as [buf c']. cbn [snd] in Hid.
  destruct (Error c'); [unfold fail_exchange, put_error, put_busy, st_bind, st_modify, st_ret; cbn; tauto|].
  destruct (getPacket _) as [[resp k] stk'] eqn:Hp.
  destruct (k =? 0)%nat eqn:Hk; [unfold put_busy, st_bind, st_modify, st_ret; cbn; tauto|].
  destruct resp; [|apply getPacket_none_size in Hp; subst k; discriminate].
  unfold put_busy, st_bind, st_modify, st_ret. cbn [next_sock destroyed set_conn].
  destruct Hw as [Hn Hd]. destruct connection; [|tauto]. split; [exact Hn|]. split; [exact Hd|].
  right. split; [discriminate|]. split; [cbn; by rewrite Hid|done].
Qed.

Lemma ScopedSocket_destroy_socks (g : ScopedSocket) (s : St) :
  next_sock (snd (ScopedSocket_destroy g s)) = next_sock s /\
  destroyed (snd (ScopedSocket_destroy g s)) = (destroyed s ++ guard_ids g)%list.
Proof.
  unfold ScopedSocket_destroy, guard_ids, owned, Destroy, st_modify, st_ret.
  destruct (socket_client g); simpl; [done|by rewrite app_nil_r].
Qed.

(** The tail of an exchange: the socket obtained ends up destroyed or in
    the caller's slot, exactly once. *)
Lemma exchange_tail_socks (client : Socket) (starttime timeoutms : Z) (c1 : SConnection) (s : St) :
  owned c1 = [] ->
  let '((_, c2), s') := exchange_tail client starttime timeoutms c1 s in
  next_sock s' = next_sock s /\
  exists D, destroyed s' = (destroyed s ++ D)%list /\ (D ++ owned c2 ≡ₚ [sk_id client])%list.
Proof.
  intros Ho. unfold exchange_tail.
  pose proof (read_loop_socks client empty_stack starttime timeoutms c1 (mkScopedSocket (Some client)) s) as H.
  destruct (read_loop _ _ _ _ _ _ _ _) as [[[ret c2] g'] s3].
  destruct (ScopedSocket_destroy_socks g' s3) as [Hn' Hd'].
  destruct H as (Hn & Hd & [[-> ->]|(_ & Ho2 & ->)]);
    (split; [congruence|]); eexists; (split; [rewrite Hd', Hd; reflexivity|]).
  - by rewrite Ho.
  - by rewrite Ho2.
Qed.

(** C5 (safety): [getResponse] neither leaks nor destroys twice: the
    socket the caller's connection held and the socket the call created,
    if any, are each either destroyed exactly once or handed back in the
    connection, and no other socket is destroyed.  At most one socket is
    created per exchange. *)
Theorem getResponse_sockets (cmd args : string) (ch : bool) (c0 : SConnection)
    (timeoutms : Z) (b : bool) (s : St) :
  let '((_, c1), s') := getResponse cmd args ch c0 timeoutms b s in
  (next_sock s <= next_sock s' <= S (next_sock s))%nat /\
  exists D, destroyed s' = (destroyed s ++ D)%list /\ (owned c0 ++ created s s' ≡ₚ D ++ owned c1)%list.
Proof.
  rewrite getResponse_unfold.
  pose proof (getPasswordData_world ch b s) as (_ & _ & _ & _ & Hn1 & Hd1).
  destruct (getPasswordData ch b s) as [pw s1]. cbn [snd] in Hn1, Hd1.
  pose proof (obtain_client_socks c0 (now s) timeoutms s1) as Ho.
  destruct (obtain_client c0 (now s) timeoutms s1) as [[r c1] s2].
  destruct Ho as (Hc1 & Hle1 & Hle2 & D & Hd2 & HP). unfold created in *. rewrite Hn1 in *.
  destruct r as [client|].
  - pose proof (exchange_tail_socks client (now s) timeoutms c1
                  (add_wire (Send (request cmd pw args)) s2) Hc1) as Ht.
    destruct (exchange_tail _ _ _ _ _) as [[ret c2] s3].
    destruct Ht as (Hn3 & D' & Hd3 & HP'). cbn [next_sock destroyed add_wire] in Hn3, Hd3.
    rewrite Hn3. split; [lia|]. exists (D ++ D')%list.
    rewrite Hd3, Hd2, Hd1, app_assoc. split; [done|].
    rewrite HP, <- app_assoc, HP'. done.
  - split; [lia|]. exists D. rewrite Hd2, Hd1. split; [done|]. by rewrite HP, Hc1.
Qed.

(** ** Concrete exchanges *)

Lemma getResponse_second_frame_lost_witness :
  let c := mkSocket 7 (Accepts 0) [(1010%Z, NData (Send "A" ++ Send "B"))] false 0 in
  exists c1 s1 s2,
    getResponse "STATUS DETAIL" "" false (Some (Some c)) 1000 true (demo_state []) =
      (("A", Some (Some c1)), s1) /\
    getResponse "STATUS DETAIL" "" false (Some (Some c1)) 1000 true s1 = (("", Some None), s2) /\
    Connector.error (conn s2) = true /\ Connector.busy (conn s2) = false.
Proof.
  intros c. apply (getResponse_second_frame_lost _ _ _ _ _ _ c 1010 "A" "B");
    [reflexivity|reflexivity|discriminate|lia|simpl; lia|vm_compute; lia].
Defined.

Lemma wait_loop_fuel_wait_for_witness :
  wait_loop 12 (wait_for None 100) false 0 1000 (demo_state []) =
  wait_loop 20 (wait_for None 100) false 0 1000 (demo_state []).
Proof. apply wait_loop_fuel_wait_for; vm_compute; lia. Defined.

Lemma getResponse_reply_witness :
  exists s', getResponse "START BACKUP FULL" "" false None 10000 true demo_reply = (("OK", None), s') /\
    Connector.error (conn s') = false /\ Connector.busy (conn s') = false /\
    wire s' = (wire demo_reply ++
      [Send (request "START BACKUP FULL" (fst (getPasswordData false true demo_reply)) "")])%list /\
    now s' = Z.max (Z.max (now demo_reply) 1050) 1200.
Proof.
  apply (getResponse_reply _ _ _ _ _ _ 1050 1200 "OK" [] [] []);
    [reflexivity|lia|simpl; lia|simpl; lia|vm_compute; lia].
Defined.

Lemma getResponse_partial_reply_witness :
  exists s', getResponse "GET LOGDATA" "logid=1&loglevel=0" true None 10000 true
     (demo_state [mkPeer (Accepts 1000) [(1100%Z, NData (take 3 (Send "abc")));
                                          (1150%Z, NData (drop 3 (Send "abc")))]]) = (("", None), s') /\
    Connector.error (conn s') = false /\ Connector.busy (conn s') = false.
Proof.
  apply (getResponse_partial_reply _ _ _ _ _ _ 1000 1100 (take 3 (Send "abc")) (drop 3 (Send "abc")) "abc"
           [(1150%Z, NData (drop 3 (Send "abc")))] []);
    [reflexivity|lia|simpl; lia|simpl; lia|vm_compute; reflexivity
    |vm_compute; reflexivity|discriminate].
Defined.

Lemma getResponse_timeout_witness :
  exists s', getResponse "PAUSE true" "" false None 500 true
     (demo_state [mkPeer (Accepts 1000) []]) = (("", None), s') /\
    Connector.error (conn s') = true /\ Connector.busy (conn s') = false.
Proof. apply (getResponse_timeout _ _ _ _ _ _ 1000 []); [reflexivity|lia|simpl; lia]. Defined.

Lemma getResponse_connect_failed_witness :
  exists s', getResponse "PAUSE true" "" false (Some None) 500 true
     (demo_state [mkPeer (Refuses 1010) []]) = (("", Some None), s') /\
    Connector.error (conn s') = true /\ Connector.busy (conn s') = false.
Proof.
  apply getResponse_connect_failed; [right; reflexivity|].
  intros p ps H. injection H as <- _. exact I.
Defined.

Lemma getResponse_reuse_witness :
  let c := mkSocket 7 (Accepts 0) [(1100%Z, NData (Send "OK" ++ []))] false 0 in
  exists c' s', getResponse "STATUS DETAIL" "" false (Some (Some c)) 1000 true (demo_state []) =
    (("OK", Some (Some c')), s') /\
    sk_inbox c' = [] /\ Error c' = false /\ peers s' = peers (demo_state []) /\
    Connector.error (conn s') = false /\ Connector.busy (conn s') = false.
Proof.
  intros c. apply (getResponse_reuse _ _ _ _ _ _ c 1100 "OK" [] []);
    [reflexivity|reflexivity|discriminate|lia|simpl; lia|vm_compute; lia].
Defined.

(** Connecting changes neither the wire nor, when it succeeds, the
    connector's flags. *)
Lemma connect_new_frame (starttime timeoutms : Z) (s : St) :
  wire (snd (connect_new starttime timeoutms s)) = wire s /\
  (fst (connect_new starttime timeoutms s) <> None -> conn (snd (connect_new starttime timeoutms s)) = conn s).
Proof.
  unfold connect_new, st_bind.
  destruct (Connect s) as [[ok client] s1] eqn:HC.
  assert (H1 : conn s1 = conn s /\ wire s1 = wire s).
  { unfold Connect in HC. destruct (peers s); injection HC as _ _ <-; done. }
  assert (Hw : exists b2 s2, (if ok then st_ret false else
            wait_until (WaitOnConnect client 100) false starttime timeoutms) s1 = (b2, s2) /\
            conn s2 = conn s /\ wire s2 = wire s).
  { destruct ok; [exists false, s1; done|]. unfold WaitOnConnect.
    destruct (wait_until_shape (match sk_outcome client with Accepts t | Refuses t => Some t | NoAnswer => None end)
                false starttime timeoutms s1) as (k & t & Hs).
    eexists _, _; split; [apply surjective_pairing|]. rewrite Hs.
    pose proof (iter_add_yield_conn k s1) as (Hc & _ & Hw & _). cbn [conn wire set_now].
    rewrite Hc, Hw. exact H1. }
  destruct Hw as (b2 & s2 & -> & Hc2 & Hw2). unfold IsConnected, st_gets, st_ret.
  destruct (match sk_outcome client with Accepts t => _ | _ => _ end); [done|].
  split; [exact Hw2|]. simpl. done.
Qed.

Lemma getResponse_long_reply_witness :
  exists s', getResponse "STATUS DETAIL" "" false None 10000 true
     (demo_state [mkPeer (Accepts 1000) [(1100%Z, NData (Send long_payload ++ []))]]) = (("", None), s') /\
    Connector.error (conn s') = false /\ Connector.busy (conn s') = false.
Proof.
  apply (getResponse_long_reply _ _ _ _ _ _ 1000 1100 long_payload [] [] []);
    [reflexivity|lia|simpl; lia|simpl; lia|vm_compute; reflexivity|apply Nat.ltb_lt; vm_compute; reflexivity].
Defined.

Lemma getResponse_deadline_witness :
  (0 <= 500)%Z /\
  (now (snd (getResponse "PAUSE true" "" false None 500 true (demo_state [mkPeer NoAnswer []])))
     <= now (demo_state [mkPeer NoAnswer []]) + 500 + 99)%Z.
Proof. split; [lia|apply getResponse_deadline; lia]. Defined.

(** The error of a timed-out exchange is gone after the next exchange,
    which fails too: its reply is split, so it returns the empty string
    with [error] clear. *)
Example error_lost_after_partial_reply :
  (let '((r1, _), s1) := getResponse "STATUS DETAIL" "" false None 200 true
        (demo_state [mkPeer (Accepts 1000) []; mkPeer (Accepts 1300) [(1310%Z, NData (take 5 (Send "OK")))]]) in
   let e1 := Connector.error (conn s1) in
   let '((r2, _), s2) := getResponse "STATUS DETAIL" "" false None 200 true s1 in
   (r1, e1, r2, Connector.error (conn s2))) = ("", true, "", false).
Proof. vm_compute. reflexivity. Qed.
