(* ===== verification/StatusPoller.v ===== *)
(** * StatusPoller: [Connector::initStatus] and [SStatus::isAvailable]
    ([Connector.cpp] 540-731)

    The tray polls the daemon's progress on one long-lived connection:
    [initStatus] connects (or reuses the previous socket when it has no
    error), sends [STATUS] or [FSTATUS] with the password and returns an
    [SStatus] holding the socket, the start time and the timeout.  Each call
    of [isAvailable] then waits at most 10 ms for data; if some arrived it
    reads at most 1024 bytes into the [SStatus]'s own [CTCPStack], takes
    one packet and decodes it as a ["#"]-separated status line
    ([apply_status_line]).  Past the deadline, on a socket error or on an
    empty packet it sets the [SStatus]'s [error] flag.

    [isAvailable] dereferences [client] without checking it; once an
    earlier call has destroyed the socket ([client = NULL]) a further call
    is a null-pointer dereference, which the model returns as [None].

    The poller of spec 4.4 is the abstract machine [poll_spec_step] on
    [PollSpec] (the snapshot, the messages of the stream still to be
    delivered, whether it is [Errored]); [isAvailable_refines] proves
    that every poll from an error-free state is one of its steps under the
    simulation relation [poll_rel], which relates the bytes buffered and
    still on the socket ([pending]) to the frames of the queued messages;
    [polls_in_stream_order] lifts it to any run of polls ([poll_run])
    that ends without error: the messages are delivered in stream order,
    none lost or repeated.

    The theorems: the refinement, the decoding of a status line (the
    round trip of a printed line, which fields are reset by every update
    and which keep their value), a poll's indifference to [error], the
    effect of the deadline, a complete and a partial packet, the 10 ms
    bound on a poll, a buffered frame that waits for new bytes, the step
    relation of successive polls and its invariant ([client] is NULL only
    after an error), the sockets a poll destroys, what [initStatus]
    sends, and the reuse by [initStatus] of a socket left open in the
    middle of a frame. *)

From S2P Require Import Prelude StringTools FrameCodec Socket Credential Client.

Local Open Scope st_scope.
Local Open Scope string_scope.

(** ** [SStatus] *)

Record SStatus := mkSStatus {
  init : bool;
  starttime : Z;
  timeoutms : Z;
  client : option Socket;
  tcpstack : CTCPStack;
  error : bool;
  lastbackupdate : string;
  status : string;
  pcdone : string;
  pause : bool;
  capa : Z;
  new_server : string;
  has_server : bool;
  ask_restore_ok : bool;
  restore_file : bool;
  restore_path : string;
  needs_restore_restart : Z
}.

(** A default-constructed [SStatus]. *)
Definition SStatus_default : SStatus :=
  mkSStatus false 0 0 None empty_stack false "" "" "" false 0 "" false false false "" 0.

(** ** Decoding a status line (lines 666-724) *)

(** [params.find(k) != params.end()] selects the new value. *)
Definition opt {A} (params : gmap string string) (k : string) (f : string -> A) (d : A) : A :=
  match params !! k with Some v => f v | None => d end.

(** The named fields of the fifth token. *)
Definition apply_params (params : gmap string string) (st : SStatus) : SStatus :=
  let opt {A} := @opt A params in
  mkSStatus (init st) (starttime st) (timeoutms st) (client st) (tcpstack st) (error st)
    (lastbackupdate st) (status st) (pcdone st) (pause st)
    (opt "capa" watoi (capa st))
    (opt "new_ident" (fun v => v) (new_server st))
    (opt "has_server" (fun v => v =? "true") (has_server st))
    (opt "restore_ask" (fun v => negb (watoi v =? 0)%Z) (ask_restore_ok st))
    (opt "restore_file" (fun v => v =? "true") (restore_file st))
    (opt "restore_path" (fun v => v) (restore_path st))
    (opt "needs_restore_restart" watoi (needs_restore_restart st)).

Definition apply_status_line (ret : string) (st : SStatus) : SStatus :=
  let toks := Tokenize ret "#" in
  let tok i d := nth i toks d in
  let n := length toks in
  let st1 :=
    mkSStatus (init st) (starttime st) (timeoutms st) (client st) (tcpstack st) (error st)
      (if (0 <? n)%nat then tok 0%nat "" else lastbackupdate st)
      (if (1 <? n)%nat then tok 1%nat "" else status st)
      (if (2 <? n)%nat then tok 2%nat "" else pcdone st)
      (if (3 <? n)%nat then tok 3%nat "" =? "P" else false)
      0 (new_server st) (has_server st) false
      (restore_file st) (restore_path st) (needs_restore_restart st) in
  if (4 <? n)%nat then apply_params (ParseParamStr (tok 4%nat "")) st1 else st1.

(** ** Updating the poll state *)

Definition with_error (client' : option Socket) (stk : CTCPStack) (st : SStatus) : SStatus :=
  mkSStatus (init st) (starttime st) (timeoutms st) client' stk true
    (lastbackupdate st) (status st) (pcdone st) (pause st) (capa st) (new_server st)
    (has_server st) (ask_restore_ok st) (restore_file st) (restore_path st)
    (needs_restore_restart st).

Definition with_stream (client' : Socket) (stk : CTCPStack) (st : SStatus) : SStatus :=
  mkSStatus (init st) (starttime st) (timeoutms st) (Some client') stk (error st)
    (lastbackupdate st) (status st) (pcdone st) (pause st) (capa st) (new_server st)
    (has_server st) (ask_restore_ok st) (restore_file st) (restore_path st)
    (needs_restore_restart st).

(** ** [SStatus::isAvailable] (lines 615-727) *)

Definition isAvailable (st : SStatus) : ST St (option (bool * SStatus)) :=
  let* t := wxGetLocalTimeMillis in
  match client st with
  | None => st_ret None
  | Some c =>
      if (t - starttime st <? timeoutms st)%Z then
        let* ready := WaitForRead c 10 in
        if negb ready then st_ret (Some (false, st))
        else if Error c then do* Destroy c; st_ret (Some (false, with_error None (tcpstack st) st))
        else
          let '(buffer, c) := Read c 1024 in
          if Error c then do* Destroy c; st_ret (Some (false, with_error None (tcpstack st) st))
          else
            let stk := AddData (tcpstack st) (take (GetLastIOSize c) buffer) in
            let '(resp, packetsize, stk) := getPacket stk in
            if (packetsize =? 0)%nat then st_ret (Some (false, with_error (Some c) stk st))
            else
              match resp with
              | Some ret => st_ret (Some (true, apply_status_line ret (with_stream c stk st)))
              | None => st_ret None
              end
      else do* Destroy c; st_ret (Some (false, with_error None (tcpstack st) st))
  end.

Definition SStatus_hasError (st : SStatus) : bool := error st.

(** ** [Connector::initStatus] (lines 540-613) *)

Definition status_cmd (fast : bool) : string := if fast then "FSTATUS" else "STATUS".

(** Lines 542-547: a previous socket with an error is destroyed. *)
Definition drop_errored (last_client : option Socket) : ST St (option Socket) :=
  match last_client with
  | Some c => if Error c then do* Destroy c; st_ret None else st_ret (Some c)
  | None => st_ret None
  end.

(** The socket [drop_errored] keeps. *)
Definition kept (last_client : option Socket) : option Socket :=
  match last_client with
  | Some c => if Error c then None else Some c
  | None => None
  end.

Definition initStatus (last_client : option Socket) (fast : bool) (timeoutms' : Z)
    : ST St SStatus :=
  let* last_client := drop_errored last_client in
  let* curr_pw := getPasswordData false false in
  let* t := wxGetLocalTimeMillis in
  let* c := match last_client with
            | Some c => st_ret (Some c)
            | None => connect_new t timeoutms'
            end in
  match c with
  | None =>
      st_ret (mkSStatus false t 0 None empty_stack false "" "" "" false 0 "" false false false "" 0)
  | Some c =>
      do* st_modify (add_wire (Send (request (status_cmd fast) curr_pw "")));
      st_ret (mkSStatus true t timeoutms' (Some c) empty_stack false "" "" "" false 0 "" false
                false false "" 0)
  end.

(** The states an [SStatus] reaches: the result of an [initStatus], then
    the result of each poll, whatever the world does in between. *)
Inductive poll_reach : SStatus -> Prop :=
| reach_init (lc : option Socket) (fast : bool) (t : Z) (s : St) :
    poll_reach (fst (initStatus lc fast t s))
| reach_poll (st st' : SStatus) (s s' : St) (b : bool) :
    poll_reach st -> isAvailable st s = (Some (b, st'), s') -> poll_reach st'.

(** The invariant: the socket is gone only when [initStatus] failed or an
    error was reported. *)
Definition poll_inv (st : SStatus) : Prop :=
  client st = None -> init st = false \/ error st = true.

Definition status_line : string := "2024-01-01#BACKUP INCR#42#P#capa=5&has_server=true".

(** The daemon accepts at once and pushes one status line, split in two
    chunks 10 ms apart. *)
Definition poll_world : St :=
  demo_state [mkPeer (Accepts 1000)
                [(1005%Z, NData (take 10 (Send status_line)));
                 (1015%Z, NData (drop 10 (Send status_line)))]].

Definition poll_start : SStatus := fst (initStatus None false 5000 poll_world).

Definition st7 : SStatus :=
  mkSStatus true 0 5000 None empty_stack false "" "" "" true 7 "srv" true true true "/p" 1.

Definition sock (inbox : list (Z * netev)) : Socket := mkSocket 0 (Accepts 0) inbox false 0.

Definition st_at (c : Socket) (stk : CTCPStack) : SStatus :=
  mkSStatus true 1000 5000 (Some c) stk false "" "" "" false 0 "" false false false "" 0.

(** ** The poller of spec 4.4 *)

(** The snapshot an [SStatus] shows its caller: its fields without the
    socket, the stream buffer and the error flag. *)
Definition snapshot (st : SStatus) : SStatus :=
  mkSStatus (init st) (starttime st) (timeoutms st) None empty_stack false
    (lastbackupdate st) (status st) (pcdone st) (pause st) (capa st) (new_server st)
    (has_server st) (ask_restore_ok st) (restore_file st) (restore_path st)
    (needs_restore_restart st).

(** The same [SStatus] with its error flag set to [e]. *)
Definition set_st_error (e : bool) (st : SStatus) : SStatus :=
  mkSStatus (init st) (starttime st) (timeoutms st) (client st) (tcpstack st) e
    (lastbackupdate st) (status st) (pcdone st) (pause st) (capa st) (new_server st)
    (has_server st) (ask_restore_ok st) (restore_file st) (restore_path st)
    (needs_restore_restart st).

(** The abstract poller: the snapshot, the messages of the stream not yet
    delivered, and whether it is [Errored]. *)
Record PollSpec := mkPollSpec {
  ps_snapshot : SStatus;
  ps_queue : list string;
  ps_errored : bool
}.

(** The token-line decoding of a message into a snapshot. *)
Definition spec_decode (m : string) (sn : SStatus) : SStatus := snapshot (apply_status_line m sn).

(** The steps of [poll()] in [Polling]: no update yet; the next message of
    the stream, non-empty, decoded into the snapshot; or [Errored], with
    the snapshot unchanged. *)
Inductive poll_spec_step : PollSpec -> PollSpec -> Prop :=
| PollIdle (a : PollSpec) : poll_spec_step a a
| PollUpdated (sn : SStatus) (m : string) (q : list string) :
    m <> "" -> poll_spec_step (mkPollSpec sn (m :: q) false) (mkPollSpec (spec_decode m sn) q false)
| PollErrored (sn : SStatus) (q q' : list string) :
    poll_spec_step (mkPollSpec sn q false) (mkPollSpec sn q' true).

(** The bytes of the stream the poller has not yet decoded: its buffer,
    then what is still to be read from its socket. *)
Definition pending (st : SStatus) : list ascii :=
  buffer (tcpstack st) ++ match client st with Some c => inbox_bytes (sk_inbox c) | None => [] end.

Definition frame_ok (m : string) : Prop := (Z.of_nat (String.length m) < 2 ^ 32)%Z.

(** The simulation relation: the same snapshot and error flag and, until
    an error, the undecoded bytes are the frames of the queued messages. *)
Definition poll_rel (st : SStatus) (a : PollSpec) : Prop :=
  snapshot st = ps_snapshot a /\ error st = ps_errored a /\
  (ps_errored a = false -> pending st = concat (map Send (ps_queue a)) /\ Forall frame_ok (ps_queue a)).

(** A run of successive polls on one [SStatus], whatever each of them
    reports. *)
Inductive poll_run : SStatus -> SStatus -> Prop :=
| run_nil (st : SStatus) : poll_run st st
| run_step (st st1 st2 : SStatus) (s s1 : St) (b : bool) :
    isAvailable st s = (Some (b, st1), s1) -> poll_run st1 st2 -> poll_run st st2.

(** The snapshot after the messages [ms] have been decoded in order. *)
Fixpoint decode_all (ms : list string) (sn : SStatus) : SStatus :=
  match ms with
  | [] => sn
  | m :: ms' => decode_all ms' (spec_decode m sn)
  end.

(** ** Decoding *)

(** The parameter map of a status line: its fifth token parsed, or empty. *)
Definition status_params (line : string) : gmap string string :=
  let toks := Tokenize line "#" in
  if (4 <? length toks)%nat then ParseParamStr (nth 4 toks "") else ∅.

(** A named field as the daemon prints it: [key=value]. *)
Definition param_text (kv : string * string) : string := fst kv ++ "=" ++ snd kv.

Lemma apply_params_empty (st : SStatus) : apply_params ∅ st = st.
Proof. by destruct st. Qed.

(** [apply_status_line] as the positional update followed by the
    parameter update. *)
Lemma apply_status_line_params (line : string) (st : SStatus) :
  apply_status_line line st =
  apply_params (status_params line)
    (let toks := Tokenize line "#" in
     let n := length toks in
     mkSStatus (init st) (starttime st) (timeoutms st) (client st) (tcpstack st) (error st)
      (if (0 <? n)%nat then nth 0 toks "" else lastbackupdate st)
      (if (1 <? n)%nat then nth 1 toks "" else status st)
      (if (2 <? n)%nat then nth 2 toks "" else pcdone st)
      (if (3 <? n)%nat then nth 3 toks "" =? "P" else false)
      0 (new_server st) (has_server st) false
      (restore_file st) (restore_path st) (needs_restore_restart st)).
Proof.
  unfold apply_status_line, status_params. cbv zeta.
  destruct (4 <? length (Tokenize line "#"))%nat; [done|]. by rewrite apply_params_empty.
Qed.

(** [ParseParamStr]'s loop over printed fields: a later key replaces an
    earlier one. *)
Lemma ParseParamStr_fold (kv : list (string * string)) (m0 : gmap string string) :
  Forall (fun kv => mem_char "=" (fst kv) = false) kv ->
  fold_left (fun m part => let '(k, v) := split_kv part in <[k := v]> m) (map param_text kv) m0 =
  list_to_map (reverse kv) ∪ m0.
Proof.
  revert m0. induction kv as [|[k v] kv IH]; intros m0 Hkv; cbn [map fold_left].
  - rewrite reverse_nil. symmetry. apply (left_id_L ∅ union).
  - inversion Hkv as [|? ? Hk Hr]; subst. change (param_text (k, v)) with (k ++ "=" ++ v). cbn [fst] in Hk.
    rewrite split_kv_app by exact Hk. rewrite IH by exact Hr.
    rewrite reverse_cons, list_to_map_app, <- map_union_assoc. f_equal.
    cbn [list_to_map foldr]. by rewrite insert_empty, insert_union_singleton_l.
Qed.

(** C27 (roundtrip): a status line as the daemon prints it, with four
    positional fields without ["#"] and the named fields [key=value]
    joined by ["&"] (keys without ["="], no ["#"] or ["&"] in any field),
    is decoded back by [apply_status_line]: the positional fields are the
    ones printed, the pause flag is set exactly for ["P"], the parameter
    map holds the named fields, a later key replacing an earlier one,
    and [capa] and [has_server] take the printed values; spec 6 gives one
    such line as its example. *)
Theorem apply_status_line_decode (d s p f : string) (kv : list (string * string)) (st : SStatus) :
  Forall (fun x => mem_char "#" x = false) [d; s; p; f] -> kv <> [] ->
  Forall (fun kv => mem_char "=" (fst kv) = false /\ mem_char "#" (param_text kv) = false /\
                    mem_char "&" (param_text kv) = false) kv ->
  let line := join "#" [d; s; p; f; join "&" (map param_text kv)] in
  let st' := apply_status_line line st in
  status_params line = list_to_map (reverse kv) /\
  lastbackupdate st' = d /\ status st' = s /\ pcdone st' = p /\ pause st' = (f =? "P") /\
  capa st' = opt (list_to_map (reverse kv)) "capa" watoi 0%Z /\
  has_server st' = opt (list_to_map (reverse kv)) "has_server" (fun v => v =? "true") (has_server st).
Proof.
  intros Hf Hne Hkv. cbv zeta.
  set (pt := join "&" (map param_text kv)).
  assert (Ht : Tokenize (join "#" [d; s; p; f; pt]) "#" = [d; s; p; f; pt]).
  { apply Tokenize_join; [done|]. change [d; s; p; f; pt] with ([d; s; p; f] ++ [pt])%list.
    apply Forall_app; split; [by eapply Forall_impl; [exact Hf|]; intros; apply no_sep_char|].
    constructor; [|done]. apply no_sep_char, mem_char_join; [done|].
    apply Forall_map. by eapply Forall_impl; [exact Hkv|]; intros ? (_ & ? & _). }
  assert (Hp : status_params (join "#" [d; s; p; f; pt]) = list_to_map (reverse kv)).
  { unfold status_params. rewrite Ht. cbn [length nth Nat.ltb Nat.leb]. unfold ParseParamStr, pt.
    rewrite Tokenize_join.
    - rewrite ParseParamStr_fold by (by eapply Forall_impl; [exact Hkv|]; intros ? (? & _)).
      apply (right_id_L ∅ union).
    - by destruct kv.
    - apply Forall_map. eapply Forall_impl; [exact Hkv|]. intros ? (_ & _ & ?). by apply no_sep_char. }
  rewrite apply_status_line_params, Hp, Ht. cbn [length nth Nat.ltb Nat.leb].
  unfold apply_params. cbn [lastbackupdate status pcdone pause capa has_server]. by repeat split.
Qed.

(** C28 (functional, finding): every update resets [capa], [pause] and
    [ask_restore_ok] when the line does not carry them, while the other
    named fields keep the value of an earlier update; the spec says that
    an absent field leaves its previous value untouched. *)
Theorem apply_status_line_absent (line : string) (st : SStatus) :
  let st' := apply_status_line line st in
  let params := status_params line in
  (params !! "capa" = None -> capa st' = 0%Z) /\
  (params !! "restore_ask" = None -> ask_restore_ok st' = false) /\
  ((length (Tokenize line "#") <= 3)%nat -> pause st' = false) /\
  (params !! "new_ident" = None -> new_server st' = new_server st) /\
  (params !! "has_server" = None -> has_server st' = has_server st) /\
  (params !! "restore_file" = None -> restore_file st' = restore_file st) /\
  (params !! "restore_path" = None -> restore_path st' = restore_path st) /\
  (params !! "needs_restore_restart" = None -> needs_restore_restart st' = needs_restore_restart st).
Proof.
  cbv zeta. rewrite apply_status_line_params. unfold apply_params, opt. cbn [capa ask_restore_ok
    pause new_server has_server restore_file restore_path needs_restore_restart].
  repeat split; intros H; try (rewrite H; reflexivity).
  rewrite (proj2 (Nat.ltb_ge _ _)) by exact H. reflexivity.
Qed.

(** ** One poll *)

(** A call on an [SStatus] whose socket an earlier call destroyed
    dereferences NULL. *)
Lemma isAvailable_null (st : SStatus) (s : St) :
  client st = None -> isAvailable st s = (None, s).
Proof. intros H. unfold isAvailable, st_bind, wxGetLocalTimeMillis, st_gets. by rewrite H. Qed.

(** Past the deadline a poll reads nothing and waits for
    nothing: its only effects are to destroy the socket and to set the
    [SStatus]'s error flag. *)
Lemma isAvailable_deadline (st : SStatus) (c : Socket) (s : St) :
  client st = Some c -> (timeoutms st <= now s - starttime st)%Z ->
  isAvailable st s = (Some (false, with_error None (tcpstack st) st), add_destroyed (sk_id c) s).
Proof.
  intros Hc Ht. unfold isAvailable, st_bind, wxGetLocalTimeMillis, st_gets.
  rewrite Hc, Z_ltb_ge by exact Ht. reflexivity.
Qed.

(** The data of one chunk arrives in time: the poll is decided by what
    [getPacket] finds in the buffered bytes followed by the chunk. *)
Lemma isAvailable_read (st : SStatus) (c : Socket) (s : St) (tr : Z) (chunk : list ascii)
    (more : list (Z * netev)) :
  client st = Some c -> Error c = false -> sk_inbox c = (tr, NData chunk) :: more ->
  (now s - starttime st < timeoutms st)%Z -> (tr <= now s + 10)%Z ->
  isAvailable st s =
  (let c' := snd (Read c 1024) in
   let '(resp, packetsize, stk) := getPacket (mkCTCPStack (buffer (tcpstack st) ++ take 1024 chunk)) in
   if (packetsize =? 0)%nat then Some (false, with_error (Some c') stk st)
   else match resp with
        | Some ret => Some (true, apply_status_line ret (with_stream c' stk st))
        | None => None
        end, set_now (Z.max (now s) tr) s).
Proof.
  intros Hc He Hin Ht Htr. unfold isAvailable, st_bind, wxGetLocalTimeMillis, st_gets.
  rewrite Hc, Z_ltb_lt' by exact Ht. unfold WaitForRead, wait_for. rewrite Hin.
  rewrite (proj2 (Z.leb_le _ _) Htr). simpl negb. rewrite He.
  pose proof (Read_data c tr chunk more Hin) as Hr.
  destruct (Read c 1024) as [buf c'] eqn:HR. destruct Hr as (He' & Ht' & _).
  cbn [snd]. rewrite He', Ht'. unfold AddData.
  destruct (getPacket _) as [[resp ps] stk].
  destruct (ps =? 0)%nat; [reflexivity|]. destruct resp; reflexivity.
Qed.

(** When the bytes buffered from earlier polls and the
    chunk that arrives now complete the frame of a non-empty status line,
    the poll reports an update, decodes the line into the snapshot and
    keeps the bytes after the frame for the next poll. *)
Lemma isAvailable_update (st : SStatus) (c : Socket) (s : St) (tr : Z) (chunk : list ascii)
    (more : list (Z * netev)) (line : string) (extra : list ascii) :
  client st = Some c -> Error c = false -> sk_inbox c = (tr, NData chunk) :: more ->
  (now s - starttime st < timeoutms st)%Z -> (tr <= now s + 10)%Z ->
  (buffer (tcpstack st) ++ take 1024 chunk)%list = (Send line ++ extra)%list ->
  line <> "" -> (Z.of_nat (String.length line) < 2 ^ 32)%Z ->
  isAvailable st s =
  (Some (true, apply_status_line line (with_stream (snd (Read c 1024)) (mkCTCPStack extra) st)),
   set_now (Z.max (now s) tr) s).
Proof.
  intros Hc He Hin Ht Htr Hb Hne Hlen.
  rewrite (isAvailable_read st c s tr chunk more Hc He Hin Ht Htr), Hb, getPacket_Send by exact Hlen.
  destruct (String.length line =? 0)%nat eqn:E; [|reflexivity].
  apply Nat.eqb_eq in E. destruct line; [done|discriminate].
Qed.

(** A poll that reads only a proper prefix of a frame. *)
Lemma isAvailable_split (st : SStatus) (c : Socket) (s : St) (tr : Z) (chunk : list ascii)
    (more : list (Z * netev)) (line : string) (suf : list ascii) :
  client st = Some c -> Error c = false -> sk_inbox c = (tr, NData chunk) :: more ->
  (now s - starttime st < timeoutms st)%Z -> (tr <= now s + 10)%Z ->
  (buffer (tcpstack st) ++ take 1024 chunk ++ suf)%list = Send line -> suf <> [] ->
  (Z.of_nat (String.length line) < 2 ^ 32)%Z ->
  isAvailable st s =
  (Some (false, with_error (Some (snd (Read c 1024)))
                  (mkCTCPStack (buffer (tcpstack st) ++ take 1024 chunk)) st),
   set_now (Z.max (now s) tr) s).
Proof.
  intros Hc He Hin Ht Htr Hb Hsuf Hlen.
  rewrite (isAvailable_read st c s tr chunk more Hc He Hin Ht Htr).
  rewrite (getPacket_prefix line _ suf Hlen); [reflexivity|by rewrite <- app_assoc|exact Hsuf].
Qed.

(** C20 (error, finding): when the bytes so far are only a proper prefix
    of a frame, the poll does not wait for the rest: it sets the
    [SStatus]'s error flag, although it keeps the socket and the buffered
    prefix.  The spec requires the poller to tolerate updates split across
    reads. *)
Theorem isAvailable_partial (st : SStatus) (c : Socket) (s : St) (tr : Z) (chunk : list ascii)
    (more : list (Z * netev)) (line : string) (suf : list ascii) :
  client st = Some c -> Error c = false -> sk_inbox c = (tr, NData chunk) :: more ->
  (now s - starttime st < timeoutms st)%Z -> (tr <= now s + 10)%Z ->
  (buffer (tcpstack st) ++ take 1024 chunk ++ suf)%list = Send line -> suf <> [] ->
  (Z.of_nat (String.length line) < 2 ^ 32)%Z ->
  isAvailable st s =
  (Some (false, with_error (Some (snd (Read c 1024)))
                  (mkCTCPStack (buffer (tcpstack st) ++ take 1024 chunk)) st),
   set_now (Z.max (now s) tr) s).
Proof.
  intros Hc He Hin Ht Htr Hb Hsuf Hlen.
  exact (isAvailable_split st c s tr chunk more line suf Hc He Hin Ht Htr Hb Hsuf Hlen).
Qed.

(** A poll never blocks for more than its 10 ms
    readability check, as the non-blocking [poll()] of spec 4.4
    requires. *)
Lemma isAvailable_prompt (st : SStatus) (s : St) :
  (now (snd (isAvailable st s)) <= now s + 10)%Z.
Proof.
  unfold isAvailable, st_bind, wxGetLocalTimeMillis, st_gets, st_ret.
  destruct (client st) as [c|]; [|simpl; lia].
  destruct (now s - starttime st <? timeoutms st)%Z; [|simpl; lia].
  pose proof (wait_for_le (match sk_inbox c with (t, _) :: _ => Some t | [] => None end) 10 s
                ltac:(lia)) as Hle.
  unfold WaitForRead. destruct (wait_for _ 10 s) as [[|] s1]; simpl in Hle |- *; [|lia].
  destruct (Error c); [simpl; lia|]. destruct (Read c 1024) as [buf c'].
  destruct (Error c'); [simpl; lia|]. destruct (getPacket _) as [[resp k] stk].
  destruct (k =? 0)%nat; [simpl; lia|]. destruct resp; simpl; lia.
Qed.

(** C25 (liveness, finding): a poll looks at its buffer only after new
    bytes have arrived.  While the daemon sends nothing, a complete status
    frame already buffered (the second of two frames read in one chunk) is
    not reported: the poll waits its 10 ms and reports no update, although
    [getPacket] would return the line. *)
Theorem isAvailable_buffered_frame_ignored (st : SStatus) (c : Socket) (s : St) (line : string)
    (extra : list ascii) :
  client st = Some c -> sk_inbox c = [] -> (now s - starttime st < timeoutms st)%Z ->
  buffer (tcpstack st) = (Send line ++ extra)%list -> (Z.of_nat (String.length line) < 2 ^ 32)%Z ->
  fst (fst (getPacket (tcpstack st))) = Some line /\
  isAvailable st s = (Some (false, st), set_now (now s + 10) s).
Proof.
  intros Hc Hin Ht Hb Hlen. split.
  - destruct (tcpstack st) as [b]. cbn [buffer] in Hb. subst b. by rewrite getPacket_Send.
  - unfold isAvailable, st_bind, wxGetLocalTimeMillis, st_gets. rewrite Hc, Z_ltb_lt' by exact Ht.
    unfold WaitForRead, wait_for. by rewrite Hin.
Qed.

(** ** Successive polls *)

Lemma drop_errored_eq (lc : option Socket) (s : St) :
  drop_errored lc s = (kept lc, s) \/ exists i, drop_errored lc s = (kept lc, add_destroyed i s).
Proof.
  unfold drop_errored, kept, Destroy, st_bind, st_ret, st_modify.
  destruct lc as [c|]; [destruct (Error c)|]; eauto.
Qed.

Lemma initStatus_shape (lc : option Socket) (fast : bool) (t : Z) (s : St) :
  let st := fst (initStatus lc fast t s) in
  error st = false /\ (init st = true <-> client st <> None).
Proof.
  unfold initStatus, st_bind, st_ret, st_modify, wxGetLocalTimeMillis, st_gets.
  destruct (drop_errored lc s) as [[c|] s0];
    destruct (getPasswordData false false s0) as [pw s1];
    [simpl; split; [done|]; split; done|].
  destruct (connect_new (now s1) t s1) as [[c|] s2]; simpl; (split; [done|]); split; done.
Qed.

Lemma apply_status_line_keeps (line : string) (st : SStatus) :
  let st' := apply_status_line line st in
  init st' = init st /\ client st' = client st /\ error st' = error st.
Proof.
  cbv zeta. rewrite apply_status_line_params. unfold apply_params. done.
Qed.

(** What a poll can do to the [SStatus]: nothing, or set the error, or
    keep a socket; it never changes [init]. *)
Lemma isAvailable_cases (st st' : SStatus) (s s' : St) (b : bool) :
  isAvailable st s = (Some (b, st'), s') ->
  init st' = init st /\ (st' = st \/ error st' = true \/ client st' <> None).
Proof.
  unfold isAvailable, st_bind, wxGetLocalTimeMillis, st_gets, st_ret, Destroy, st_modify.
  destruct (client st) as [c|]; [|discriminate].
  destruct (now s - starttime st <? timeoutms st)%Z;
    [|intros H; injection H as <- <- _; simpl; auto].
  destruct (WaitForRead c 10 s) as [[|] s1]; [|intros H; injection H as <- <- _; auto].
  simpl. destruct (Error c); [intros H; injection H as <- <- _; simpl; auto|].
  destruct (Read c 1024) as [buf c']. destruct (Error c'); [intros H; injection H as <- <- _; simpl; auto|].
  destruct (getPacket _) as [[resp ps] stk].
  destruct (ps =? 0)%nat; [intros H; injection H as <- <- _; simpl; auto|].
  destruct resp as [ret|]; [|discriminate]. intros H; injection H as <- <- _.
  destruct (apply_status_line_keeps ret (with_stream c' stk st)) as (Hi & Hc & _).
  rewrite Hi, Hc. simpl. split; [done|]. right; right; discriminate.
Qed.

(** C23 (invariant): in every state the poller reaches, the socket is
    NULL only if [initStatus] failed or the [SStatus] reports an error. *)
Theorem poll_reach_inv (st : SStatus) : poll_reach st -> poll_inv st.
Proof.
  induction 1 as [lc fast t s|st st' s s' b Hr IH Hs].
  - destruct (initStatus_shape lc fast t s) as [He Hic]. intros Hc.
    left. destruct (init _) eqn:E; [|done]. exfalso. by apply Hic.
  - destruct (isAvailable_cases st st' s s' b Hs) as (Hi & [->|[He|Hc]]); [exact IH|by right|].
    intros Hn. by exfalso.
Qed.

(** A poll on a state with a socket always returns. *)
Lemma isAvailable_some (st : SStatus) (s : St) :
  client st <> None -> fst (isAvailable st s) <> None.
Proof.
  intros Hc. unfold isAvailable, st_bind, wxGetLocalTimeMillis, st_gets, st_ret.
  destruct (client st) as [c|]; [|done].
  destruct (now s - starttime st <? timeoutms st)%Z; [|discriminate].
  destruct (WaitForRead c 10 s) as [[|] s1]; [|discriminate]. simpl.
  destruct (Error c); [discriminate|].
  destruct (Read c 1024) as [buf c']. destruct (Error c'); [discriminate|].
  destruct (getPacket _) as [[resp ps] stk] eqn:Hp.
  destruct (ps =? 0)%nat eqn:Hk; [discriminate|].
  destruct resp; [discriminate|].
  apply getPacket_none_size in Hp. subst ps. discriminate.
Qed.

(** A caller that polls only while [init] is set and
    [hasError()] is false never reaches the NULL dereference: the poll
    always returns. *)
Lemma poll_safe (st : SStatus) (s : St) :
  poll_reach st -> init st = true -> SStatus_hasError st = false ->
  fst (isAvailable st s) <> None.
Proof.
  intros Hr Hi He. apply isAvailable_some. intros Hc.
  destruct (poll_reach_inv st Hr Hc) as [H|H]; unfold SStatus_hasError in He; congruence.
Qed.

(** C26 (functional): a successful [initStatus] has written exactly one
    frame, [STATUS#pw=<password>] or [FSTATUS#pw=<password>], and has
    left the connector's flags as [getPasswordData] set them. *)
Theorem initStatus_sends (lc : option Socket) (fast : bool) (t : Z) (s : St) :
  init (fst (initStatus lc fast t s)) = true ->
  wire (snd (initStatus lc fast t s)) =
    (wire s ++ [Send (request (status_cmd fast) (fst (getPasswordData false false s)) "")])%list /\
  conn (snd (initStatus lc fast t s)) = conn (snd (getPasswordData false false s)).
Proof.
  unfold initStatus, st_bind, st_ret, st_modify, wxGetLocalTimeMillis, st_gets.
  destruct (drop_errored_eq lc s) as [->|[i ->]]; [|rewrite getPasswordData_destroyed];
  pose proof (getPasswordData_world false false s) as (_ & _ & Hw & _);
  destruct (getPasswordData false false s) as [pw s1]; simpl in Hw |- *;
  destruct (kept lc) as [c|]; [simpl; intros _; by rewrite Hw| |simpl; intros _; by rewrite Hw|];
  match goal with |- context [connect_new ?a ?b ?x] =>
    pose proof (connect_new_frame a b x) as [Hw2 Hc2];
    destruct (connect_new a b x) as [[c|] s2]; simpl in *; [|discriminate] end;
  intros _; rewrite Hw2, Hc2 by discriminate; simpl; by rewrite Hw.
Qed.

(** ** Socket ownership *)

(** Closes a branch of a poll: the result, the bookkeeping, and the
    destroyed sockets [D]. *)
Ltac sock_close D :=
  intros H; injection H as <- <- <-; split; [done|]; exists D;
  split; [cbn; by rewrite ?app_nil_r|
    cbn; try (match goal with Hi : sk_id _ = sk_id _ |- _ => rewrite Hi end);
    try (match goal with Hc : client _ = Some _ |- _ => rewrite Hc end); done].

Lemma drop_errored_cases (lc : option Socket) (s : St) :
  drop_errored lc s = (lc, s) \/
  exists c, lc = Some c /\ drop_errored lc s = (None, add_destroyed (sk_id c) s).
Proof.
  unfold drop_errored, Destroy, st_bind, st_ret, st_modify.
  destruct lc as [c|]; [destruct (Error c)|]; eauto.
Qed.

(** [initStatus] takes over the socket it is given: the socket it is
    given and the one it creates, if any, are each destroyed once or
    held by the new [SStatus]. *)
Lemma initStatus_sockets (lc : option Socket) (fast : bool) (t : Z) (s : St) :
  let '(st, s') := initStatus lc fast t s in
  (next_sock s <= next_sock s' <= S (next_sock s))%nat /\
  exists D, destroyed s' = (destroyed s ++ D)%list /\
    (owned (Some lc) ++ created s s' ≡ₚ D ++ owned (Some (client st)))%list.
Proof.
  unfold initStatus, st_bind, st_ret, st_modify, wxGetLocalTimeMillis, st_gets, created.
  destruct (drop_errored_cases lc s) as [->|(c & -> & ->)];
    [|rewrite getPasswordData_destroyed];
    pose proof (getPasswordData_world false false s) as (_ & _ & _ & _ & Hn1 & Hd1);
    destruct (getPasswordData false false s) as [pw s1]; cbn [snd] in Hn1, Hd1 |- *.
  - destruct lc as [c|]; cbn -[connect_new].
    + rewrite Hn1, Hd1, Nat.sub_diag. split; [lia|]. exists []. by rewrite app_nil_r.
    + pose proof (connect_new_socks (now s1) t s1) as H.
      destruct (connect_new (now s1) t s1) as [[c|] s2]; cbn; destruct H as (Hn & Hd & Ho);
        rewrite Hn, Hn1, Nat.sub_succ_l, Nat.sub_diag by lia; (split; [lia|]);
        eexists; (split; [rewrite Hd, Hd1; reflexivity|]); cbn in Ho |- *; rewrite ?Ho, ?Hn1; done.
  - cbn -[connect_new].
    pose proof (connect_new_socks (now s1) t (add_destroyed (sk_id c) s1)) as H.
    destruct (connect_new _ t (add_destroyed (sk_id c) s1)) as [[c'|] s2]; cbn;
      destruct H as (Hn & Hd & Ho); cbn in Hn, Hd;
      rewrite Hn, Hn1, Nat.sub_succ_l, Nat.sub_diag by lia; (split; [lia|]);
      eexists; (split; [rewrite Hd, Hd1, <- app_assoc; reflexivity|]); cbn in Ho |- *; rewrite ?Ho, ?Hn1; done.
Qed.

(** C21 (safety): a poll that returns destroys the [SStatus]'s socket
    exactly when it drops it (deadline, socket error, failed read), keeps
    it otherwise, creates none and destroys no other. *)
Theorem isAvailable_sockets (st st' : SStatus) (b : bool) (s s' : St) :
  isAvailable st s = (Some (b, st'), s') ->
  next_sock s' = next_sock s /\
  exists D, destroyed s' = (destroyed s ++ D)%list /\
    (owned (Some (client st)) ≡ₚ D ++ owned (Some (client st')))%list.
Proof.
  unfold isAvailable, st_bind, wxGetLocalTimeMillis, st_gets, st_ret, Destroy, st_modify.
  destruct (client st) as [c|] eqn:Hc; [|discriminate].
  destruct (now s - starttime st <? timeoutms st)%Z; [|sock_close [sk_id c]].
  unfold WaitForRead, wait_for.
  destruct (match sk_inbox c with (t, _) :: _ => Some t | [] => None end) as [t|];
    [destruct (t <=? now s + 10)%Z|]; cbn -[Read getPacket AddData apply_status_line].
  2,3: sock_close (@nil nat).
  destruct (Error c); [sock_close [sk_id c]|].
  pose proof (Read_id c 1024) as Hid. destruct (Read c 1024) as [buf c']. cbn [snd] in Hid.
  destruct (Error c'); [sock_close [sk_id c']|].
  destruct (getPacket _) as [[resp ps] stk].
  destruct (ps =? 0)%nat; [sock_close (@nil nat)|].
  destruct resp as [ret|]; [|discriminate]. intros H; injection H as <- <- <-.
  split; [done|]. exists []. split; [by rewrite app_nil_r|].
  rewrite (proj1 (proj2 (apply_status_line_keeps ret _))). cbn. by rewrite Hid.
Qed.

(** ** [isAvailable] refines the poller of spec 4.4 *)

Lemma snapshot_apply (m : string) (st : SStatus) :
  snapshot (apply_status_line m st) = spec_decode m (snapshot st).
Proof. unfold spec_decode. rewrite !apply_status_line_params. by destruct st. Qed.

Lemma apply_status_line_tcpstack (line : string) (st : SStatus) :
  tcpstack (apply_status_line line st) = tcpstack st.
Proof. rewrite apply_status_line_params. unfold apply_params. done. Qed.

(** An update of the abstract poller is a step of its own kind. *)
Definition is_update (a a' : PollSpec) : Prop :=
  exists m q, ps_queue a = m :: q /\ a' = mkPollSpec (spec_decode m (ps_snapshot a)) q false.

Lemma not_update_self (a : PollSpec) : ~ is_update a a.
Proof.
  intros (m & q & Hq & Ha). apply (f_equal ps_queue) in Ha. cbn in Ha. rewrite Ha in Hq.
  apply (f_equal length) in Hq. cbn in Hq. lia.
Qed.

Lemma not_update_errored (a : PollSpec) (sn : SStatus) (q : list string) :
  ~ is_update a (mkPollSpec sn q true).
Proof. intros (m & q' & _ & Ha). by injection Ha. Qed.

(** A concrete poll that keeps the snapshot and sets the error is the
    abstract [Errored] step. *)
Lemma poll_rel_error (st st' : SStatus) (a : PollSpec) :
  poll_rel st a -> ps_errored a = false -> snapshot st' = snapshot st -> error st' = true ->
  exists a', poll_spec_step a a' /\ poll_rel st' a' /\ (false = true <-> is_update a a').
Proof.
  intros (Hs & He & _) Ha Hs' He'. destruct a as [sn q e]; cbn in *; subst e sn. rewrite Ha.
  exists (mkPollSpec (snapshot st) [] true). split; [constructor|]. split.
  - cbn. split; [exact Hs'|]. split; [exact He'|]. discriminate.
  - split; [discriminate|]. intros H. by apply not_update_errored in H.
Qed.

Lemma poll_rel_idle (st : SStatus) (a : PollSpec) :
  poll_rel st a -> exists a', poll_spec_step a a' /\ poll_rel st a' /\ (false = true <-> is_update a a').
Proof.
  intros H. exists a. split; [constructor|]. split; [done|].
  split; [discriminate|]. intros Hu. by apply not_update_self in Hu.
Qed.

(** The frames of a stream, read chunk by chunk: a packet found in the
    buffer is the stream's first message, and the rest of the stream is
    the frames of the others. *)
Lemma getPacket_frames (b r : list ascii) (q : list string) (p : string) (k : nat) (stk : CTCPStack) :
  (b ++ r)%list = concat (map Send q) -> Forall frame_ok q ->
  getPacket (mkCTCPStack b) = (Some p, k, stk) ->
  exists q', q = p :: q' /\ k = String.length p /\ (buffer stk ++ r)%list = concat (map Send q').
Proof.
  intros Hq Hok Hp. destruct q as [|m q'].
  - cbn in Hq. apply app_eq_nil in Hq as [-> _]. discriminate.
  - inversion Hok as [|? ? Hm Hq']; subst. cbn [map concat] in Hq.
    destruct (getPacket_stream m b r (concat (map Send q')) Hm Hq) as [H|(b2 & _ & Hr & H)];
      rewrite Hp in H; [discriminate|]. injection H as -> -> ->. by exists q'.
Qed.

(** Closes a branch of a poll that moves to [Errored]. *)
Ltac poll_err :=
  intros H; injection H as <- <- _; eapply poll_rel_error; [eassumption|eassumption|reflexivity|reflexivity].

(** C18 (refinement): every poll from a state without error is a step of
    the poller of spec 4.4, under the simulation relation [poll_rel]: it
    delivers nothing, or the next message of the stream (decoded into the
    snapshot, and then the rest of the stream is still queued), or moves
    to [Errored] with the snapshot unchanged; it reports an update
    exactly when it delivers a message. *)
Theorem isAvailable_refines (st st' : SStatus) (a : PollSpec) (b : bool) (s s' : St) :
  poll_rel st a -> ps_errored a = false -> isAvailable st s = (Some (b, st'), s') ->
  exists a', poll_spec_step a a' /\ poll_rel st' a' /\ (b = true <-> is_update a a').
Proof.
  intros Hr Ha. pose proof Hr as (Hs & He & Hq). specialize (Hq Ha) as [Hq Hok].
  destruct a as [sn q e]; cbn in Hs, He, Ha, Hq, Hok; subst sn.
  unfold isAvailable, st_bind, wxGetLocalTimeMillis, st_gets, st_ret, Destroy, st_modify.
  unfold pending in Hq. destruct (client st) as [c|] eqn:Hc; [|discriminate].
  destruct (now s - starttime st <? timeoutms st)%Z;
    [|poll_err].
  unfold WaitForRead, wait_for.
  destruct (match sk_inbox c with (t, _) :: _ => Some t | [] => None end) as [t|];
    [destruct (t <=? now s + 10)%Z|]; cbn -[Read getPacket AddData apply_status_line].
  2,3: intros H; injection H as <- <- _; by apply poll_rel_idle.
  destruct (Error c); [poll_err|].
  pose proof (Read_stream c 1024) as Hrd. destruct (Read c 1024) as [buf c'].
  destruct (Error c') eqn:Hec; [poll_err|].
  specialize (Hrd eq_refl).
  destruct (getPacket _) as [[resp ps] stk] eqn:Hp.
  destruct (ps =? 0)%nat eqn:Hps; [poll_err|].
  destruct resp as [ret|]; [|discriminate]. intros H; injection H as <- <- _.
  rewrite <- Hrd, app_assoc in Hq.
  destruct (getPacket_frames _ _ _ ret ps stk Hq Hok Hp) as (q' & -> & -> & Hq').
  subst e.
  assert (Hne : ret <> "") by (intros ->; discriminate).
  exists (mkPollSpec (spec_decode ret (snapshot st)) q' false). split; [by constructor|]. split.
  - split; [by rewrite snapshot_apply|]. split.
    + rewrite (proj2 (proj2 (apply_status_line_keeps ret _))). done.
    + intros _. split; [|by inversion Hok]. unfold pending.
      rewrite (proj1 (proj2 (apply_status_line_keeps ret _))), apply_status_line_tcpstack. exact Hq'.
  - split; [intros _; by exists ret, q'|done].
Qed.

(** A poll never clears the [SStatus]'s error flag. *)
Lemma isAvailable_error_mono (st st' : SStatus) (s s' : St) (b : bool) :
  isAvailable st s = (Some (b, st'), s') -> error st = true -> error st' = true.
Proof.
  unfold isAvailable, st_bind, wxGetLocalTimeMillis, st_gets, st_ret, Destroy, st_modify.
  destruct (client st) as [c|]; [|discriminate].
  destruct (now s - starttime st <? timeoutms st)%Z; [|by intros [= <- <- _]].
  destruct (WaitForRead c 10 s) as [[|] s1]; cbn -[Read getPacket AddData apply_status_line];
    [|by intros [= <- <- _]].
  destruct (Error c); [by intros [= <- <- _]|].
  destruct (Read c 1024) as [buf c']. destruct (Error c'); [by intros [= <- <- _]|].
  destruct (getPacket _) as [[resp ps] stk]. destruct (ps =? 0)%nat; [by intros [= <- <- _]|].
  destruct resp as [ret|]; [|discriminate]. intros [= <- <- _] He.
  by rewrite (proj2 (proj2 (apply_status_line_keeps ret _))).
Qed.

Lemma poll_run_error_mono (st st' : SStatus) :
  poll_run st st' -> error st = true -> error st' = true.
Proof. induction 1 as [|st st1 st2 s s1 b Hs _ IH]; [done|]. intros He. eauto using isAvailable_error_mono. Qed.

(** C19 (refinement): along any run of polls that ends without error, the
    polls deliver the messages of the stream in order and without loss or
    repetition: the stream's messages are those delivered followed by
    those still undecoded, and the snapshot is the decoding, in order, of
    the ones delivered (spec 5: stream order). *)
Theorem polls_in_stream_order (st st' : SStatus) (ms : list string) :
  error st = false -> pending st = concat (map Send ms) -> Forall frame_ok ms ->
  poll_run st st' -> error st' = false ->
  exists delivered rest, ms = (delivered ++ rest)%list /\
    snapshot st' = decode_all delivered (snapshot st) /\ pending st' = concat (map Send rest).
Proof.
  intros He Hp Hok Hrun. revert ms He Hp Hok.
  induction Hrun as [st|st st1 st2 s s1 b Hs Hrun IH]; intros ms He Hp Hok He'.
  { by exists [], ms. }
  assert (He1 : error st1 = false).
  { destruct (error st1) eqn:E; [|done]. by rewrite (poll_run_error_mono st1 st2 Hrun E) in He'. }
  destruct (isAvailable_refines st st1 (mkPollSpec (snapshot st) ms false) b s s1)
    as (a' & Hstep & (Hs1 & He1' & Hq) & _); [done|done|exact Hs|].
  inversion Hstep as [a0|sn m q Hne|sn q q']; subst.
  - destruct (IH ms He1 (proj1 (Hq eq_refl)) Hok He') as (d & r & -> & Hsn & Hr).
    exists d, r. cbn in Hs1. rewrite Hsn, Hs1. done.
  - cbn in Hs1, Hq. destruct (Hq eq_refl) as [Hp1 Hok1].
    destruct (IH q He1 Hp1 Hok1 He') as (d & r & -> & Hsn & Hr).
    exists (m :: d), r. split; [done|]. rewrite Hsn, Hs1. done.
  - cbn in He1'. congruence.
Qed.

(** ** The error flag and a reused socket *)

Lemma set_st_error_proj (e : bool) (st : SStatus) :
  client (set_st_error e st) = client st /\ starttime (set_st_error e st) = starttime st /\
  timeoutms (set_st_error e st) = timeoutms st /\ tcpstack (set_st_error e st) = tcpstack st /\
  error (set_st_error e st) = e.
Proof. done. Qed.

Lemma set_st_error_twice (e e' : bool) (st : SStatus) :
  set_st_error e (set_st_error e' st) = set_st_error e st.
Proof. done. Qed.

Lemma with_stream_set_error (c : Socket) (stk : CTCPStack) (e : bool) (st : SStatus) :
  with_stream c stk (set_st_error e st) = set_st_error e (with_stream c stk st).
Proof. done. Qed.

Lemma apply_status_line_set_error (l : string) (e : bool) (st : SStatus) :
  apply_status_line l (set_st_error e st) = set_st_error e (apply_status_line l st).
Proof. rewrite !apply_status_line_params. by destruct st. Qed.

(** Closes a branch of [poll_error_not_terminal]. *)
Ltac err_leaf :=
  cbn [option_map fst snd];
  rewrite ?with_stream_set_error, ?apply_status_line_set_error, ?(proj2 (proj2 (proj2 (proj2 (set_st_error_proj _ _))))),
    ?orb_false_r, ?set_st_error_twice;
  first [reflexivity | match goal with st : SStatus, e : bool |- _ => by destruct st, e end].

(** C24 (invariant, finding): the [SStatus]'s error state is not terminal:
    [isAvailable] never consults [error], so a poll from an [SStatus] that
    reports an error reads, decodes and delivers exactly as from the same
    [SStatus] without the error, updates included, and only the error flag
    of the result differs.  The spec asks that no poll after the error
    alter the snapshot. *)
Theorem poll_error_not_terminal (st : SStatus) (e : bool) (s : St) :
  isAvailable (set_st_error e st) s =
  (option_map (fun '(b, st') => (b, set_st_error (e || error st') st'))
     (fst (isAvailable (set_st_error false st) s)),
   snd (isAvailable (set_st_error false st) s)).
Proof.
  unfold isAvailable, st_bind, wxGetLocalTimeMillis, st_gets, st_ret, Destroy, st_modify.
  destruct (set_st_error_proj e st) as (-> & -> & -> & -> & _).
  destruct (set_st_error_proj false st) as (-> & -> & -> & -> & _).
  destruct (client st) as [c|]; [|reflexivity].
  destruct (now s - starttime st <? timeoutms st)%Z; [|err_leaf].
  destruct (WaitForRead c 10 s) as [[|] s1]; cbn -[Read getPacket AddData apply_status_line]; [|err_leaf].
  destruct (Error c); [err_leaf|].
  destruct (Read c 1024) as [buf c']. destruct (Error c'); [err_leaf|].
  destruct (getPacket _) as [[resp ps] stk]. destruct (ps =? 0)%nat; [err_leaf|].
  destruct resp as [ret|]; [err_leaf|reflexivity].
Qed.

(** [initStatus] on a socket without error keeps it, with a fresh
    [CTCPStack], and neither destroys nor creates a socket. *)
Lemma initStatus_keep (c : Socket) (fast : bool) (t : Z) (s : St) :
  Error c = false ->
  let '(st2, s2) := initStatus (Some c) fast t s in
  init st2 = true /\ error st2 = false /\ client st2 = Some c /\ tcpstack st2 = empty_stack /\
  destroyed s2 = destroyed s /\ next_sock s2 = next_sock s.
Proof.
  intros He. unfold initStatus, drop_errored, st_bind, st_ret, st_modify, wxGetLocalTimeMillis, st_gets.
  rewrite He. pose proof (getPasswordData_world false false s) as (_ & _ & _ & _ & Hn & Hd).
  destruct (getPasswordData false false s) as [pw s1]. cbn in Hn, Hd |- *. by rewrite Hn, Hd.
Qed.

(** C22 (error, finding): a poll that sets [error] on the first part of a
    split frame keeps the socket open; the caller's next [initStatus] with
    that socket reuses it, because it has no socket error, with a fresh
    [CTCPStack], destroying and creating nothing: the part of the frame
    already read is dropped, and the new [SStatus] reads on from the
    middle of the old frame.  Spec 5 asks that a cancelled exchange
    discard its connection, so that no partial frame crosses into the
    next one. *)
Theorem poll_reuse_after_split (st : SStatus) (c : Socket) (s : St) (tr : Z) (chunk : list ascii)
    (more : list (Z * netev)) (line : string) (suf : list ascii) (fast : bool) (t : Z) :
  client st = Some c -> Error c = false -> sk_inbox c = (tr, NData chunk) :: more ->
  (now s - starttime st < timeoutms st)%Z -> (tr <= now s + 10)%Z ->
  (buffer (tcpstack st) ++ take 1024 chunk ++ suf)%list = Send line -> suf <> [] ->
  (Z.of_nat (String.length line) < 2 ^ 32)%Z ->
  exists st1 s1 st2 s2,
    isAvailable st s = (Some (false, st1), s1) /\ error st1 = true /\
    initStatus (client st1) fast t s1 = (st2, s2) /\
    init st2 = true /\ error st2 = false /\ client st2 = client st1 /\ tcpstack st2 = empty_stack /\
    destroyed s2 = destroyed s /\ next_sock s2 = next_sock s /\
    pending st1 = ((buffer (tcpstack st) ++ take 1024 chunk) ++ pending st2)%list.
Proof.
  intros Hc He Hin Ht Htr Hb Hsuf Hlen.
  rewrite (isAvailable_split st c s tr chunk more line suf Hc He Hin Ht Htr Hb Hsuf Hlen).
  pose proof (Read_data c tr chunk more Hin) as Hr.
  destruct (Read c 1024) as [buf c'] eqn:HR. destruct Hr as (He' & _ & _). cbn [snd].
  pose proof (initStatus_keep c' fast t (set_now (Z.max (now s) tr) s) He') as Hk.
  destruct (initStatus (Some c') fast t _) as [st2 s2] eqn:Hi.
  destruct Hk as (Hi2 & He2 & Hc2 & Hs2 & Hd2 & Hn2).
  do 4 eexists. split; [reflexivity|]. split; [reflexivity|]. split; [exact Hi|].
  unfold pending. rewrite Hc2, Hs2, Hd2, Hn2. by repeat split.
Qed.

(** ** Concrete polls *)

Lemma apply_status_line_absent_witness :
  capa (apply_status_line "d#s#1" st7) = 0%Z /\ new_server (apply_status_line "d#s#1" st7) = "srv".
Proof.
  destruct (apply_status_line_absent "d#s#1" st7) as (H1 & _ & _ & H4 & _).
  split; [apply H1 | apply H4]; vm_compute; reflexivity.
Defined.

Lemma isAvailable_partial_witness :
  let c := sock [(1005%Z, NData (take 6 (Send "d#s#1")))] in
  isAvailable (st_at c empty_stack) (demo_state []) =
  (Some (false, with_error (Some (snd (Read c 1024))) (mkCTCPStack (buffer (tcpstack (st_at c empty_stack)) ++ take 1024 (take 6 (Send "d#s#1"))))
                  (st_at c empty_stack)),
   set_now (Z.max (now (demo_state [])) 1005) (demo_state [])).
Proof.
  intros c. apply (isAvailable_partial _ c _ 1005 (take 6 (Send "d#s#1")) [] "d#s#1" (drop 6 (Send "d#s#1")));
    [reflexivity|reflexivity|reflexivity|simpl; lia|simpl; lia|vm_compute; reflexivity
    |discriminate|vm_compute; reflexivity].
Defined.

Lemma poll_reach_inv_witness : poll_inv poll_start.
Proof. apply poll_reach_inv. apply reach_init. Defined.

Lemma initStatus_sends_witness :
  wire (snd (initStatus None true 5000 poll_world)) =
    (wire poll_world ++ [Send (request (status_cmd true) (fst (getPasswordData false false poll_world)) "")])%list /\
  conn (snd (initStatus None true 5000 poll_world)) = conn (snd (getPasswordData false false poll_world)).
Proof. apply initStatus_sends. vm_compute. reflexivity. Defined.

Lemma isAvailable_buffered_frame_ignored_witness :
  fst (fst (getPacket (tcpstack (st_at (sock []) (mkCTCPStack (Send "d#s#2")))))) = Some "d#s#2" /\
  isAvailable (st_at (sock []) (mkCTCPStack (Send "d#s#2"))) (demo_state []) =
  (Some (false, st_at (sock []) (mkCTCPStack (Send "d#s#2"))), set_now (now (demo_state []) + 10) (demo_state [])).
Proof.
  apply (isAvailable_buffered_frame_ignored _ (sock []) _ "d#s#2" []);
    [reflexivity|reflexivity|simpl; lia|by rewrite app_nil_r|vm_compute; reflexivity].
Defined.

Lemma isAvailable_sockets_witness :
  let st := st_at (sock []) empty_stack in
  let s' := add_destroyed 0 (set_now 7000 (demo_state [])) in
  next_sock s' = next_sock (set_now 7000 (demo_state [])) /\
  exists D, destroyed s' = (destroyed (set_now 7000 (demo_state [])) ++ D)%list /\
    (owned (Some (client st)) ≡ₚ D ++ owned (Some (client (with_error None (tcpstack st) st))))%list.
Proof.
  intros st s'. apply (isAvailable_sockets st _ false (set_now 7000 (demo_state [])) s').
  vm_compute. reflexivity.
Defined.

Lemma isAvailable_refines_witness :
  let c := sock [(1005%Z, NData (Send "d#s#1"))] in
  let st := st_at c empty_stack in
  let a := mkPollSpec (snapshot st) ["d#s#1"] false in
  exists a', poll_spec_step a a' /\
    poll_rel (apply_status_line "d#s#1" (with_stream (snd (Read c 1024)) (mkCTCPStack []) st)) a' /\
    (true = true <-> is_update a a').
Proof.
  intros c st a.
  apply (isAvailable_refines st _ a true (demo_state []) (set_now 1005 (demo_state [])));
    [|reflexivity|vm_compute; reflexivity].
  split; [reflexivity|]. split; [reflexivity|]. intros _. split; [vm_compute; reflexivity|].
  constructor; [unfold frame_ok; vm_compute; reflexivity|constructor].
Defined.

Lemma polls_in_stream_order_witness :
  let c := sock [(1005%Z, NData (Send "d#s#1" ++ Send "d#s#2"))] in
  let st := st_at c empty_stack in
  let st' := apply_status_line "d#s#1" (with_stream (snd (Read c 1024)) (mkCTCPStack (Send "d#s#2")) st) in
  exists delivered rest, ["d#s#1"; "d#s#2"] = (delivered ++ rest)%list /\
    snapshot st' = decode_all delivered (snapshot st) /\ pending st' = concat (map Send rest).
Proof.
  intros c st st'.
  apply (polls_in_stream_order st st' ["d#s#1"; "d#s#2"]);
    [reflexivity|vm_compute; reflexivity| |
     |vm_compute; reflexivity].
  - constructor; [unfold frame_ok; vm_compute; reflexivity|].
    constructor; [unfold frame_ok; vm_compute; reflexivity|constructor].
  - apply (run_step st st' st' (demo_state []) (set_now 1005 (demo_state [])) true);
      [vm_compute; reflexivity|constructor].
Defined.

Lemma poll_reuse_after_split_witness :
  let c := sock [(1005%Z, NData (take 6 (Send "d#s#1")))] in
  exists st1 s1 st2 s2,
    isAvailable (st_at c empty_stack) (demo_state []) = (Some (false, st1), s1) /\ error st1 = true /\
    initStatus (client st1) false 5000 s1 = (st2, s2) /\
    init st2 = true /\ error st2 = false /\ client st2 = client st1 /\ tcpstack st2 = empty_stack /\
    destroyed s2 = destroyed (demo_state []) /\ next_sock s2 = next_sock (demo_state []) /\
    pending st1 =
      ((buffer (tcpstack (st_at c empty_stack)) ++ take 1024 (take 6 (Send "d#s#1"))) ++ pending st2)%list.
Proof.
  intros c.
  apply (poll_reuse_after_split _ c _ 1005 (take 6 (Send "d#s#1")) [] "d#s#1" (drop 6 (Send "d#s#1")) false 5000);
    [reflexivity|reflexivity|reflexivity|simpl; lia|simpl; lia|vm_compute; reflexivity
    |discriminate|vm_compute; reflexivity].
Defined.

Lemma apply_status_line_decode_witness :
  let kv := [("capa", "5"); ("has_server", "true")] in
  let line := join "#" ["2024-01-01"; "BACKUP INCR"; "42"; "P"; join "&" (map param_text kv)] in
  line = "2024-01-01#BACKUP INCR#42#P#capa=5&has_server=true" /\
  capa (apply_status_line line st7) = 5%Z /\ has_server (apply_status_line line st7) = true /\
  pause (apply_status_line line st7) = true.
Proof.
  intros kv line. split; [reflexivity|].
  destruct (apply_status_line_decode "2024-01-01" "BACKUP INCR" "42" "P" kv st7) as (_ & _ & _ & _ & Hpa & Hc & Hh);
    [repeat constructor|discriminate|repeat constructor|].
  fold line in Hpa, Hc, Hh. rewrite Hc, Hh, Hpa. split; [|split]; vm_compute; reflexivity.
Defined.
