(* ===== verification/Commands.v ===== *)
(** * Commands: the typed commands of [Connector] built on [getResponse]
    ([Connector.cpp] 297-439, 502-505)

    Each command calls [getResponse] with the header's default arguments
    (no connection, the default timeout and busy setting: [Connector.h] is
    not part of the repository, so they are the section variables
    [default_timeoutms] and [default_set_busy]) and decodes the reply:
    - the sentinel commands [startBackup], [startImage] map ["RUNNING"],
      ["NO SERVER"], ["OK"] and anything else to 2, 3, 1 and 0;
      [saveSharedPaths], [updateSettings], [setPause], [addNewServer]
      succeed exactly on ["OK"];
    - [getLogEntries] and [getLogdata] split the reply into lines and each
      non-empty line at its first ["-"] into a number, read by [atoi] into
      an [int], and a text: [decode_log_lines_roundtrip] proves that
      records printed one per line come back in order, and
      [decode_log_entries_id_wraps] that a log id of [2^31] or more does
      not;
    - [getAccessParameters] passes the reply through;
    - [saveSharedPaths] builds [dir_<i>=<path>&dir_<i>_name=<name>&
      dir_<i>_group=<group>] per directory ([dir_args], with the flags
      appended to the name by [dir_name]).  After the section, the
      reference definitions [dir_parts], [save_parts] and [save_pairs]
      state what the daemon reads back, and [saveSharedPaths_args] proves
      that splitting the arguments at [&] and [=] gives exactly those
      pairs when the escaped texts contain no [&].
    The escaping functions [EscapeParamString] and [escapeClientMessage]
    ([escape.h], not in the repository) are section variables too: the
    theorems hold whatever they do. *)

From S2P Require Import Prelude StringTools FrameCodec Socket Credential Client.

Local Open Scope st_scope.
Local Open Scope string_scope.

Record SBackupDir := mkSBackupDir {
  path : string;
  name : string;
  id : Z;
  group : Z;
  flags : string
}.

Record SLogEntry := mkSLogEntry { logid : Z; logtime : string }.

Record SLogLine := mkSLogLine { loglevel : Z; msg : string }.

(** A line split at its first ["-"]: the number before it, the text after. *)
Definition log_split (l : string) : Z * string := (atoi (getuntil "-" l), getafter "-" l).

(** Lines 384-393: [for(int i=0;i<lc;++i)] over [getline(i, d)]. *)
Fixpoint log_entries_loop (d : string) (i n : nat) : list SLogEntry :=
  match n with
  | O => []
  | S n' =>
      let l := getline i d in
      if l =? "" then log_entries_loop d (S i) n'
      else mkSLogEntry (atoi (getuntil "-" l)) (getafter "-" l) :: log_entries_loop d (S i) n'
  end.

Definition decode_log_entries (d : string) : list SLogEntry :=
  log_entries_loop d 0 (linecount d).

(** Lines 401-411: the lines of [TokenizeMail(d, lines, "\n")]. *)
Fixpoint log_lines_loop (lines : list string) : list SLogLine :=
  match lines with
  | [] => []
  | l :: rest =>
      if l =? "" then log_lines_loop rest
      else mkSLogLine (atoi (getuntil "-" l)) (getafter "-" l) :: log_lines_loop rest
  end.

Definition decode_log_lines (d : string) : list SLogLine :=
  log_lines_loop (TokenizeMail d (String "010" EmptyString)).

(** [if(d=="RUNNING") return 2; else if(d=="NO SERVER") return 3;
    else if(d!="OK") return 0; else return 1;] *)
Definition sentinel_code (d : string) : Z :=
  if d =? "RUNNING" then 2 else if d =? "NO SERVER" then 3 else if negb (d =? "OK") then 0 else 1.

Definition backup_cmd (full : bool) : string :=
  if full then "START BACKUP FULL" else "START BACKUP INCR".

Definition image_cmd (full : bool) : string :=
  if full then "START IMAGE FULL" else "START IMAGE INCR".

Section Commands.
Variable default_timeoutms : Z.
Variable default_set_busy : bool.
Variable EscapeParamString : string -> string.
Variable escapeClientMessage : string -> string.

(** [getResponse(cmd, args, change_command)] with the default arguments. *)
Definition call (cmd args : string) (change_command : bool) : ST St string :=
  let* '(d, _) := getResponse cmd args change_command None default_timeoutms default_set_busy in
  st_ret d.

Definition startBackup (full : bool) : ST St Z :=
  let* d := call (backup_cmd full) "" false in st_ret (sentinel_code d).

Definition startImage (full : bool) : ST St Z :=
  let* d := call (image_cmd full) "" false in st_ret (sentinel_code d).

(** Lines 306-312: the name, with ["/" ++ flags] appended when it has no
    ["/"] and the flags are not empty. *)
Definition dir_name (d : SBackupDir) : string :=
  let n := EscapeParamString (name d) in
  if match find_sub "/" n with None => true | Some _ => false end && negb (flags d =? "")
  then n ++ "/" ++ flags d else n.

(** Lines 302-316: the arguments for one directory. *)
Definition dir_args (i : nat) (d : SBackupDir) : string :=
  let p := EscapeParamString (path d) in
  let n := dir_name d in
  "dir_" ++ nconvert (Z.of_nat i) ++ "=" ++ p ++
  "&dir_" ++ nconvert (Z.of_nat i) ++ "_name=" ++ n ++
  "&dir_" ++ nconvert (Z.of_nat i) ++ "_group=" ++ nconvert (group d).

Fixpoint save_args_from (i : nat) (res : list SBackupDir) : string :=
  match res with
  | [] => ""
  | d :: rest => (if (i =? 0)%nat then "" else "&") ++ dir_args i d ++ save_args_from (S i) rest
  end.

Definition saveSharedPaths (res : list SBackupDir) : ST St bool :=
  let* d := call "SAVE BACKUP DIRS" (save_args_from 0 res) true in st_ret (d =? "OK").

Definition updateSettings (ndata : string) : ST St bool :=
  let* d := call ("UPDATE SETTINGS " ++ escapeClientMessage ndata) "" true in st_ret (d =? "OK").

Definition getLogEntries : ST St (list SLogEntry) :=
  let* d := call "GET LOGPOINTS" "" true in st_ret (decode_log_entries d).

Definition getLogdata (logid' loglevel' : Z) : ST St (list SLogLine) :=
  let* d := call "GET LOGDATA" ("logid=" ++ nconvert logid' ++ "&loglevel=" ++ nconvert loglevel') true in
  st_ret (decode_log_lines d).

Definition setPause (b_pause : bool) : ST St bool :=
  let* d := call ("PAUSE " ++ (if b_pause then "true" else "false")) "" false in st_ret (d =? "OK").

Definition addNewServer (ident : string) : ST St bool :=
  let* d := call "NEW SERVER" ("ident=" ++ ident) true in st_ret (d =? "OK").

Definition getAccessParameters (tokens : string) : ST St string :=
  call "GET ACCESS PARAMETERS" ("tokens=" ++ tokens) false.
End Commands.

(** ** The arguments as the daemon reads them *)

(** The three [key=value] parts of one directory. *)
Definition dir_parts (esc : string -> string) (i : nat) (d : SBackupDir) : list string :=
  ["dir_" ++ nconvert (Z.of_nat i) ++ "=" ++ esc (path d);
   "dir_" ++ nconvert (Z.of_nat i) ++ "_name=" ++ dir_name esc d;
   "dir_" ++ nconvert (Z.of_nat i) ++ "_group=" ++ nconvert (group d)].

Fixpoint save_parts (esc : string -> string) (i : nat) (res : list SBackupDir) : list string :=
  match res with
  | [] => []
  | d :: rest => dir_parts esc i d ++ save_parts esc (S i) rest
  end.

(** A directory whose escaped path and name and whose flags hold no [&]. *)
Definition no_amp (esc : string -> string) (d : SBackupDir) : Prop :=
  mem_char "&" (esc (path d)) = false /\ mem_char "&" (esc (name d)) = false /\
  mem_char "&" (flags d) = false.

(** The key/value pairs meant for the directories from index [i] on. *)
Fixpoint save_pairs (esc : string -> string) (i : nat) (res : list SBackupDir) : list (string * string) :=
  match res with
  | [] => []
  | d :: rest =>
      [("dir_" ++ nconvert (Z.of_nat i), esc (path d));
       ("dir_" ++ nconvert (Z.of_nat i) ++ "_name", dir_name esc d);
       ("dir_" ++ nconvert (Z.of_nat i) ++ "_group", nconvert (group d))] ++ save_pairs esc (S i) rest
  end.

(** A log record as the daemon prints it, one per line: [<number>-<text>]. *)
Definition log_line (r : Z * string) : string := nconvert (fst r) ++ "-" ++ snd r.

(** ** The sentinel replies *)

Lemma call_eq (to : Z) (sb : bool) (cmd args : string) (ch : bool) (s : St) :
  call to sb cmd args ch s =
  (fst (fst (getResponse cmd args ch None to sb s)), snd (getResponse cmd args ch None to sb s)).
Proof. unfold call, st_bind, st_ret. by destruct (getResponse cmd args ch None to sb s) as [[d c] s']. Qed.

Lemma sentinel_code_cases (d : string) :
  (sentinel_code d = 2 <-> d = "RUNNING")%Z /\ (sentinel_code d = 3 <-> d = "NO SERVER")%Z /\
  (sentinel_code d = 1 <-> d = "OK")%Z /\
  (sentinel_code d = 0 <-> d <> "RUNNING" /\ d <> "NO SERVER" /\ d <> "OK")%Z.
Proof.
  unfold sentinel_code.
  destruct (String.eqb_spec d "RUNNING") as [->|H1];
    [|destruct (String.eqb_spec d "NO SERVER") as [->|H2];
      [|destruct (String.eqb_spec d "OK") as [->|H3]]];
    simpl; intuition (try discriminate; try congruence).
Qed.

(** C37 (functional): [startBackup] and [startImage] answer 2 exactly
    for the reply ["RUNNING"], 3 exactly for ["NO SERVER"], 1 exactly for
    ["OK"] and 0 for every other reply, the empty reply of a failed
    exchange included: the four outcomes are exhaustive and exclusive. *)
Theorem startBackup_sentinel (to : Z) (sb full : bool) (s : St) :
  let d := fst (fst (getResponse (backup_cmd full) "" false None to sb s)) in
  let r := fst (startBackup to sb full s) in
  (r = 2 <-> d = "RUNNING")%Z /\ (r = 3 <-> d = "NO SERVER")%Z /\ (r = 1 <-> d = "OK")%Z /\
  (r = 0 <-> d <> "RUNNING" /\ d <> "NO SERVER" /\ d <> "OK")%Z.
Proof.
  cbv zeta. unfold startBackup, st_bind, st_ret. rewrite call_eq. apply sentinel_code_cases.
Qed.

Lemma startImage_sentinel (to : Z) (sb full : bool) (s : St) :
  fst (startImage to sb full s) = sentinel_code (fst (fst (getResponse (image_cmd full) "" false None to sb s))).
Proof. unfold startImage, st_bind, st_ret. by rewrite call_eq. Qed.

(** ** The log records *)

(** [getline(i, d)] for [i = 0, 1, ...] walks the lines of [d]. *)
Lemma log_entries_loop_drop (d : string) (n i : nat) :
  log_entries_loop d i n =
  map (fun '(a, b) => mkSLogEntry a b)
    (map log_split (List.filter (fun l => negb (l =? "")) (take n (drop i (Tokenize d (String "010" EmptyString)))))).
Proof.
  revert i. induction n as [|n IH]; intros i; [done|].
  cbn [log_entries_loop]. unfold getline. rewrite IH.
  destruct (drop i (Tokenize d (String "010" EmptyString))) as [|l rest] eqn:E.
  - destruct (drop_nil_nth _ i "" E) as [-> ->]. by rewrite !take_nil.
  - destruct (drop_cons_nth _ i l rest "" E) as [-> ->].
    cbn [firstn List.filter]. by destruct (l =? "").
Qed.

(** A printed record line is split back at its first ["-"]. *)
Lemma log_line_split (n : Z) (t : string) : (0 <= n)%Z ->
  getuntil "-" (log_line (n, t)) = nconvert n /\ getafter "-" (log_line (n, t)) = t.
Proof. intros Hn. by apply getuntil_getafter_dash, nconvert_no_dash. Qed.

Lemma log_line_nonempty (r : Z * string) : (log_line r =? "") = false.
Proof. unfold log_line. by destruct (nconvert (fst r)). Qed.

(** A record whose text has no line break prints as one line. *)
Lemma log_line_no_nl (r : Z * string) :
  (0 <= fst r)%Z -> mem_char "010" (snd r) = false -> no_sep (String "010" "") (log_line r).
Proof.
  intros Hn Ht c Hc. unfold log_line in Hc. rewrite !mem_char_app in Hc.
  destruct (Ascii.eqb_spec c "010") as [->|Hne].
  - by rewrite nconvert_no, Ht in Hc.
  - cbn [mem_char]. rewrite orb_false_r. by apply Ascii.eqb_neq.
Qed.

(** The loop of [getLogdata] over printed lines gives the records back. *)
Lemma log_lines_loop_print (rs : list (Z * string)) :
  Forall (fun r => (0 <= fst r < 2 ^ 31)%Z) rs ->
  map (fun l => (loglevel l, msg l)) (log_lines_loop (map log_line rs)) = rs.
Proof.
  induction 1 as [|[n t] rs Hn _ IH]; [done|]. cbn [map log_lines_loop].
  rewrite log_line_nonempty. cbv iota. cbn [fst] in Hn.
  destruct (log_line_split n t) as [-> ->]; [lia|].
  cbn [map loglevel msg]. by rewrite atoi_nconvert_int, IH by lia.
Qed.

(** A reply of one printed record is the one line of [linecount]/[getline]. *)
Lemma log_entries_one_line (n : Z) (t : string) :
  (0 <= n)%Z -> mem_char "010" t = false ->
  decode_log_entries (log_line (n, t)) = [mkSLogEntry (atoi (nconvert n)) t].
Proof.
  intros Hn Ht. unfold decode_log_entries, linecount.
  assert (Hl : Tokenize (log_line (n, t)) (String "010" EmptyString) = [log_line (n, t)]).
  { apply (Tokenize_join [log_line (n, t)]); [done|]. constructor; [|done]. by apply log_line_no_nl. }
  rewrite log_entries_loop_drop, Hl. cbn [length drop take firstn List.filter].
  rewrite log_line_nonempty. unfold log_split. cbn [negb map].
  destruct (log_line_split n t Hn) as [H1 H2]. by rewrite H1, H2.
Qed.

(** C38 (round trip): a [GET LOGDATA] reply made of records printed one
    per line as [<level>-<message>], each level a non-negative value of an
    [int] and each message without a line break, is decoded by
    [getLogdata] into the same records in the same order, any further
    ["-"] staying in the message. *)
Theorem decode_log_lines_roundtrip (rs : list (Z * string)) :
  Forall (fun r => (0 <= fst r < 2 ^ 31)%Z /\ mem_char "010" (snd r) = false) rs ->
  map (fun l => (loglevel l, msg l)) (decode_log_lines (join (String "010" "") (map log_line rs))) = rs.
Proof.
  intros Hrs. unfold decode_log_lines, TokenizeMail.
  destruct rs as [|r rs]; [reflexivity|].
  rewrite Tokenize_join; [|done|].
  - apply log_lines_loop_print. by eapply Forall_impl; [exact Hrs|]; intros ? [? _].
  - apply Forall_map. eapply Forall_impl; [exact Hrs|]. intros [n t] [Hn Ht].
    apply log_line_no_nl; cbn [fst snd] in *; [lia|exact Ht].
Qed.

(** C39 (bounds, finding): [getLogEntries] keeps a log id in an [int]:
    the id [n >= 0] of a [GET LOGPOINTS] line [<n>-<time>] is read by
    [atoi] as [n] saturated at [2^63 - 1] and cut modulo [2^32], and this
    is [n] exactly when [n < 2^31]: a larger id comes back as another
    number, which [getLogdata] then asks for. *)
Theorem decode_log_entries_id_wraps (n : Z) (t : string) :
  (0 <= n)%Z -> mem_char "010" t = false ->
  decode_log_entries (log_line (n, t)) = [mkSLogEntry (to_int (Z.min long_max n)) t] /\
  (to_int (Z.min long_max n) = n <-> n < 2 ^ 31)%Z.
Proof.
  intros Hn Ht. rewrite log_entries_one_line, atoi_nconvert, Z.max_r
    by first [exact Ht | unfold long_min, long_max in *; lia].
  split; [done|]. pose proof (to_int_range (Z.min long_max n)). split; [lia|].
  intros Hlt. rewrite Z.min_r by (unfold long_max; lia). apply to_int_id. lia.
Qed.

(** ** The arguments of [saveSharedPaths] *)

Lemma join_app (sep : string) (xs ys : list string) :
  xs <> [] -> ys <> [] -> join sep (xs ++ ys) = (join sep xs ++ sep ++ join sep ys).
Proof.
  intros Hx Hy. induction xs as [|x xs IH]; [done|]. destruct xs as [|x' xs].
  - destruct ys as [|y ys]; [done|]. reflexivity.
  - assert (E : join sep (x :: (x' :: xs) ++ ys) = (x ++ sep ++ join sep ((x' :: xs) ++ ys)))
      by reflexivity.
    rewrite <- app_comm_cons, E, IH by done.
    change (join sep (x :: x' :: xs)) with (x ++ sep ++ join sep (x' :: xs)).
    by rewrite !string_app_assoc.
Qed.

Lemma dir_args_join (esc : string -> string) (i : nat) (d : SBackupDir) :
  dir_args esc i d = join "&" (dir_parts esc i d).
Proof. unfold dir_args, dir_parts. cbn [join]. rewrite !string_app_assoc. reflexivity. Qed.

Lemma save_args_from_cons (esc : string -> string) (i : nat) (d : SBackupDir) (rest : list SBackupDir) :
  save_args_from esc i (d :: rest) =
  ((if (i =? 0)%nat then "" else "&") ++ dir_args esc i d ++ save_args_from esc (S i) rest).
Proof. reflexivity. Qed.

Lemma save_parts_cons (esc : string -> string) (i : nat) (d : SBackupDir) (rest : list SBackupDir) :
  save_parts esc i (d :: rest) = (dir_parts esc i d ++ save_parts esc (S i) rest)%list.
Proof. reflexivity. Qed.

Lemma dir_parts_ne (esc : string -> string) (i : nat) (d : SBackupDir) : dir_parts esc i d <> [].
Proof. discriminate. Qed.

Lemma save_parts_ne (esc : string -> string) (i : nat) (d : SBackupDir) (rest : list SBackupDir) :
  save_parts esc i (d :: rest) <> [].
Proof. discriminate. Qed.

Lemma save_args_from_S (esc : string -> string) (i : nat) (d : SBackupDir) (rest : list SBackupDir) :
  save_args_from esc (S i) (d :: rest) = ("&" ++ join "&" (save_parts esc (S i) (d :: rest))).
Proof.
  revert i d. induction rest as [|d' rest IH]; intros i d.
  - rewrite save_args_from_cons, save_parts_cons. cbn [save_args_from save_parts Nat.eqb].
    by rewrite app_nil_r, string_app_nil_r, dir_args_join.
  - rewrite save_args_from_cons, IH, (save_parts_cons esc (S i) d), join_app by (apply dir_parts_ne || apply save_parts_ne).
    cbn [Nat.eqb]. by rewrite dir_args_join.
Qed.

Lemma save_args_from_0 (esc : string -> string) (d : SBackupDir) (rest : list SBackupDir) :
  save_args_from esc 0 (d :: rest) = join "&" (save_parts esc 0 (d :: rest)).
Proof.
  rewrite save_args_from_cons, save_parts_cons, dir_args_join. destruct rest as [|d' rest].
  - cbn [save_args_from save_parts Nat.eqb]. by rewrite app_nil_r, string_app_nil_r.
  - rewrite save_args_from_S, join_app by (apply dir_parts_ne || apply save_parts_ne). reflexivity.
Qed.



Lemma dir_parts_no_amp (esc : string -> string) (i : nat) (d : SBackupDir) :
  (0 <= group d)%Z -> no_amp esc d -> Forall (no_sep "&") (dir_parts esc i d).
Proof.
  intros Hg (Hp & Hn & Hf).
  assert (HN : forall z, (0 <= z)%Z -> mem_char "&" (nconvert z) = false) by (intros; by apply nconvert_no).
  assert (Hname : mem_char "&" (dir_name esc d) = false).
  { unfold dir_name. destruct (_ && _); [|done]. rewrite !mem_char_app, Hn, Hf. done. }
  repeat constructor; apply (no_sep_char "&"); rewrite !mem_char_app, ?HN, ?Hp, ?Hname by lia; done.
Qed.

Lemma dir_parts_split (esc : string -> string) (i : nat) (d : SBackupDir) :
  map split_kv (dir_parts esc i d) =
  [("dir_" ++ nconvert (Z.of_nat i), esc (path d));
   ("dir_" ++ nconvert (Z.of_nat i) ++ "_name", dir_name esc d);
   ("dir_" ++ nconvert (Z.of_nat i) ++ "_group", nconvert (group d))].
Proof.
  assert (HN : mem_char "=" (nconvert (Z.of_nat i)) = false) by (apply nconvert_no; [lia|done]).
  unfold dir_parts. cbn [map].
  replace ("dir_" ++ nconvert (Z.of_nat i) ++ "_name=" ++ dir_name esc d)
    with (("dir_" ++ nconvert (Z.of_nat i) ++ "_name") ++ "=" ++ dir_name esc d)
    by (rewrite !string_app_assoc; reflexivity).
  replace ("dir_" ++ nconvert (Z.of_nat i) ++ "_group=" ++ nconvert (group d))
    with (("dir_" ++ nconvert (Z.of_nat i) ++ "_group") ++ "=" ++ nconvert (group d))
    by (rewrite !string_app_assoc; reflexivity).
  rewrite <- (string_app_assoc "dir_" (nconvert (Z.of_nat i)) ("=" ++ esc (path d))).
  rewrite (split_kv_app ("dir_" ++ nconvert (Z.of_nat i))),
    (split_kv_app ("dir_" ++ nconvert (Z.of_nat i) ++ "_name")),
    (split_kv_app ("dir_" ++ nconvert (Z.of_nat i) ++ "_group")); try reflexivity;
    rewrite !mem_char_app, HN; reflexivity.
Qed.

Lemma save_parts_split (esc : string -> string) (i : nat) (res : list SBackupDir) :
  map split_kv (save_parts esc i res) = save_pairs esc i res.
Proof.
  revert i. induction res as [|d res IH]; intros i; [done|].
  rewrite save_parts_cons, map_app, dir_parts_split, IH. reflexivity.
Qed.

Lemma save_parts_no_amp (esc : string -> string) (i : nat) (res : list SBackupDir) :
  Forall (fun d => (0 <= group d)%Z /\ no_amp esc d) res -> Forall (no_sep "&") (save_parts esc i res).
Proof.
  intros H. revert i. induction H as [|d res [Hg Hd] _ IH]; intros i; [constructor|].
  rewrite save_parts_cons. apply Forall_app. split; [by apply dir_parts_no_amp|apply IH].
Qed.

(** C40 (round trip): the argument string of [saveSharedPaths], split by
    the daemon's [Tokenize(args, "&")] and each part at its first [=] (the
    pairs [ParseParamStr] stores), gives back, for every directory in
    order, its escaped path, its name (with the flags appended) and its
    group, under the keys [dir_<i>], [dir_<i>_name] and [dir_<i>_group],
    provided the escaped texts and the flags contain no [&]. *)
Theorem saveSharedPaths_args (esc : string -> string) (res : list SBackupDir) :
  res <> [] -> Forall (fun d => (0 <= group d)%Z /\ no_amp esc d) res ->
  map split_kv (Tokenize (save_args_from esc 0 res) "&") = save_pairs esc 0 res.
Proof.
  intros Hne Hall. destruct res as [|d rest]; [done|].
  rewrite save_args_from_0, Tokenize_join; [apply save_parts_split|apply save_parts_ne|].
  by apply save_parts_no_amp.
Qed.

Lemma decode_log_lines_roundtrip_witness :
  Forall (fun r => (0 <= fst r < 2 ^ 31)%Z /\ mem_char "010" (snd r) = false)
    [(2%Z, "12.01.2024 10:00-done"); (0%Z, "start")] /\
  map (fun l => (loglevel l, msg l))
    (decode_log_lines (join (String "010" "") (map log_line [(2%Z, "12.01.2024 10:00-done"); (0%Z, "start")]))) =
  [(2%Z, "12.01.2024 10:00-done"); (0%Z, "start")].
Proof.
  assert (H : Forall (fun r => (0 <= fst r < 2 ^ 31)%Z /\ mem_char "010" (snd r) = false)
    [(2%Z, "12.01.2024 10:00-done"); (0%Z, "start")])
    by (repeat constructor; cbn; lia).
  split; [exact H|apply decode_log_lines_roundtrip, H].
Defined.

Lemma decode_log_entries_id_wraps_witness :
  (0 <= 2 ^ 31)%Z /\ mem_char "010" "10:00" = false /\
  decode_log_entries (log_line (2 ^ 31, "10:00")%Z) = [mkSLogEntry (- 2 ^ 31)%Z "10:00"].
Proof.
  split; [lia|split; [reflexivity|]].
  rewrite (proj1 (decode_log_entries_id_wraps (2 ^ 31)%Z "10:00" ltac:(lia) eq_refl)). reflexivity.
Defined.

Lemma saveSharedPaths_args_witness :
  let res := [mkSBackupDir "/home" "home" 1 0 ""; mkSBackupDir "/srv/data" "data" 2 1 "follow_symlinks"] in
  map split_kv (Tokenize (save_args_from (fun x => x) 0 res) "&") = save_pairs (fun x => x) 0 res.
Proof.
  intros res. apply saveSharedPaths_args; [discriminate|].
  repeat constructor; vm_compute; try reflexivity; discriminate.
Defined.
