(* ===== verification/Json.v ===== *)
(** * Json: the jsoncpp values, accessors and reader the JSON commands use

    [Connector.cpp] decodes four replies with jsoncpp ([json/json.h], a
    library that is not part of the repository).  This file is an
    environment model of the part of it the code calls, after jsoncpp's
    [json_value.cpp] and [json_reader.cpp]:
    - [Value]: null, booleans, 64-bit signed and unsigned integers,
      strings, arrays and objects (a member list with distinct keys: the
      reader's [currentValue()[name]] overwrites a repeated key);
    - the accessors: [operator[](key)] and [operator[](index)] on a
      non-const value ([member], [index]), [get(key, default)] ([get]),
      [size], [isNull], [asInt], [asInt64], [asBool], [asString],
      [asCString]; a conversion jsoncpp refuses throws, which is the
      [Throw] of the exception type [exc];
    - [Reader::parse(doc, root, false)]: one value after optional white
      space, trailing text ignored; strings with jsoncpp's escapes, the
      [\u] escapes and surrogate pairs encoded in UTF-8 as
      [codePointToUTF8] does; integers classified as jsoncpp's
      [decodeNumber] does.  Not modelled: real numbers (a number with a
      fraction, an exponent or beyond the 64-bit range makes the model's
      parse fail where jsoncpp would build a real value), comments, and
      the reader's nesting limit.  The reader is the class [JsonReader],
      so that the commands' theorems hold for any reader, and
      [jsoncpp_reader] is the model's instance.

    [value_wf] states jsoncpp's representation invariant (integers are
    64-bit); [jsoncpp_reader_wf] proves that the model's reader builds
    only such values.

    The parser runs on a fuel, [parse_fuel]: [parse_value_fuel] proves
    that any more fuel gives the same result, so the fuel is never what
    makes a parse fail.

    The exception-and-state monad [EST] models a [try] block that
    updates a result object: the block stops at the first exception and
    the [catch] sees the object as it was at that point. *)

From S2P Require Import Prelude StringTools.

Local Open Scope string_scope.
Local Set Warnings "-register-all".

(** ** Values *)

Inductive Value :=
| VNull
| VBool (b : bool)
| VInt (z : Z)
| VUInt (z : Z)
| VString (s : string)
| VArray (elems : list Value)
| VObject (members : list (string * Value)).

(** A conversion that throws carries jsoncpp's message. *)
Inductive exc (A : Type) := Ok (a : A) | Throw (what : string).
Arguments Ok {A} a.
Arguments Throw {A} what.

Definition exc_bind {A B} (m : exc A) (f : A -> exc B) : exc B :=
  match m with Ok a => f a | Throw w => Throw w end.

Declare Scope exc_scope.
Delimit Scope exc_scope with exc.
Notation "'let!' x ':=' m 'in' k" := (exc_bind m (fun x => k))
  (at level 10, x name, m at level 100, k at level 200) : exc_scope.

(** ** The exception-and-state monad of a [try] block *)

Definition EST (S A : Type) : Type := S -> exc A * S.

Definition est_ret {S A} (a : A) : EST S A := fun s => (Ok a, s).
Definition est_bind {S A B} (m : EST S A) (f : A -> EST S B) : EST S B :=
  fun s => match m s with (Ok a, s') => f a s' | (Throw w, s') => (Throw w, s') end.
Definition est_lift {S A} (m : exc A) : EST S A := fun s => (m, s).
Definition est_modify {S} (f : S -> S) : EST S unit := fun s => (Ok tt, f s).

Declare Scope est_scope.
Delimit Scope est_scope with est.
Notation "'let#' x ':=' m 'in' k" := (est_bind m (fun x => k))
  (at level 10, x name, m at level 100, k at level 200) : est_scope.
Notation "'do#' m ';' k" := (est_bind m (fun _ => k))
  (at level 10, m at level 100, k at level 200) : est_scope.

Local Open Scope exc_scope.

(** ** Integer ranges *)

Definition minInt : Z := - 2 ^ 31.
Definition maxInt : Z := 2 ^ 31 - 1.
Definition minInt64 : Z := - 2 ^ 63.
Definition maxInt64 : Z := 2 ^ 63 - 1.
Definition maxUInt64 : Z := 2 ^ 64 - 1.

Definition in_range (lo hi z : Z) : bool := (lo <=? z)%Z && (z <=? hi)%Z.

(** ** Accessors ([json_value.cpp]) *)

Fixpoint obj_find (k : string) (m : list (string * Value)) : option Value :=
  match m with
  | [] => None
  | (k', v) :: m' => if k =? k' then Some v else obj_find k m'
  end.

(** [currentValue()[name] = v]: replace the member or add it. *)
Fixpoint obj_set (k : string) (v : Value) (m : list (string * Value)) : list (string * Value) :=
  match m with
  | [] => [(k, v)]
  | (k', v') :: m' => if k =? k' then (k, v) :: m' else (k', v') :: obj_set k v m'
  end.

(** [v[key]] on a non-const value: a null value becomes an object, a
    missing member reads as null; anything but an object throws. *)
Definition member (k : string) (v : Value) : exc Value :=
  match v with
  | VNull => Ok VNull
  | VObject m => Ok (default VNull (obj_find k m))
  | _ => Throw "in Json::Value::resolveReference(): requires objectValue"
  end.

(** [v.get(key, default)]. *)
Definition get (k : string) (d : Value) (v : Value) : exc Value :=
  match v with
  | VNull => Ok d
  | VObject m => Ok (default d (obj_find k m))
  | _ => Throw "in Json::Value::find(begin, end): requires objectValue or nullValue"
  end.

(** [v[i]] on a non-const value. *)
Definition index (i : nat) (v : Value) : exc Value :=
  match v with
  | VNull => Ok VNull
  | VArray l => Ok (nth i l VNull)
  | _ => Throw "in Json::Value::operator[](ArrayIndex): requires arrayValue"
  end.

Definition size (v : Value) : nat :=
  match v with
  | VArray l => length l
  | VObject m => length m
  | _ => 0
  end.

Definition isNull (v : Value) : bool := match v with VNull => true | _ => false end.

Definition asInt (v : Value) : exc Z :=
  match v with
  | VNull => Ok 0%Z
  | VBool b => Ok (if b then 1 else 0)%Z
  | VInt z => if in_range minInt maxInt z then Ok z else Throw "LargestInt out of Int range"
  | VUInt z => if (z <=? maxInt)%Z then Ok z else Throw "LargestUInt out of Int range"
  | _ => Throw "Value is not convertible to Int."
  end.

Definition asInt64 (v : Value) : exc Z :=
  match v with
  | VNull => Ok 0%Z
  | VBool b => Ok (if b then 1 else 0)%Z
  | VInt z => Ok z
  | VUInt z => if (z <=? maxInt64)%Z then Ok z else Throw "LargestUInt out of Int64 range"
  | _ => Throw "Value is not convertible to Int64."
  end.

Definition asBool (v : Value) : exc bool :=
  match v with
  | VNull => Ok false
  | VBool b => Ok b
  | VInt z | VUInt z => Ok (negb (z =? 0)%Z)
  | _ => Throw "Value is not convertible to bool."
  end.

Definition asString (v : Value) : exc string :=
  match v with
  | VNull => Ok ""
  | VString s => Ok s
  | VBool b => Ok (if b then "true" else "false")
  | VInt z | VUInt z => Ok (nconvert z)
  | _ => Throw "Type is not convertible to string"
  end.

Definition asCString (v : Value) : exc string :=
  match v with
  | VString s => Ok s
  | _ => Throw "in Json::Value::asCString(): requires stringValue"
  end.

(** [v[key].asX()]. *)
Definition field {A} (k : string) (conv : Value -> exc A) (v : Value) : exc A :=
  let! x := member k v in conv x.

(** [v.get(key, d).asX()]. *)
Definition field_or {A} (k : string) (d : Value) (conv : Value -> exc A) (v : Value) : exc A :=
  let! x := get k d v in conv x.

(** ** The reader ([json_reader.cpp]) *)

Definition quote : ascii := "034".
Definition bslash : ascii := "092".

Definition is_ws (c : ascii) : bool :=
  (c =? " ")%char || (c =? "009")%char || (c =? "010")%char || (c =? "013")%char.

Fixpoint skip_ws (s : string) : string :=
  match s with
  | String c rest => if is_ws c then skip_ws rest else s
  | EmptyString => s
  end.

Definition hex_val (c : ascii) : option Z :=
  let n := Z.of_nat (nat_of_ascii c) in
  if in_range 48 57 n then Some (n - 48)%Z
  else if in_range 97 102 n then Some (n - 87)%Z
  else if in_range 65 70 n then Some (n - 55)%Z
  else None.

(** [decodeUnicodeEscapeSequence]: four hex digits. *)
Definition hex4 (a b c d : ascii) : option Z :=
  match hex_val a, hex_val b, hex_val c, hex_val d with
  | Some x, Some y, Some z, Some w => Some (((x * 16 + y) * 16 + z) * 16 + w)%Z
  | _, _, _, _ => None
  end.

Definition byte (n : Z) : string := String (ascii_of_N (Z.to_N n)) EmptyString.

(** [codePointToUTF8]. *)
Definition utf8 (cp : Z) : string :=
  if (cp <=? 127)%Z then byte cp
  else if (cp <=? 2047)%Z then
    byte (Z.lor 192 (Z.land 31 (Z.shiftr cp 6))) ++ byte (Z.lor 128 (Z.land 63 cp))
  else if (cp <=? 65535)%Z then
    byte (Z.lor 224 (Z.land 15 (Z.shiftr cp 12))) ++
    byte (Z.lor 128 (Z.land 63 (Z.shiftr cp 6))) ++ byte (Z.lor 128 (Z.land 63 cp))
  else if (cp <=? 1114111)%Z then
    byte (Z.lor 240 (Z.land 7 (Z.shiftr cp 18))) ++
    byte (Z.lor 128 (Z.land 63 (Z.shiftr cp 12))) ++
    byte (Z.lor 128 (Z.land 63 (Z.shiftr cp 6))) ++ byte (Z.lor 128 (Z.land 63 cp))
  else "".

(** The single-character escapes of [decodeString]. *)
Definition escape_char (e : ascii) : option ascii :=
  if (e =? quote)%char then Some quote
  else if (e =? "/")%char then Some "/"%char
  else if (e =? bslash)%char then Some bslash
  else if (e =? "b")%char then Some "008"%char
  else if (e =? "f")%char then Some "012"%char
  else if (e =? "n")%char then Some "010"%char
  else if (e =? "r")%char then Some "013"%char
  else if (e =? "t")%char then Some "009"%char
  else None.

(** [text] at the front of [s]: the rest of [s]. *)
Fixpoint strip_prefix (text s : string) : option string :=
  match text, s with
  | EmptyString, _ => Some s
  | String c t, String c' s' => if (c =? c')%char then strip_prefix t s' else None
  | String _ _, EmptyString => None
  end.

(** [readString] and [decodeString]: the body of a string up to its
    closing quote; a high surrogate must be followed by a second [\u]
    escape, whose low ten bits complete the code point. *)
Fixpoint read_string (s acc : string) : option (string * string) :=
  match s with
  | EmptyString => None
  | String c r =>
      if (c =? quote)%char then Some (acc, r)
      else if (c =? bslash)%char then
        match r with
        | String e r' =>
            if (e =? "u")%char then
              match r' with
              | String a (String b (String c' (String d r''))) =>
                  match hex4 a b c' d with
                  | None => None
                  | Some cp =>
                      if in_range 55296 56319 cp then
                        match r'' with
                        | String e2 (String u2 (String a2 (String b2 (String c2 (String d2 r4))))) =>
                            if (e2 =? bslash)%char && (u2 =? "u")%char then
                              match hex4 a2 b2 c2 d2 with
                              | Some lo =>
                                  read_string r4
                                    (acc ++ utf8 (65536 + Z.shiftl (Z.land cp 1023) 10 + Z.land lo 1023))
                              | None => None
                              end
                            else None
                        | _ => None
                        end
                      else read_string r'' (acc ++ utf8 cp)
                  end
              | _ => None
              end
            else
              match escape_char e with
              | Some ch => read_string r' (acc ++ String ch EmptyString)
              | None => None
              end
        | EmptyString => None
        end
      else read_string r (acc ++ String c EmptyString)
  end.

(** The maximal run of decimal digits at the front. *)
Fixpoint digit_run (s : string) : string * string :=
  match s with
  | String c r => if is_digit c then let '(ds, rest) := digit_run r in (String c ds, rest) else ("", s)
  | EmptyString => ("", "")
  end.

Definition starts_real (s : string) : bool :=
  match s with
  | String c _ => (c =? ".")%char || (c =? "e")%char || (c =? "E")%char
  | EmptyString => false
  end.

(** [readNumber] and [decodeNumber] for a token [-?digits]: negative
    values down to [-2^63] and non-negative values up to [2^63-1] are
    [intValue], larger ones up to [2^64-1] [uintValue]; anything else is a
    real number, which the model does not represent. *)
Definition read_number (neg : bool) (s : string) : option (Value * string) :=
  let '(ds, rest) := digit_run s in
  if starts_real rest then None
  else
    let v := digits_value 0 ds in
    if neg then (if (v <=? 2 ^ 63)%Z then Some (VInt (- v), rest) else None)
    else if (v <=? maxInt64)%Z then Some (VInt v, rest)
    else if (v <=? maxUInt64)%Z then Some (VUInt v, rest)
    else None.

(** [true], [false] and [null]. *)
Definition read_literal (s : string) : option (Value * string) :=
  match strip_prefix "true" s with
  | Some r => Some (VBool true, r)
  | None =>
      match strip_prefix "false" s with
      | Some r => Some (VBool false, r)
      | None => match strip_prefix "null" s with Some r => Some (VNull, r) | None => None end
      end
  end.

(** The next character after white space, if it is [c]: the rest. *)
Definition expect (c : ascii) (s : string) : option string :=
  match skip_ws s with
  | String c' r => if (c' =? c)%char then Some r else None
  | EmptyString => None
  end.

(** [readValue], [readArray] and [readObject]; [name] is the key of the
    previous member, as [readObject] keeps it: a ['}'] where a member
    should start closes the object only when it is empty. *)
Fixpoint parse_value (n : nat) (s : string) : option (Value * string) :=
  match n with
  | O => None
  | S n' =>
      match skip_ws s with
      | String c rest =>
          if (c =? "{")%char then parse_members n' rest "" []
          else if (c =? "[")%char then
            match expect "]" rest with
            | Some rest' => Some (VArray [], rest')
            | None => parse_elems n' rest []
            end
          else if (c =? quote)%char then
            match read_string rest "" with
            | Some (x, r) => Some (VString x, r)
            | None => None
            end
          else if (c =? "-")%char then read_number true rest
          else if is_digit c then read_number false (String c rest)
          else read_literal (String c rest)
      | EmptyString => None
      end
  end
with parse_elems (n : nat) (s : string) (acc : list Value) : option (Value * string) :=
  match n with
  | O => None
  | S n' =>
      match parse_value n' s with
      | Some (v, r) =>
          match expect "," r with
          | Some r' => parse_elems n' r' (acc ++ [v])
          | None =>
              match expect "]" r with
              | Some r' => Some (VArray (acc ++ [v]), r')
              | None => None
              end
          end
      | None => None
      end
  end
with parse_members (n : nat) (s name : string) (acc : list (string * Value))
    : option (Value * string) :=
  match n with
  | O => None
  | S n' =>
      match skip_ws s with
      | String c r =>
          if (c =? "}")%char && (name =? "") then Some (VObject acc, r)
          else if (c =? quote)%char then
            match read_string r "" with
            | Some (k, r1) =>
                match expect ":" r1 with
                | Some r2 =>
                    match parse_value n' r2 with
                    | Some (v, r3) =>
                        match expect "," r3 with
                        | Some r4 => parse_members n' r4 k (obj_set k v acc)
                        | None =>
                            match expect "}" r3 with
                            | Some r4 => Some (VObject (obj_set k v acc), r4)
                            | None => None
                            end
                        end
                    | None => None
                    end
                | None => None
                end
            | None => None
            end
          else None
      | EmptyString => None
      end
  end.

(** Each call consumes at least one character before the next one, and a
    list or object takes two calls per element: twice the length of the
    document and two more is enough ([parse_value_fuel]). *)
Definition parse_fuel (doc : string) : nat := 2 * String.length doc + 2.

(** [Reader::parse(doc, root, false)]: the first value of the document. *)
Definition parse (doc : string) : option Value :=
  match parse_value (parse_fuel doc) doc with
  | Some (v, _) => Some v
  | None => None
  end.

(** What the commands need of a JSON reader. *)
Class JsonReader := { reader_parse : string -> option Value }.

#[export] Instance jsoncpp_reader : JsonReader := { reader_parse := parse }.

(** ** Well-typed values *)

(** The values a jsoncpp [Value] can hold: a [LargestInt] is a signed
    64-bit integer, a [LargestUInt] an unsigned one. *)
Fixpoint value_wf (v : Value) : bool :=
  match v with
  | VInt z => in_range minInt64 maxInt64 z
  | VUInt z => in_range 0 maxUInt64 z
  | VArray l => (fix go (l : list Value) := match l with [] => true | x :: l' => value_wf x && go l' end) l
  | VObject m =>
      (fix go (m : list (string * Value)) :=
         match m with [] => true | (_, x) :: m' => value_wf x && go m' end) m
  | _ => true
  end.

(** A reader that only builds well-typed values. *)
Class JsonReaderWf `{JsonReader} := {
  reader_wf : forall d v, reader_parse d = Some v -> value_wf v = true
}.

(** ** The reader's fuel *)

Lemma skip_ws_length (s : string) : String.length (skip_ws s) <= String.length s.
Proof. induction s as [|c s IH]; simpl; [lia|]. destruct (is_ws c); simpl; lia. Qed.

Lemma read_string_length_aux (n : nat) (s acc x r : string) :
  String.length s <= n -> read_string s acc = Some (x, r) -> String.length r < String.length s.
Proof.
  revert s acc. induction n as [|n IH]; intros s acc Hl H; [destruct s; [discriminate|simpl in Hl; lia]|].
  destruct s as [|c t]; [discriminate|]. cbn [read_string] in H. cbn [String.length] in *.
  destruct (c =? quote)%char; [injection H as _ <-; lia|].
  destruct (c =? bslash)%char; [|apply IH in H; lia].
  destruct t as [|e t']; [discriminate|]. destruct (e =? "u")%char.
  - destruct t' as [|a [|b [|c' [|d r'']]]]; try discriminate.
    destruct (hex4 a b c' d) as [cp|]; [|discriminate].
    destruct (in_range 55296 56319 cp).
    + destruct r'' as [|e2 [|u2 [|a2 [|b2 [|c2 [|d2 r4]]]]]]; try discriminate.
      destruct ((e2 =? bslash)%char && (u2 =? "u")%char); [|discriminate].
      destruct (hex4 a2 b2 c2 d2); [|discriminate]. apply IH in H; simpl in *; lia.
    + apply IH in H; simpl in *; lia.
  - destruct (escape_char e); [|discriminate]. apply IH in H; simpl in *; lia.
Qed.

Lemma read_string_length (s acc x r : string) :
  read_string s acc = Some (x, r) -> String.length r < String.length s.
Proof. apply (read_string_length_aux (String.length s)). lia. Qed.

Lemma digit_run_length (s : string) : String.length (snd (digit_run s)) <= String.length s.
Proof.
  induction s as [|c s IH]; simpl; [lia|].
  destruct (is_digit c); [destruct (digit_run s) as [ds rest]; simpl in *; lia|simpl; lia].
Qed.

Lemma read_number_length (neg : bool) (s : string) (v : Value) (r : string) :
  read_number neg s = Some (v, r) -> String.length r <= String.length s.
Proof.
  unfold read_number. pose proof (digit_run_length s) as Hd.
  destruct (digit_run s) as [ds rest]. simpl in Hd.
  destruct (starts_real rest); [discriminate|].
  destruct neg; [destruct (_ <=? _)%Z; [intros [= _ <-]; lia|discriminate]|].
  destruct (_ <=? maxInt64)%Z; [intros [= _ <-]; lia|].
  destruct (_ <=? maxUInt64)%Z; [intros [= _ <-]; lia|discriminate].
Qed.

(** A number starting with a digit consumes it. *)
Lemma read_number_digit_length (c : ascii) (t : string) (v : Value) (r : string) :
  is_digit c = true -> read_number false (String c t) = Some (v, r) -> String.length r <= String.length t.
Proof.
  intros Hc. unfold read_number. cbn [digit_run]. rewrite Hc.
  pose proof (digit_run_length t) as Hd. destruct (digit_run t) as [ds rest]. simpl in Hd.
  destruct (starts_real rest); [discriminate|].
  destruct (_ <=? maxInt64)%Z; [intros [= _ <-]; lia|].
  destruct (_ <=? maxUInt64)%Z; [intros [= _ <-]; lia|discriminate].
Qed.

Lemma strip_prefix_length (p s r : string) :
  strip_prefix p s = Some r -> String.length r + String.length p = String.length s.
Proof.
  revert s. induction p as [|c p IH]; intros s H; simpl in H.
  - injection H as ->. simpl. lia.
  - destruct s as [|c' s]; [discriminate|]. destruct (c =? c')%char; [|discriminate].
    apply IH in H. simpl. lia.
Qed.

Lemma read_literal_length (s : string) (v : Value) (r : string) :
  read_literal s = Some (v, r) -> String.length r < String.length s.
Proof.
  unfold read_literal.
  destruct (strip_prefix "true" s) eqn:E1; [intros [= _ <-]; apply strip_prefix_length in E1; simpl in E1; lia|].
  destruct (strip_prefix "false" s) eqn:E2; [intros [= _ <-]; apply strip_prefix_length in E2; simpl in E2; lia|].
  destruct (strip_prefix "null" s) eqn:E3; [intros [= _ <-]; apply strip_prefix_length in E3; simpl in E3; lia|].
  discriminate.
Qed.

Lemma expect_length (c : ascii) (s r : string) :
  expect c s = Some r -> String.length r < String.length s.
Proof.
  unfold expect. pose proof (skip_ws_length s) as Hs.
  destruct (skip_ws s) as [|c' t]; [discriminate|]. simpl in Hs.
  destruct (c' =? c)%char; [intros [= <-]; lia|discriminate].
Qed.

(** What a parse leaves is shorter than what it was given. *)
Lemma parse_rest (n : nat) :
  (forall s v r, parse_value n s = Some (v, r) -> String.length r < String.length s) /\
  (forall s acc v r, parse_elems n s acc = Some (v, r) -> String.length r < String.length s) /\
  (forall s name acc v r, parse_members n s name acc = Some (v, r) -> String.length r < String.length s).
Proof.
  induction n as [|n (IHv & IHe & IHm)]; [repeat split; intros; discriminate|].
  repeat split.
  - intros s v r H. cbn [parse_value] in H. pose proof (skip_ws_length s) as Hs.
    destruct (skip_ws s) as [|c rest]; [discriminate|]. simpl in Hs.
    destruct (c =? "{")%char; [apply IHm in H; lia|].
    destruct (c =? "[")%char.
    { destruct (expect "]" rest) eqn:E; [injection H as _ <-; apply expect_length in E; lia|].
      apply IHe in H; lia. }
    destruct (c =? quote)%char.
    { destruct (read_string rest "") as [[x r0]|] eqn:E; [|discriminate].
      injection H as _ <-. apply read_string_length in E; lia. }
    destruct (c =? "-")%char; [apply read_number_length in H; lia|].
    destruct (is_digit c) eqn:Hd; [apply read_number_digit_length in H; [lia|done]|].
    apply read_literal_length in H. simpl in H. lia.
  - intros s acc v r H. cbn [parse_elems] in H.
    destruct (parse_value n s) as [[v0 r0]|] eqn:E; [|discriminate]. apply IHv in E.
    destruct (expect "," r0) as [r'|] eqn:E1; [apply expect_length in E1; apply IHe in H; lia|].
    destruct (expect "]" r0) as [r'|] eqn:E2; [|discriminate].
    injection H as _ <-. apply expect_length in E2; lia.
  - intros s name acc v r H. cbn [parse_members] in H. pose proof (skip_ws_length s) as Hs.
    destruct (skip_ws s) as [|c r0]; [discriminate|]. simpl in Hs.
    destruct ((c =? "}")%char && (name =? "")); [injection H as _ <-; lia|].
    destruct (c =? quote)%char; [|discriminate].
    destruct (read_string r0 "") as [[k r1]|] eqn:E1; [|discriminate]. apply read_string_length in E1.
    destruct (expect ":" r1) as [r2|] eqn:E2; [|discriminate]. apply expect_length in E2.
    destruct (parse_value n r2) as [[v0 r3]|] eqn:E3; [|discriminate]. apply IHv in E3.
    destruct (expect "," r3) as [r4|] eqn:E4; [apply expect_length in E4; apply IHm in H; lia|].
    destruct (expect "}" r3) as [r4|] eqn:E5; [|discriminate].
    injection H as _ <-. apply expect_length in E5; lia.
Qed.

(** Fuel beyond twice the length of the input changes nothing. *)
Lemma parse_fuel_mono (n : nat) :
  (forall m s, 2 * String.length s < n -> n <= m -> parse_value n s = parse_value m s) /\
  (forall m s acc, 2 * String.length s + 1 < n -> n <= m -> parse_elems n s acc = parse_elems m s acc) /\
  (forall m s name acc, 2 * String.length s + 1 < n -> n <= m ->
     parse_members n s name acc = parse_members m s name acc).
Proof.
  induction n as [|n (IHv & IHe & IHm)]; [repeat split; intros; lia|].
  repeat split.
  - intros [|m] s Hs Hm; [lia|]. cbn [parse_value]. pose proof (skip_ws_length s) as Hw.
    destruct (skip_ws s) as [|c rest]; [done|]. simpl in Hw.
    rewrite (IHm m rest "" []), (IHe m rest []) by lia. reflexivity.
  - intros [|m] s acc Hs Hm; [lia|]. cbn [parse_elems]. rewrite (IHv m s) by lia.
    destruct (parse_value m s) as [[v r]|] eqn:E; [|done]. apply (proj1 (parse_rest m)) in E.
    destruct (expect "," r) as [r'|] eqn:E1; [|done]. apply expect_length in E1.
    rewrite (IHe m r') by lia. done.
  - intros [|m] s name acc Hs Hm; [lia|]. cbn [parse_members]. pose proof (skip_ws_length s) as Hw.
    destruct (skip_ws s) as [|c r0]; [done|]. simpl in Hw.
    destruct ((c =? "}")%char && (name =? "")); [done|]. destruct (c =? quote)%char; [|done].
    destruct (read_string r0 "") as [[k r1]|] eqn:E1; [|done]. apply read_string_length in E1.
    destruct (expect ":" r1) as [r2|] eqn:E2; [|done]. apply expect_length in E2.
    rewrite (IHv m r2) by lia.
    destruct (parse_value m r2) as [[v r3]|] eqn:E3; [|done]. apply (proj1 (parse_rest m)) in E3.
    destruct (expect "," r3) as [r4|] eqn:E4; [|done]. apply expect_length in E4.
    rewrite (IHm m r4) by lia. done.
Qed.

(** [parse_fuel] is enough: the reader's result does not depend on the
    fuel. *)
Theorem parse_value_fuel (doc : string) (m : nat) :
  (parse_fuel doc <= m)%nat -> parse_value m doc = parse_value (parse_fuel doc) doc.
Proof. intros H. symmetry. apply (proj1 (parse_fuel_mono (parse_fuel doc))); unfold parse_fuel in *; lia. Qed.

(** ** The reader builds well-typed values *)

Lemma value_wf_array (l : list Value) : value_wf (VArray l) = forallb value_wf l.
Proof. induction l as [|x l IH]; [done|]. cbn [value_wf forallb] in *. by rewrite IH. Qed.

Lemma value_wf_object (m : list (string * Value)) :
  value_wf (VObject m) = forallb (fun kv => value_wf (snd kv)) m.
Proof. induction m as [|[k x] m IH]; [done|]. cbn [value_wf forallb snd] in *. by rewrite IH. Qed.

Lemma obj_set_wf (k : string) (v : Value) (m : list (string * Value)) :
  value_wf v = true -> forallb (fun kv => value_wf (snd kv)) m = true ->
  forallb (fun kv => value_wf (snd kv)) (obj_set k v m) = true.
Proof.
  intros Hv. induction m as [|[k' x] m IH]; cbn; [by rewrite Hv|].
  intros [Hx Hm]%andb_prop. destruct (k =? k'); cbn; [by rewrite Hv, Hm|by rewrite Hx, IH].
Qed.

Lemma digits_value_nonneg (acc : Z) (s : string) : (0 <= acc)%Z -> (0 <= digits_value acc s)%Z.
Proof.
  revert acc. induction s as [|c s IH]; intros acc Ha; cbn; [done|].
  destruct (is_digit c); [apply IH; unfold digit_val; lia|done].
Qed.

Lemma read_number_wf (neg : bool) (s : string) (v : Value) (r : string) :
  read_number neg s = Some (v, r) -> value_wf v = true.
Proof.
  unfold read_number. destruct (digit_run s) as [ds rest].
  pose proof (digits_value_nonneg 0 ds ltac:(lia)) as Hn.
  destruct (starts_real rest); [discriminate|].
  unfold value_wf, in_range, minInt64, maxInt64, maxUInt64.
  destruct neg; [destruct (_ <=? 2 ^ 63)%Z eqn:E|destruct (_ <=? 2 ^ 63 - 1)%Z eqn:E;
    [|destruct (_ <=? 2 ^ 64 - 1)%Z eqn:E']]; intros H; try discriminate; injection H as <- _;
    rewrite ?Z.leb_le in *; apply andb_true_intro; split; apply Z.leb_le; lia.
Qed.

Lemma read_literal_wf (s : string) (v : Value) (r : string) :
  read_literal s = Some (v, r) -> value_wf v = true.
Proof.
  unfold read_literal.
  destruct (strip_prefix "true" s); [intros [= <- _]; done|].
  destruct (strip_prefix "false" s); [intros [= <- _]; done|].
  destruct (strip_prefix "null" s); [intros [= <- _]; done|discriminate].
Qed.

Lemma parse_wf (n : nat) :
  (forall s v r, parse_value n s = Some (v, r) -> value_wf v = true) /\
  (forall s acc v r, forallb value_wf acc = true -> parse_elems n s acc = Some (v, r) -> value_wf v = true) /\
  (forall s name acc v r, forallb (fun kv => value_wf (snd kv)) acc = true ->
     parse_members n s name acc = Some (v, r) -> value_wf v = true).
Proof.
  induction n as [|n (IHv & IHe & IHm)]; [repeat split; intros; discriminate|].
  repeat split.
  - intros s v r H. cbn [parse_value] in H.
    destruct (skip_ws s) as [|c rest]; [discriminate|].
    destruct (c =? "{")%char; [exact (IHm _ _ [] _ _ eq_refl H)|].
    destruct (c =? "[")%char.
    { destruct (expect "]" rest); [by injection H as <- _|]. exact (IHe _ [] _ _ eq_refl H). }
    destruct (c =? quote)%char.
    { destruct (read_string rest "") as [[x r0]|]; [by injection H as <- _|discriminate]. }
    destruct (c =? "-")%char; [by apply read_number_wf in H|].
    destruct (is_digit c); [by apply read_number_wf in H|]. by apply read_literal_wf in H.
  - intros s acc v r Hacc H. cbn [parse_elems] in H.
    destruct (parse_value n s) as [[v0 r0]|] eqn:E; [|discriminate]. apply IHv in E.
    assert (Hacc' : forallb value_wf (acc ++ [v0]) = true)
      by (rewrite forallb_app; cbn; by rewrite Hacc, E).
    destruct (expect "," r0); [by apply (IHe _ _ _ _ Hacc') in H|].
    destruct (expect "]" r0); [|discriminate]. injection H as <- _. by rewrite value_wf_array.
  - intros s name acc v r Hacc H. cbn [parse_members] in H.
    destruct (skip_ws s) as [|c r0]; [discriminate|].
    destruct ((c =? "}")%char && (name =? "")); [injection H as <- _; by rewrite value_wf_object|].
    destruct (c =? quote)%char; [|discriminate].
    destruct (read_string r0 "") as [[k r1]|]; [|discriminate].
    destruct (expect ":" r1) as [r2|]; [|discriminate].
    destruct (parse_value n r2) as [[v0 r3]|] eqn:E3; [|discriminate]. apply IHv in E3.
    pose proof (obj_set_wf k v0 acc E3 Hacc) as Hset.
    destruct (expect "," r3); [by apply (IHm _ _ _ _ _ Hset) in H|].
    destruct (expect "}" r3); [|discriminate]. injection H as <- _. by rewrite value_wf_object.
Qed.

#[export] Instance jsoncpp_reader_wf : JsonReaderWf.
Proof.
  split. intros d v. cbn [reader_parse jsoncpp_reader]. unfold parse.
  destruct (parse_value (parse_fuel d) d) as [[v' r]|] eqn:E; [|discriminate].
  intros [= <-]. by apply (proj1 (parse_wf _)) in E.
Qed.
