(* ===== verification/JsonCommands.v ===== *)
(** * JsonCommands: the commands whose replies are JSON documents
    ([Connector.cpp] 245-295, 441-500, 507-538)

    - [getSharedPaths] asks [GET BACKUP DIRS]; an empty reply sets
      [error]; a reply that does not parse gives no directories; otherwise
      each element of the [dirs] array that has no non-null
      [virtual_client] member becomes an [SBackupDir].  The loop runs in a
      [try] whose [catch(std::runtime_error&)] returns the directories
      decoded so far.
    - [getStatusDetails] asks [STATUS DETAIL] (on the caller's connection,
      if any) and assigns the fields of an [SStatusDetails] one after the
      other inside a [try]; [ok] is set last, and the [catch] returns the
      object with the fields assigned before the exception.
    - [getCapabilities] is [capability_bits] of a successful
      [getStatusDetails], 0 otherwise.
    - [restoreOk] sends [RESTORE OK ok=<0|1>]; when the reply is accepted
      it stores [process_id] in the caller's variable, and it returns the
      [ok] member.  It has no [try]: a conversion error escapes to its
      caller, which the model returns as [Throw].

    The [try] blocks are [EST] computations on the object they update.
    The decoders are plain definitions; the commands are in the section
    [JsonCommands], over the default timeout and busy setting of
    [Connector.h] and any [JsonReader].

    [getStatusDetails_typed] proves that, with a reader that builds only
    well-typed values ([JsonReaderWf]), the integers of a decoded
    [SStatusDetails] fit the C++ types of their fields ([details_typed]).

    The header [Connector.h] is not in the repository: the records follow
    the fields the code assigns, and [SStatusDetails.default] is a
    default-constructed object with zero and empty fields. *)

From S2P Require Import Prelude StringTools FrameCodec Socket Credential Client Commands Json.

Local Open Scope st_scope.
Local Open Scope string_scope.

(** ** The records *)

Module SRunningProcess.
Record t := mk {
  action : string;
  percent_done : Z;
  eta_ms : Z;
  details : string;
  detail_pc : Z;
  process_id : Z
}.
End SRunningProcess.

Module SUrBackupServer.
Record t := mk { internet_connection : bool; name : string }.
End SUrBackupServer.

Module SStatusDetails.
Record t := mk {
  ok : bool;
  last_backup_time : Z;
  running_processes : list SRunningProcess.t;
  servers : list SUrBackupServer.t;
  time_since_last_lan_connection : Z;
  internet_connected : bool;
  internet_status : string;
  capability_bits : Z
}.

Definition default : t := mk false 0 [] [] 0 false "" 0.

Definition set_ok (b : bool) (r : t) : t :=
  mk b (last_backup_time r) (running_processes r) (servers r)
     (time_since_last_lan_connection r) (internet_connected r) (internet_status r) (capability_bits r).
Definition set_last_backup_time (z : Z) (r : t) : t :=
  mk (ok r) z (running_processes r) (servers r)
     (time_since_last_lan_connection r) (internet_connected r) (internet_status r) (capability_bits r).
Definition set_running_processes (l : list SRunningProcess.t) (r : t) : t :=
  mk (ok r) (last_backup_time r) l (servers r)
     (time_since_last_lan_connection r) (internet_connected r) (internet_status r) (capability_bits r).
Definition set_servers (l : list SUrBackupServer.t) (r : t) : t :=
  mk (ok r) (last_backup_time r) (running_processes r) l
     (time_since_last_lan_connection r) (internet_connected r) (internet_status r) (capability_bits r).
Definition set_time_since_last_lan_connection (z : Z) (r : t) : t :=
  mk (ok r) (last_backup_time r) (running_processes r) (servers r)
     z (internet_connected r) (internet_status r) (capability_bits r).
Definition set_internet_connected (b : bool) (r : t) : t :=
  mk (ok r) (last_backup_time r) (running_processes r) (servers r)
     (time_since_last_lan_connection r) b (internet_status r) (capability_bits r).
Definition set_internet_status (x : string) (r : t) : t :=
  mk (ok r) (last_backup_time r) (running_processes r) (servers r)
     (time_since_last_lan_connection r) (internet_connected r) x (capability_bits r).
Definition set_capability_bits (z : Z) (r : t) : t :=
  mk (ok r) (last_backup_time r) (running_processes r) (servers r)
     (time_since_last_lan_connection r) (internet_connected r) (internet_status r) z.
End SStatusDetails.

Local Open Scope exc_scope.
Local Open Scope est_scope.

(** ** [getSharedPaths] (lines 245-295) *)

(** Lines 278-285: the record of one directory. *)
Definition decode_dir (dir : Value) : exc SBackupDir :=
  let! path := field "path" asCString dir in
  let! name := field "name" asCString dir in
  let! id := field "id" asInt dir in
  let! group := field "group" asInt dir in
  let! flags := field "flags" asCString dir in
  Ok (mkSBackupDir path name id group flags).

(** Lines 269-288: [for(i=0; i<dirs.size(); ++i)]; [dirs] does not
    change, so the loop runs [dirs.size()] times. *)
Fixpoint dirs_loop (dirs : Value) (i n : nat) : EST (list SBackupDir) unit :=
  match n with
  | O => est_ret tt
  | S n' =>
      let# dir := est_lift (index i dirs) in
      let# vc := est_lift (get "virtual_client" VNull dir) in
      if negb (isNull vc) then dirs_loop dirs (S i) n'
      else
        let# rdir := est_lift (decode_dir dir) in
        do# est_modify (fun ret => (ret ++ [rdir])%list);
        dirs_loop dirs (S i) n'
  end.

(** Lines 265-292: the [try] block. *)
Definition decode_dirs (root : Value) : EST (list SBackupDir) unit :=
  let# dirs := est_lift (member "dirs" root) in
  dirs_loop dirs 0 (size dirs).

(** ** [getStatusDetails] (lines 441-500) *)

(** Lines 465-472: one running process, with the defaults of the
    optional members. *)
Definition decode_process (p : Value) : exc SRunningProcess.t :=
  let! action := field "action" asString p in
  let! percent_done := field "percent_done" asInt p in
  let! eta_ms := field "eta_ms" asInt64 p in
  let! details := field_or "details" (VString "") asString p in
  let! detail_pc := field_or "detail_pc" (VInt (-1)) asInt p in
  let! process_id := field_or "process_id" (VInt 0) asInt64 p in
  Ok (SRunningProcess.mk action percent_done eta_ms details detail_pc process_id).

(** Lines 460-474: the loop fills a local vector. *)
Fixpoint processes_loop (arr : Value) (i n : nat) : exc (list SRunningProcess.t) :=
  match n with
  | O => Ok []
  | S n' =>
      let! p := index i arr in
      let! rp := decode_process p in
      let! rest := processes_loop arr (S i) n' in
      Ok (rp :: rest)
  end.

(** Lines 476-484. *)
Definition decode_server (v : Value) : exc SUrBackupServer.t :=
  let! ic := field "internet_connection" asBool v in
  let! name := field "name" asString v in
  Ok (SUrBackupServer.mk ic name).

Fixpoint servers_loop (arr : Value) (i n : nat) : exc (list SUrBackupServer.t) :=
  match n with
  | O => Ok []
  | S n' =>
      let! v := index i arr in
      let! sv := decode_server v in
      let! rest := servers_loop arr (S i) n' in
      Ok (sv :: rest)
  end.

(** Lines 456-498: the [try] block, assigning [ret]'s fields in order. *)
Definition decode_details (root : Value) : EST SStatusDetails.t unit :=
  let# lbt := est_lift (field "last_backup_time" asInt64 root) in
  do# est_modify (SStatusDetails.set_last_backup_time lbt);
  let# jrp := est_lift (member "running_processes" root) in
  let# rps := est_lift (processes_loop jrp 0 (size jrp)) in
  do# est_modify (SStatusDetails.set_running_processes rps);
  let# js := est_lift (member "servers" root) in
  let# srv := est_lift (servers_loop js 0 (size js)) in
  do# est_modify (SStatusDetails.set_servers srv);
  let# tl := est_lift (field "time_since_last_lan_connection" asInt64 root) in
  do# est_modify (SStatusDetails.set_time_since_last_lan_connection tl);
  let# ic := est_lift (field "internet_connected" asBool root) in
  do# est_modify (SStatusDetails.set_internet_connected ic);
  let# ist := est_lift (field "internet_status" asString root) in
  do# est_modify (SStatusDetails.set_internet_status ist);
  let# cb := est_lift (field "capability_bits" asInt root) in
  do# est_modify (SStatusDetails.set_capability_bits cb);
  est_modify (SStatusDetails.set_ok true).

(** ** [restoreOk] (lines 522-538) *)

(** Lines 532-537, outside any [try]; the state is the caller's
    [process_id]. *)
Definition restore_decode (root : Value) : EST Z bool :=
  let# accepted := est_lift (field_or "accepted" (VBool false) asBool root) in
  do# (if accepted then
         let# pid := est_lift (field "process_id" asInt64 root) in
         est_modify (fun _ => pid)
       else est_ret tt);
  est_lift (field "ok" asBool root).

(** ** The commands *)

Section JsonCommands.
Variable default_timeoutms : Z.
Variable default_set_busy : bool.
Context `{JsonReader}.

Definition getSharedPaths : ST St (list SBackupDir) :=
  let* d := call default_timeoutms default_set_busy "GET BACKUP DIRS" "" false in
  if d =? "" then do* put_error true; st_ret []
  else
    match reader_parse d with
    | None => st_ret []
    | Some root => st_ret (snd (decode_dirs root []))
    end.

Definition getStatusDetails (connection : SConnection) : ST St (SStatusDetails.t * SConnection) :=
  let* '(d, connection) :=
    getResponse "STATUS DETAIL" "" false connection default_timeoutms default_set_busy in
  let ret := SStatusDetails.set_ok false SStatusDetails.default in
  match reader_parse d with
  | None => st_ret (ret, connection)
  | Some root => st_ret (snd (decode_details root ret), connection)
  end.

Definition getCapabilities : ST St Z :=
  let* '(status, _) := getStatusDetails None in
  st_ret (if SStatusDetails.ok status then SStatusDetails.capability_bits status else 0%Z).

Definition restoreOk (ok : bool) (process_id : Z) : ST St (exc bool * Z) :=
  let* d := call default_timeoutms default_set_busy "RESTORE OK" ("ok=" ++ nconvert_bool ok) false in
  match reader_parse d with
  | None => st_ret (Ok false, process_id)
  | Some root => st_ret (restore_decode root process_id)
  end.
End JsonCommands.

(** ** Reference decodings *)

(** [exc] over a list: the first exception, or all the results. *)
Fixpoint exc_mapM {A B} (f : A -> exc B) (l : list A) : exc (list B) :=
  match l with
  | [] => Ok []
  | x :: l' => let! y := f x in let! ys := exc_mapM f l' in Ok (y :: ys)
  end.

(** An entry with a non-null [virtual_client] member. *)
Definition is_virtual (v : Value) : bool :=
  match v with
  | VObject m => match obj_find "virtual_client" m with Some x => negb (isNull x) | None => false end
  | _ => false
  end.

Definition str_member (k : string) (m : list (string * Value)) : option string :=
  match obj_find k m with Some (VString s) => Some s | _ => None end.

Definition int_member (k : string) (m : list (string * Value)) : option Z :=
  match obj_find k m with
  | Some (VInt z) => if in_range minInt maxInt z then Some z else None
  | _ => None
  end.

(** The directory an entry describes, when it has the five members with
    their types. *)
Definition dir_fields (v : Value) : option SBackupDir :=
  match v with
  | VObject m =>
      match str_member "path" m, str_member "name" m, int_member "id" m,
            int_member "group" m, str_member "flags" m with
      | Some p, Some n, Some i, Some g, Some f => Some (mkSBackupDir p n i g f)
      | _, _, _, _, _ => None
      end
  | _ => None
  end.

Definition dir_entry_ok (v : Value) : Prop := is_virtual v = true \/ dir_fields v <> None.

(** The spec's decoding of a directory list: the entries that are not
    virtual, in order. *)
Definition dirs_ref (l : list Value) : list SBackupDir :=
  omap dir_fields (List.filter (fun v => negb (is_virtual v)) l).

(** The documents the daemon sends for a status, as jsoncpp values. *)
Definition process_json (p : SRunningProcess.t) : Value :=
  VObject [("action", VString (SRunningProcess.action p));
           ("percent_done", VInt (SRunningProcess.percent_done p));
           ("eta_ms", VInt (SRunningProcess.eta_ms p));
           ("details", VString (SRunningProcess.details p));
           ("detail_pc", VInt (SRunningProcess.detail_pc p));
           ("process_id", VInt (SRunningProcess.process_id p))].

Definition server_json (v : SUrBackupServer.t) : Value :=
  VObject [("internet_connection", VBool (SUrBackupServer.internet_connection v));
           ("name", VString (SUrBackupServer.name v))].

Definition details_json (sd : SStatusDetails.t) : Value :=
  VObject [("last_backup_time", VInt (SStatusDetails.last_backup_time sd));
           ("running_processes", VArray (map process_json (SStatusDetails.running_processes sd)));
           ("servers", VArray (map server_json (SStatusDetails.servers sd)));
           ("time_since_last_lan_connection", VInt (SStatusDetails.time_since_last_lan_connection sd));
           ("internet_connected", VBool (SStatusDetails.internet_connected sd));
           ("internet_status", VString (SStatusDetails.internet_status sd));
           ("capability_bits", VInt (SStatusDetails.capability_bits sd))].

(** The 32-bit fields of the running processes fit [int]. *)
Definition procs_in_range (sd : SStatusDetails.t) : Prop :=
  Forall (fun p => in_range minInt maxInt (SRunningProcess.percent_done p) = true /\
                   in_range minInt maxInt (SRunningProcess.detail_pc p) = true)
         (SStatusDetails.running_processes sd).

(** ** The C++ types of the fields *)

(** The model keeps integers as [Z]; an [int] field holds a 32-bit value
    and an [int64_t] field a 64-bit one. *)
Definition int32 (z : Z) : bool := in_range minInt maxInt z.
Definition int64 (z : Z) : bool := in_range minInt64 maxInt64 z.

Definition process_typed (p : SRunningProcess.t) : bool :=
  int32 (SRunningProcess.percent_done p) && int64 (SRunningProcess.eta_ms p) &&
  int32 (SRunningProcess.detail_pc p) && int64 (SRunningProcess.process_id p).

Definition details_typed (d : SStatusDetails.t) : bool :=
  int64 (SStatusDetails.last_backup_time d) && forallb process_typed (SStatusDetails.running_processes d) &&
  int64 (SStatusDetails.time_since_last_lan_connection d) && int32 (SStatusDetails.capability_bits d).

(** ** Concrete replies *)

(** A JSON string literal. *)
Definition js (x : string) : string := String quote (x ++ String quote EmptyString).

(** The daemon accepts at once and answers with one frame. *)
Definition reply_state (doc : string) : St :=
  demo_state [mkPeer (Accepts 1000) [(1010%Z, NData (Send doc))]].

Definition dir1_text : string :=
  "{" ++ js "path" ++ ":" ++ js "/home/data" ++ "," ++ js "name" ++ ":" ++ js "data" ++ "," ++
  js "id" ++ ":1," ++ js "group" ++ ":0," ++ js "flags" ++ ":" ++ js "follow_symlinks" ++ "}".

Definition dir1 : Value :=
  VObject [("path", VString "/home/data"); ("name", VString "data"); ("id", VInt 1);
           ("group", VInt 0); ("flags", VString "follow_symlinks")].

Definition vm_dir : Value := VObject [("virtual_client", VString "vm1"); ("path", VString "/vm")].

Definition dirs_doc : string :=
  "{" ++ js "dirs" ++ ": [" ++ dir1_text ++ ", {" ++ js "virtual_client" ++ ":" ++ js "vm1" ++ "," ++
  js "path" ++ ":" ++ js "/vm" ++ "}]}".

(** The second entry has no [path]. *)
Definition dirs_nopath_doc : string :=
  "{" ++ js "dirs" ++ ":[" ++ dir1_text ++ ",{" ++ js "name" ++ ":" ++ js "x" ++ "}," ++ dir1_text ++ "]}".

Definition status_sd (cap : Z) : SStatusDetails.t :=
  SStatusDetails.mk false 1700000000 [SRunningProcess.mk "INCR" 42 60000 "C:" 10 7]
    [SUrBackupServer.mk false "srv"] 5 true "connected" cap.

Definition status_doc (cap servers : string) : string :=
  "{" ++ js "last_backup_time" ++ ":1700000000," ++ js "running_processes" ++ ":[{" ++
  js "action" ++ ":" ++ js "INCR" ++ "," ++ js "percent_done" ++ ":42," ++ js "eta_ms" ++ ":60000," ++
  js "details" ++ ":" ++ js "C:" ++ "," ++ js "detail_pc" ++ ":10," ++ js "process_id" ++ ":7}]," ++
  js "servers" ++ ":[" ++ servers ++ "]," ++ js "time_since_last_lan_connection" ++ ":5," ++
  js "internet_connected" ++ ":true," ++ js "internet_status" ++ ":" ++ js "connected" ++ "," ++
  js "capability_bits" ++ ":" ++ cap ++ "}".

Definition server_text : string :=
  "{" ++ js "internet_connection" ++ ":false," ++ js "name" ++ ":" ++ js "srv" ++ "}".

(** [internet_connection] is a string, which [asBool] refuses. *)
Definition bad_server_text : string :=
  "{" ++ js "internet_connection" ++ ":" ++ js "yes" ++ "," ++ js "name" ++ ":" ++ js "srv" ++ "}".

Definition restore_doc (ok : string) : string :=
  "{" ++ js "accepted" ++ ":true," ++ js "process_id" ++ ":12," ++ js "ok" ++ ":" ++ ok ++ "}".

(** ** The loops over arrays *)

Section ArrayLoop.
Context {B : Type}.
Variable f : Value -> exc B.
Variable loop : Value -> nat -> nat -> exc (list B).
Hypothesis loop_O : forall a i, loop a i O = Ok [].
Hypothesis loop_S : forall a i n,
  loop a i (S n) = let! p := index i a in let! x := f p in let! rest := loop a (S i) n in Ok (x :: rest).

(** A loop [for(i; i<size; ++i)] over the elements of an array decodes
    them in order and stops at the first exception. *)
Lemma array_loop_mapM (l : list Value) (i n : nat) :
  (i + n <= length l)%nat -> loop (VArray l) i n = exc_mapM f (take n (drop i l)).
Proof.
  revert i. induction n as [|n IH]; intros i Hi; [by rewrite loop_O|].
  rewrite loop_S. destruct (drop i l) as [|v rest] eqn:E.
  - apply (f_equal length) in E. rewrite length_drop in E. simpl in E. lia.
  - destruct (drop_cons_nth l i v rest VNull E) as [Hn Hd]. cbn. rewrite Hn.
    destruct (f v) as [x|w]; [|done]. cbn. rewrite IH, Hd by lia. done.
Qed.

Lemma array_loop_all (l : list Value) : loop (VArray l) 0 (length l) = exc_mapM f l.
Proof. rewrite array_loop_mapM, drop_0, take_ge by lia. done. Qed.
End ArrayLoop.

Lemma processes_loop_mapM (l : list Value) :
  processes_loop (VArray l) 0 (length l) = exc_mapM decode_process l.
Proof. by apply array_loop_all. Qed.

Lemma servers_loop_mapM (l : list Value) :
  servers_loop (VArray l) 0 (length l) = exc_mapM decode_server l.
Proof. by apply array_loop_all. Qed.

Lemma exc_mapM_map_ok {A B} (f : Value -> exc B) (g : A -> Value) (h : A -> B) (l : list A) :
  Forall (fun x => f (g x) = Ok (h x)) l -> exc_mapM f (map g l) = Ok (map h l).
Proof. induction 1 as [|x l Hx _ IH]; [done|]. simpl. by rewrite Hx, IH. Qed.

(** ** Directories *)

Lemma field_str (k : string) (m : list (string * Value)) (s : string) :
  str_member k m = Some s -> field k asCString (VObject m) = Ok s.
Proof.
  unfold str_member, field, member, exc_bind. cbn [default].
  destruct (obj_find k m) as [[]|]; try discriminate. simpl. congruence.
Qed.

Lemma field_int (k : string) (m : list (string * Value)) (z : Z) :
  int_member k m = Some z -> field k asInt (VObject m) = Ok z.
Proof.
  unfold int_member, field, member, exc_bind. cbn [default].
  destruct (obj_find k m) as [[]|]; try discriminate. simpl.
  destruct (in_range minInt maxInt _); congruence.
Qed.

Lemma dir_fields_decode (v : Value) (r : SBackupDir) :
  dir_fields v = Some r -> decode_dir v = Ok r.
Proof.
  destruct v as [| | | | | |m]; try discriminate. simpl.
  destruct (str_member "path" m) eqn:E1, (str_member "name" m) eqn:E2, (int_member "id" m) eqn:E3,
    (int_member "group" m) eqn:E4, (str_member "flags" m) eqn:E5; try discriminate.
  intros [= <-]. unfold decode_dir.
  by rewrite (field_str _ _ _ E1), (field_str _ _ _ E2), (field_int _ _ _ E3),
    (field_int _ _ _ E4), (field_str _ _ _ E5).
Qed.

(** The [virtual_client] test of line 273 on an entry of the expected
    shape. *)
Lemma get_virtual_client (v : Value) :
  dir_entry_ok v ->
  exists vc, get "virtual_client" VNull v = Ok vc /\ isNull vc = negb (is_virtual v).
Proof.
  intros Hok. destruct v as [| | | | | |m];
    try (destruct Hok as [Hv|Hf]; [discriminate|by destruct Hf]).
  simpl. eexists; split; [reflexivity|].
  destruct (obj_find "virtual_client" m) as [x|]; simpl; [by destruct (isNull x)|done].
Qed.

Lemma dirs_ref_cons (v : Value) (l : list Value) :
  dirs_ref (v :: l) =
  if is_virtual v then dirs_ref l
  else match dir_fields v with Some r => r :: dirs_ref l | None => dirs_ref l end.
Proof.
  unfold dirs_ref. cbn [List.filter]. destruct (is_virtual v); [done|].
  cbn [negb omap list_omap]. by destruct (dir_fields v).
Qed.

(** The loop over a run of well-formed entries appends their decoding. *)
Lemma dirs_loop_prefix (l l1 rest : list Value) (i k : nat) (ret : list SBackupDir) :
  drop i l = (l1 ++ rest)%list -> Forall dir_entry_ok l1 ->
  dirs_loop (VArray l) i (length l1 + k) ret =
  dirs_loop (VArray l) (i + length l1) k (ret ++ dirs_ref l1)%list.
Proof.
  revert i ret. induction l1 as [|v l1 IH]; intros i ret Hd Hall.
  { by rewrite Nat.add_0_r, app_nil_r. }
  inversion Hall as [|? ? Hv Hl1]; subst.
  destruct (drop_cons_nth l i v (l1 ++ rest) VNull Hd) as [Hn Hd'].
  cbn [length Nat.add dirs_loop]. unfold est_bind, est_lift. cbn [index]. rewrite Hn.
  destruct (get_virtual_client v Hv) as (vc & -> & Hvc). rewrite Hvc, dirs_ref_cons.
  replace (i + S (length l1))%nat with (S i + length l1)%nat by lia.
  destruct (is_virtual v) eqn:Ev; cbn [negb].
  - by apply IH.
  - destruct Hv as [Hv|Hf]; [congruence|].
    destruct (dir_fields v) as [r|] eqn:Ef; [|done].
    rewrite (dir_fields_decode v r Ef). unfold est_modify. rewrite IH by done.
    by rewrite <- app_assoc.
Qed.

Lemma decode_dirs_filter (root : Value) (l : list Value) (ret : list SBackupDir) :
  member "dirs" root = Ok (VArray l) -> Forall dir_entry_ok l ->
  decode_dirs root ret = (Ok tt, ret ++ dirs_ref l)%list.
Proof.
  intros Hm Hall. unfold decode_dirs, est_bind, est_lift. rewrite Hm. cbn [size].
  rewrite <- (Nat.add_0_r (length l)), (dirs_loop_prefix l l [] 0 0 ret);
    [done|by rewrite drop_0, app_nil_r|done].
Qed.

(** An entry without a [path] stops the loop: the [catch] keeps what was
    decoded before it. *)
Lemma decode_dirs_missing_path (root : Value) (l1 l2 : list Value) (m : list (string * Value))
    (ret : list SBackupDir) :
  member "dirs" root = Ok (VArray (l1 ++ VObject m :: l2)) -> Forall dir_entry_ok l1 ->
  obj_find "virtual_client" m = None -> obj_find "path" m = None ->
  snd (decode_dirs root ret) = (ret ++ dirs_ref l1)%list.
Proof.
  intros Hm Hall Hv Hp. unfold decode_dirs, est_bind, est_lift. rewrite Hm. cbn [size].
  rewrite length_app. cbn [length].
  rewrite (dirs_loop_prefix _ l1 (VObject m :: l2) 0 (S (length l2)) ret);
    [|by rewrite drop_0|done].
  destruct (drop_cons_nth (l1 ++ VObject m :: l2) (0 + length l1) (VObject m) l2 VNull)
    as [Hn _]; [by rewrite Nat.add_0_l, drop_app_length|].
  cbn [dirs_loop]. unfold est_bind, est_lift. cbn [index]. rewrite Hn.
  cbn [get default]. rewrite Hv. cbn [isNull negb].
  unfold decode_dir, field, member, exc_bind. rewrite Hp. reflexivity.
Qed.

(** ** Status details *)

Lemma decode_process_json (p : SRunningProcess.t) :
  in_range minInt maxInt (SRunningProcess.percent_done p) = true ->
  in_range minInt maxInt (SRunningProcess.detail_pc p) = true ->
  decode_process (process_json p) = Ok p.
Proof.
  destruct p as [a pd e d dpc pid]. cbn [SRunningProcess.percent_done SRunningProcess.detail_pc].
  intros H1 H2. unfold decode_process, process_json, field, field_or. simpl. by rewrite H1, H2.
Qed.

Lemma decode_server_json (v : SUrBackupServer.t) : decode_server (server_json v) = Ok v.
Proof. by destruct v. Qed.

Lemma processes_json (sd : SStatusDetails.t) :
  procs_in_range sd ->
  let l := map process_json (SStatusDetails.running_processes sd) in
  processes_loop (VArray l) 0 (length l) = Ok (SStatusDetails.running_processes sd).
Proof.
  intros Hr. cbv zeta. rewrite processes_loop_mapM, (exc_mapM_map_ok _ _ (fun x => x)); [by rewrite map_id|].
  eapply Forall_impl; [exact Hr|]. intros p [H1 H2]. by apply decode_process_json.
Qed.

Lemma servers_json (sd : SStatusDetails.t) :
  let l := map server_json (SStatusDetails.servers sd) in
  servers_loop (VArray l) 0 (length l) = Ok (SStatusDetails.servers sd).
Proof.
  cbv zeta. rewrite servers_loop_mapM, (exc_mapM_map_ok _ _ (fun x => x)); [by rewrite map_id|].
  apply Forall_forall. intros v _. apply decode_server_json.
Qed.

(** The decoding of a status document: every field, and [ok], when the
    capability bits fit an [int]; otherwise the [catch] sees every field
    but the capability bits assigned, and [ok] as it was. *)
Lemma decode_details_json (sd r : SStatusDetails.t) :
  procs_in_range sd ->
  snd (decode_details (details_json sd) r) =
  if in_range minInt maxInt (SStatusDetails.capability_bits sd) then SStatusDetails.set_ok true sd
  else SStatusDetails.set_ok (SStatusDetails.ok r)
         (SStatusDetails.set_capability_bits (SStatusDetails.capability_bits r) sd).
Proof.
  intros Hr. pose proof (processes_json sd Hr) as Hp. pose proof (servers_json sd) as Hs.
  cbv zeta in Hp, Hs.
  destruct sd as [ok0 lbt rps srv tl ic ist cb]. cbn [SStatusDetails.running_processes SStatusDetails.servers] in Hp, Hs.
  unfold decode_details, details_json, est_bind, est_lift, est_modify, field.
  simpl. rewrite Hp, Hs. simpl.
  destruct (in_range minInt maxInt cb); by destruct r.
Qed.

(** The [try] block stops at the servers: the fields assigned before stay
    in the object the [catch] returns. *)
Lemma decode_details_servers_throw (root : Value) (r : SStatusDetails.t) (t : Z)
    (rps : list SRunningProcess.t) (w : string) :
  field "last_backup_time" asInt64 root = Ok t ->
  (let! jrp := member "running_processes" root in processes_loop jrp 0 (size jrp)) = Ok rps ->
  (let! js := member "servers" root in servers_loop js 0 (size js)) = Throw w ->
  snd (decode_details root r) =
  SStatusDetails.set_running_processes rps (SStatusDetails.set_last_backup_time t r).
Proof.
  intros H1 H2 H3. unfold decode_details, est_bind, est_lift, est_modify. rewrite H1.
  destruct (member "running_processes" root) as [jrp|w1]; cbn [exc_bind] in H2; [|discriminate].
  rewrite H2. destruct (member "servers" root) as [js|w2]; cbn [exc_bind] in H3; [|reflexivity].
  by rewrite H3.
Qed.

(** ** The decoded fields fit their C++ types *)

Lemma obj_find_wf (k : string) (m : list (string * Value)) (w : Value) :
  forallb (fun kv => value_wf (snd kv)) m = true -> obj_find k m = Some w -> value_wf w = true.
Proof.
  induction m as [|[k' x] m IH]; cbn; [discriminate|].
  intros [Hx Hm]%andb_prop. destruct (k =? k'); [by intros [= <-]|by apply IH].
Qed.

Lemma get_wf (k : string) (d v w : Value) :
  value_wf d = true -> value_wf v = true -> get k d v = Ok w -> value_wf w = true.
Proof.
  intros Hd Hv. destruct v as [| | | | | |m]; cbn; try discriminate; [by intros [= <-]|].
  rewrite value_wf_object in Hv. intros [= <-].
  destruct (obj_find k m) eqn:E; cbn; [by apply (obj_find_wf k m)|exact Hd].
Qed.

Lemma member_wf (k : string) (v w : Value) :
  value_wf v = true -> member k v = Ok w -> value_wf w = true.
Proof.
  intros Hv. destruct v as [| | | | | |m]; cbn; try discriminate; [by intros [= <-]|].
  apply (get_wf k VNull (VObject m)); [done|exact Hv].
Qed.

Lemma index_wf (i : nat) (v w : Value) :
  value_wf v = true -> index i v = Ok w -> value_wf w = true.
Proof.
  intros Hl. destruct v as [| | | | |l|]; unfold index; try discriminate; [by intros [= <-]|].
  rewrite value_wf_array in Hl. intros [= <-].
  destruct (nth_in_or_default i l VNull) as [Hin | ->]; [|done].
  by apply (proj1 (forallb_forall _ _) Hl).
Qed.

Lemma asInt_int32 (v : Value) (z : Z) : value_wf v = true -> asInt v = Ok z -> int32 z = true.
Proof.
  destruct v as [|b|z'|z'| | |]; cbn; try discriminate; intros Hw.
  - by intros [= <-].
  - intros [= <-]. by destruct b.
  - destruct (in_range minInt maxInt z') eqn:E; [by intros [= <-]|discriminate].
  - destruct (z' <=? maxInt)%Z eqn:E; [intros [= <-]|discriminate].
    unfold int32, in_range, minInt, maxInt, maxUInt64 in *.
    apply andb_prop in Hw as [H0 _]. apply Z.leb_le in H0, E.
    apply andb_true_intro; split; apply Z.leb_le; lia.
Qed.

Lemma asInt64_int64 (v : Value) (z : Z) : value_wf v = true -> asInt64 v = Ok z -> int64 z = true.
Proof.
  destruct v as [|b|z'|z'| | |]; cbn; try discriminate; intros Hw.
  - by intros [= <-].
  - intros [= <-]. by destruct b.
  - by intros [= <-].
  - destruct (z' <=? maxInt64)%Z eqn:E; [intros [= <-]|discriminate].
    unfold int64, in_range, minInt64, maxInt64, maxUInt64 in *.
    apply andb_prop in Hw as [H0 _]. apply Z.leb_le in H0, E.
    apply andb_true_intro; split; apply Z.leb_le; lia.
Qed.

Lemma field_typed {A} (k : string) (conv : Value -> exc A) (P : A -> bool) (v : Value) (a : A) :
  (forall w a, value_wf w = true -> conv w = Ok a -> P a = true) ->
  value_wf v = true -> field k conv v = Ok a -> P a = true.
Proof.
  intros Hc Hv. unfold field, exc_bind.
  destruct (member k v) as [w|] eqn:E; [|discriminate]. apply Hc. by apply (member_wf k v).
Qed.

Lemma field_or_typed {A} (k : string) (d : Value) (conv : Value -> exc A) (P : A -> bool) (v : Value) (a : A) :
  (forall w a, value_wf w = true -> conv w = Ok a -> P a = true) ->
  value_wf d = true -> value_wf v = true -> field_or k d conv v = Ok a -> P a = true.
Proof.
  intros Hc Hd Hv. unfold field_or, exc_bind.
  destruct (get k d v) as [w|] eqn:E; [|discriminate]. apply Hc. by apply (get_wf k d v).
Qed.

#[local] Hint Resolve asInt_int32 asInt64_int64 : conn.

Lemma decode_process_typed (p : Value) (rp : SRunningProcess.t) :
  value_wf p = true -> decode_process p = Ok rp -> process_typed rp = true.
Proof.
  intros Hp. unfold decode_process, exc_bind.
  destruct (field "action" asString p) as [a|]; [|discriminate].
  destruct (field "percent_done" asInt p) as [pd|] eqn:E1; [|discriminate].
  destruct (field "eta_ms" asInt64 p) as [e|] eqn:E2; [|discriminate].
  destruct (field_or "details" (VString "") asString p) as [d|]; [|discriminate].
  destruct (field_or "detail_pc" (VInt (-1)) asInt p) as [dpc|] eqn:E3; [|discriminate].
  destruct (field_or "process_id" (VInt 0) asInt64 p) as [pid|] eqn:E4; [|discriminate].
  intros [= <-]. unfold process_typed. cbn.
  rewrite (field_typed _ _ int32 _ _ asInt_int32 Hp E1), (field_typed _ _ int64 _ _ asInt64_int64 Hp E2),
    (field_or_typed "detail_pc" (VInt (-1)) asInt int32 p dpc asInt_int32 eq_refl Hp E3),
    (field_or_typed "process_id" (VInt 0) asInt64 int64 p pid asInt64_int64 eq_refl Hp E4).
  done.
Qed.

Lemma processes_loop_typed (arr : Value) (i n : nat) (l : list SRunningProcess.t) :
  value_wf arr = true -> processes_loop arr i n = Ok l -> forallb process_typed l = true.
Proof.
  intros Ha. revert i l. induction n as [|n IH]; intros i l; cbn; [by intros [= <-]|].
  unfold exc_bind. destruct (index i arr) as [p|] eqn:E; [|discriminate].
  destruct (decode_process p) as [rp|] eqn:Ep; [|discriminate].
  destruct (processes_loop arr (S i) n) as [rest|] eqn:Er; [|discriminate].
  intros [= <-]. cbn. rewrite (IH (S i) rest Er).
  rewrite (decode_process_typed p rp); [done|by apply (index_wf i arr)|exact Ep].
Qed.

(** One step of the [try] block of [getStatusDetails]: an assignment of
    a typed value, or an exception that leaves the object as it is. *)
Lemma est_step_typed {A B} (P : SStatusDetails.t -> bool) (m : exc A) (Q : A -> bool)
    (upd : A -> SStatusDetails.t -> SStatusDetails.t) (k : EST SStatusDetails.t B) (r : SStatusDetails.t) :
  P r = true ->
  (forall a, m = Ok a -> Q a = true) ->
  (forall a r, Q a = true -> P r = true -> P (upd a r) = true) ->
  (forall r, P r = true -> P (snd (k r)) = true) ->
  P (snd ((let# a := est_lift m in do# est_modify (upd a); k) r)) = true.
Proof.
  intros Hr Hm Hu Hk. unfold est_bind, est_lift, est_modify.
  destruct m as [a|w]; [|exact Hr]. apply Hk, Hu; [by apply Hm|exact Hr].
Qed.

(** An assignment of a typed value to a field keeps the object typed. *)
Ltac typed_upd :=
  let a := fresh "a" in let r := fresh "r" in
  intros a [] ? ?; unfold details_typed in *; cbn in *; rewrite ?andb_true_iff in *; tauto.

Lemma decode_details_typed (root : Value) (r : SStatusDetails.t) :
  value_wf root = true -> details_typed r = true -> details_typed (snd (decode_details root r)) = true.
Proof.
  intros Hw Hr. unfold decode_details.
  apply (est_step_typed _ _ int64 _ _ _ Hr);
    [intros a; apply (field_typed _ _ _ _ _ asInt64_int64 Hw)|typed_upd|intros r1 Hr1].
  unfold est_bind at 1, est_lift at 1.
  destruct (member "running_processes" root) as [jrp|] eqn:Ej; [|exact Hr1].
  apply (est_step_typed _ _ (forallb process_typed) _ _ _ Hr1);
    [intros a; apply processes_loop_typed; exact (member_wf _ _ _ Hw Ej)|typed_upd|intros r2 Hr2].
  unfold est_bind at 1, est_lift at 1.
  destruct (member "servers" root) as [js|]; [|exact Hr2].
  apply (est_step_typed _ _ (fun _ => true) _ _ _ Hr2); [done|typed_upd|intros r3 Hr3].
  apply (est_step_typed _ _ int64 _ _ _ Hr3);
    [intros a; apply (field_typed _ _ _ _ _ asInt64_int64 Hw)|typed_upd|intros r4 Hr4].
  apply (est_step_typed _ _ (fun _ => true) _ _ _ Hr4); [done|typed_upd|intros r5 Hr5].
  apply (est_step_typed _ _ (fun _ => true) _ _ _ Hr5); [done|typed_upd|intros r6 Hr6].
  apply (est_step_typed _ _ int32 _ _ _ Hr6);
    [intros a; apply (field_typed _ _ _ _ _ asInt_int32 Hw)|typed_upd|intros r7 Hr7].
  unfold est_modify. by destruct r7.
Qed.

(** ** The commands, unfolded *)

Section Unfold.
Context `{JsonReader}.

Lemma getSharedPaths_eq (to : Z) (sb : bool) (s : St) :
  getSharedPaths to sb s =
  let '(d, s1) := call to sb "GET BACKUP DIRS" "" false s in
  if d =? "" then ([], set_conn (set_error true (conn s1)) s1)
  else (match reader_parse d with None => [] | Some root => snd (decode_dirs root []) end, s1).
Proof.
  unfold getSharedPaths, st_bind, st_ret, put_error, st_modify.
  destruct (call to sb "GET BACKUP DIRS" "" false s) as [d s1].
  destruct (d =? ""); [done|]. by destruct (reader_parse d).
Qed.

Lemma getStatusDetails_eq (to : Z) (sb : bool) (c : SConnection) (s : St) :
  getStatusDetails to sb c s =
  let '((d, c'), s1) := getResponse "STATUS DETAIL" "" false c to sb s in
  let ret := SStatusDetails.set_ok false SStatusDetails.default in
  ((match reader_parse d with None => ret | Some root => snd (decode_details root ret) end, c'), s1).
Proof.
  unfold getStatusDetails, st_bind, st_ret.
  destruct (getResponse "STATUS DETAIL" "" false c to sb s) as [[d c'] s1].
  by destruct (reader_parse d).
Qed.

Lemma getCapabilities_eq (to : Z) (sb : bool) (s : St) :
  fst (getCapabilities to sb s) =
  let status := fst (fst (getStatusDetails to sb None s)) in
  if SStatusDetails.ok status then SStatusDetails.capability_bits status else 0%Z.
Proof.
  unfold getCapabilities, st_bind, st_ret.
  by destruct (getStatusDetails to sb None s) as [[st c'] s1].
Qed.

Lemma restoreOk_eq (to : Z) (sb b : bool) (pid : Z) (s : St) :
  fst (restoreOk to sb b pid s) =
  match reader_parse (fst (call to sb "RESTORE OK" ("ok=" ++ nconvert_bool b) false s)) with
  | None => (Ok false, pid)
  | Some root => restore_decode root pid
  end.
Proof.
  unfold restoreOk, st_bind, st_ret.
  destruct (call to sb "RESTORE OK" ("ok=" ++ nconvert_bool b) false s) as [d s1].
  cbn [fst]. by destruct (reader_parse d).
Qed.
End Unfold.

(** ** [getSharedPaths] *)

(** C29 (functional): when the reply parses to a document whose [dirs]
    member is an array of directory entries, [getSharedPaths] returns the
    entries without a non-null [virtual_client], in their order (spec
    section 8, directory filtering). *)
Theorem getSharedPaths_filter `{JsonReader} (to : Z) (sb : bool) (s : St) (root : Value)
    (l : list Value) :
  let d := fst (call to sb "GET BACKUP DIRS" "" false s) in
  d <> "" -> reader_parse d = Some root -> member "dirs" root = Ok (VArray l) ->
  Forall dir_entry_ok l ->
  fst (getSharedPaths to sb s) = dirs_ref l.
Proof.
  intros d Hd Hp Hm Hall. rewrite getSharedPaths_eq. subst d.
  destruct (call to sb "GET BACKUP DIRS" "" false s) as [d s1]. cbn [fst] in *.
  rewrite (proj2 (String.eqb_neq d "") Hd), Hp. by rewrite (decode_dirs_filter root l [] Hm Hall).
Qed.

(** C30 (error, finding): an entry without a [path] makes [asCString]
    throw; the [catch] returns the directories before it, and the caller
    receives a shorter list that looks complete.  The spec asks a decode
    error to give a default result. *)
Theorem getSharedPaths_truncated `{JsonReader} (to : Z) (sb : bool) (s : St) (root : Value)
    (l1 l2 : list Value) (m : list (string * Value)) :
  let d := fst (call to sb "GET BACKUP DIRS" "" false s) in
  d <> "" -> reader_parse d = Some root ->
  member "dirs" root = Ok (VArray (l1 ++ VObject m :: l2)) -> Forall dir_entry_ok l1 ->
  obj_find "virtual_client" m = None -> obj_find "path" m = None ->
  fst (getSharedPaths to sb s) = dirs_ref l1.
Proof.
  intros d Hd Hp Hm Hall Hv Hpath. rewrite getSharedPaths_eq. subst d.
  destruct (call to sb "GET BACKUP DIRS" "" false s) as [d s1]. cbn [fst] in *.
  rewrite (proj2 (String.eqb_neq d "") Hd), Hp. cbn [fst].
  exact (decode_dirs_missing_path root l1 l2 m [] Hm Hall Hv Hpath).
Qed.

(** An empty reply, whatever caused it, gives no directories
    and sets [error]. *)
Lemma getSharedPaths_empty `{JsonReader} (to : Z) (sb : bool) (s : St) :
  fst (call to sb "GET BACKUP DIRS" "" false s) = "" ->
  fst (getSharedPaths to sb s) = [] /\ Connector.error (conn (snd (getSharedPaths to sb s))) = true.
Proof.
  intros Hd. rewrite getSharedPaths_eq.
  destruct (call to sb "GET BACKUP DIRS" "" false s) as [d s1]. cbn [fst] in Hd. subst d. done.
Qed.

(** ** [getStatusDetails] and [getCapabilities] *)

(** C31 (round trip): a status document built from an [SStatusDetails]
    whose 32-bit fields fit an [int] decodes back to that object, with
    [ok] set. *)
Theorem getStatusDetails_roundtrip `{JsonReader} (to : Z) (sb : bool) (c : SConnection) (s : St)
    (sd : SStatusDetails.t) :
  reader_parse (fst (fst (getResponse "STATUS DETAIL" "" false c to sb s))) = Some (details_json sd) ->
  procs_in_range sd -> in_range minInt maxInt (SStatusDetails.capability_bits sd) = true ->
  fst (fst (getStatusDetails to sb c s)) = SStatusDetails.set_ok true sd.
Proof.
  intros Hp Hr Hc. rewrite getStatusDetails_eq.
  destruct (getResponse "STATUS DETAIL" "" false c to sb s) as [[d c'] s1]. cbn [fst] in *.
  rewrite Hp, decode_details_json, Hc by exact Hr. reflexivity.
Qed.

(** C33 (error, finding): when the document fails at the servers (a
    member of the wrong type), [getStatusDetails] returns [ok = false]
    with [last_backup_time] and [running_processes] already assigned
    from the document; the spec asks for default fields. *)
Theorem getStatusDetails_partial `{JsonReader} (to : Z) (sb : bool) (c : SConnection) (s : St)
    (root : Value) (t : Z) (rps : list SRunningProcess.t) (w : string) :
  reader_parse (fst (fst (getResponse "STATUS DETAIL" "" false c to sb s))) = Some root ->
  field "last_backup_time" asInt64 root = Ok t ->
  (let! jrp := member "running_processes" root in processes_loop jrp 0 (size jrp)) = Ok rps ->
  (let! js := member "servers" root in servers_loop js 0 (size js)) = Throw w ->
  fst (fst (getStatusDetails to sb c s)) =
  SStatusDetails.set_running_processes rps
    (SStatusDetails.set_last_backup_time t (SStatusDetails.set_ok false SStatusDetails.default)).
Proof.
  intros Hp H1 H2 H3. rewrite getStatusDetails_eq.
  destruct (getResponse "STATUS DETAIL" "" false c to sb s) as [[d c'] s1]. cbn [fst] in *.
  rewrite Hp. exact (decode_details_servers_throw root _ t rps w H1 H2 H3).
Qed.

(** C34 (bounds): [getCapabilities] returns the capability bits the
    daemon sends exactly when they fit a signed 32-bit [int]; bits
    beyond it ([2^31] and up) make [asInt] throw and every capability is
    reported absent. *)
Theorem getCapabilities_bits `{JsonReader} (to : Z) (sb : bool) (s : St) (sd : SStatusDetails.t) :
  reader_parse (fst (fst (getResponse "STATUS DETAIL" "" false None to sb s))) = Some (details_json sd) ->
  procs_in_range sd ->
  fst (getCapabilities to sb s) =
  if in_range minInt maxInt (SStatusDetails.capability_bits sd) then SStatusDetails.capability_bits sd
  else 0%Z.
Proof.
  intros Hp Hr. rewrite getCapabilities_eq, getStatusDetails_eq.
  destruct (getResponse "STATUS DETAIL" "" false None to sb s) as [[d c'] s1]. cbn [fst] in *.
  rewrite Hp, decode_details_json by exact Hr.
  by destruct (in_range minInt maxInt (SStatusDetails.capability_bits sd)), sd.
Qed.

(** C32 (type): with a reader that builds only well-typed values, every
    [SStatusDetails] that [getStatusDetails] returns, decoded in full or
    cut short by an exception, holds in its [int] fields 32-bit values and
    in its [int64_t] fields 64-bit values: the model's unbounded integers
    never leave the C++ types of [Connector.h]. *)
Theorem getStatusDetails_typed `{JsonReaderWf} (to : Z) (sb : bool) (c : SConnection) (s : St) :
  details_typed (fst (fst (getStatusDetails to sb c s))) = true.
Proof.
  rewrite getStatusDetails_eq.
  destruct (getResponse "STATUS DETAIL" "" false c to sb s) as [[d c'] s1]. cbn [fst].
  destruct (reader_parse d) as [root|] eqn:E; [|done].
  apply decode_details_typed; [by apply (reader_wf d)|done].
Qed.

(** The optional members of a running process take the
    defaults of lines 469-472: [details] empty, [detail_pc] -1,
    [process_id] 0. *)
Lemma decode_process_defaults (m : list (string * Value)) (a : string) (pc e : Z) :
  obj_find "action" m = Some (VString a) -> obj_find "percent_done" m = Some (VInt pc) ->
  in_range minInt maxInt pc = true -> obj_find "eta_ms" m = Some (VInt e) ->
  obj_find "details" m = None -> obj_find "detail_pc" m = None -> obj_find "process_id" m = None ->
  decode_process (VObject m) = Ok (SRunningProcess.mk a pc e "" (-1) 0).
Proof.
  intros Ha Hpc Hr He Hd Hdp Hpi.
  unfold decode_process, field, field_or, member, get, exc_bind.
  rewrite Ha, Hpc, He, Hd, Hdp, Hpi. cbn. by rewrite Hr.
Qed.

(** ** [restoreOk] *)

(** C35 (functional): an accepted reply stores its [process_id] in the
    caller's variable; [restoreOk] returns the reply's [ok]. *)
Theorem restoreOk_reply `{JsonReader} (to : Z) (sb o : bool) (pid p : Z) (s : St)
    (m : list (string * Value)) (a b : bool) :
  reader_parse (fst (call to sb "RESTORE OK" ("ok=" ++ nconvert_bool o) false s)) = Some (VObject m) ->
  obj_find "accepted" m = Some (VBool a) -> obj_find "ok" m = Some (VBool b) ->
  (a = true -> obj_find "process_id" m = Some (VInt p)) ->
  fst (restoreOk to sb o pid s) = (Ok b, if a then p else pid).
Proof.
  intros Hp Ha Hb Hpid. rewrite restoreOk_eq, Hp.
  unfold restore_decode, est_bind, est_lift, est_modify, est_ret, field, field_or, member, get, exc_bind.
  rewrite Ha. cbn [default asBool]. destruct a; [rewrite Hpid by done|]; by rewrite Hb.
Qed.

(** C36 (error, finding): [restoreOk] has no [try]: when the reply's [ok]
    is not convertible to a boolean, the exception escapes to the caller,
    after the [process_id] of an accepted reply has already been stored.
    The spec says decode errors never raise past the decoder. *)
Theorem restoreOk_escapes `{JsonReader} (to : Z) (sb o : bool) (pid p : Z) (s : St)
    (m : list (string * Value)) (x : string) :
  reader_parse (fst (call to sb "RESTORE OK" ("ok=" ++ nconvert_bool o) false s)) = Some (VObject m) ->
  obj_find "accepted" m = Some (VBool true) -> obj_find "process_id" m = Some (VInt p) ->
  obj_find "ok" m = Some (VString x) ->
  exists w, fst (restoreOk to sb o pid s) = (Throw w, p).
Proof.
  intros Hp Ha Hpid Hok. rewrite restoreOk_eq, Hp.
  unfold restore_decode, est_bind, est_lift, est_modify, field, field_or, member, get, exc_bind.
  rewrite Ha. cbn [default asBool]. rewrite Hpid, Hok. cbn. eauto.
Qed.

(** ** Witnesses *)

Lemma getSharedPaths_filter_witness :
  fst (getSharedPaths 5000 true (reply_state dirs_doc)) = dirs_ref [dir1; vm_dir].
Proof.
  apply (getSharedPaths_filter 5000 true (reply_state dirs_doc) (VObject [("dirs", VArray [dir1; vm_dir])]));
    [vm_compute; discriminate|vm_compute; reflexivity|reflexivity|].
  constructor; [right; vm_compute; discriminate|constructor; [left; reflexivity|constructor]].
Defined.

Lemma getSharedPaths_truncated_witness :
  fst (getSharedPaths 5000 true (reply_state dirs_nopath_doc)) = dirs_ref [dir1].
Proof.
  apply (getSharedPaths_truncated 5000 true (reply_state dirs_nopath_doc)
           (VObject [("dirs", VArray [dir1; VObject [("name", VString "x")]; dir1])])
           [dir1] [dir1] [("name", VString "x")]);
    [vm_compute; discriminate|vm_compute; reflexivity|reflexivity| |reflexivity|reflexivity].
  constructor; [right; vm_compute; discriminate|constructor].
Defined.

Lemma getStatusDetails_roundtrip_witness :
  fst (fst (getStatusDetails 5000 true None (reply_state (status_doc "65" server_text)))) =
  SStatusDetails.set_ok true (status_sd 65).
Proof.
  apply getStatusDetails_roundtrip; [vm_compute; reflexivity| |reflexivity].
  repeat constructor.
Defined.

Lemma getStatusDetails_partial_witness :
  fst (fst (getStatusDetails 5000 true None (reply_state (status_doc "65" bad_server_text)))) =
  SStatusDetails.set_running_processes (SStatusDetails.running_processes (status_sd 65))
    (SStatusDetails.set_last_backup_time 1700000000
       (SStatusDetails.set_ok false SStatusDetails.default)).
Proof.
  apply (getStatusDetails_partial _ _ _ _
           (match parse (status_doc "65" bad_server_text) with Some v => v | None => VNull end)
           _ _ "Value is not convertible to bool.");
    vm_compute; reflexivity.
Defined.

Lemma getCapabilities_bits_witness :
  fst (getCapabilities 5000 true (reply_state (status_doc "2147483648" server_text))) =
  if in_range minInt maxInt (SStatusDetails.capability_bits (status_sd 2147483648))
  then SStatusDetails.capability_bits (status_sd 2147483648) else 0%Z.
Proof. apply getCapabilities_bits; [vm_compute; reflexivity|repeat constructor]. Defined.

Lemma restoreOk_reply_witness :
  fst (restoreOk 5000 true true 0 (reply_state (restore_doc "true"))) = (Ok true, 12%Z).
Proof.
  apply (restoreOk_reply _ _ _ _ _ _ [("accepted", VBool true); ("process_id", VInt 12); ("ok", VBool true)]
           true true); [vm_compute; reflexivity|reflexivity|reflexivity|reflexivity].
Defined.

Lemma restoreOk_escapes_witness :
  exists w, fst (restoreOk 5000 true true 0 (reply_state (restore_doc (js "yes")))) = (Throw w, 12%Z).
Proof.
  apply (restoreOk_escapes _ _ _ _ _ _ [("accepted", VBool true); ("process_id", VInt 12); ("ok", VString "yes")]
           "yes"); [vm_compute; reflexivity|reflexivity|reflexivity|reflexivity].
Defined.

Lemma getStatusDetails_typed_witness :
  details_typed (fst (fst (getStatusDetails 10000 false None
    (reply_state (status_doc "5" server_text))))) = true.
Proof. apply getStatusDetails_typed. Defined.
